(** * Azure DevOps MCP HTTP server: authentication gateway and transport bridge

    A shallow embedding of [src/auth.ts] (class [AuthService]),
    [src/http-transport.ts] (class [HttpTransport]), [src/http-server.ts]
    (class [AzureDevOpsMcpHttpServer]: middleware, routes and handlers),
    [src/config.ts] and the command line of [src/index.ts], with the
    properties of the specification that concern them.

    Conventions.
    - A JavaScript string is a [string] holding its UTF-8 bytes.
    - Asynchronous code is embedded in the order in which its [await]s
      complete; every handler runs one request at a time.
    - What lies outside the repository (the JWT library, the downstream API,
      the token endpoint, the protocol server of the SDK, the rate limiter
      and the body parsers of Express) is an oracle: a field of an
      environment record, over which every theorem quantifies.
    - JSON that the code reads without checking it (the payload of a
      verified token, the body of a request) is a value, not a record.
    - Calls that matter for ordering properties are recorded in a trace. *)

From Stdlib Require Import String Ascii List ZArith NArith Bool Lia DecimalString
  DecimalPos.
Import ListNotations.
Open Scope string_scope.
Open Scope Z_scope.

(* ================================================================== *)
(** * Part I: definitions *)
(* ================================================================== *)

(** ** JavaScript values *)

Module JS.

(** The values that flow through the handlers.  [JNum] holds the integer
    numbers; [JReal] holds a number literal that has a fraction or an exponent,
    as written (nothing computes with it).  [JError] is an [Error] object. *)
#[warnings="-register-all"]
Inductive jsval : Type :=
| JUndefined
| JNull
| JBool (b : bool)
| JNum (n : Z)
| JReal (literal : string)
| JStr (s : string)
| JArr (items : list jsval)
| JObj (fields : list (string * jsval))
| JError (message : string).

(** The digits at the head of [s]: their value after [acc], their number
    after [count], and what follows them. *)
Fixpoint read_digits (acc count : Z) (s : string) : Z * Z * string :=
  match s with
  | String c r =>
      let n := Z.of_N (N_of_ascii c) in
      if (48 <=? n) && (n <=? 57) then read_digits (10 * acc + (n - 48)) (count + 1) r
      else (acc, count, s)
  | EmptyString => (acc, count, s)
  end.

(** Whether the number literal [l] is read as zero: its digits are all [0],
    or the number is so small that the nearest double is zero (it is at
    most 2^-1075). *)
Definition literal_is_zero (l : string) : bool :=
  let unsigned := match l with String "-" r => r | _ => l end in
  let '(i, _, s1) := read_digits 0 0 unsigned in
  let '(m, scale, s2) :=
    match s1 with
    | String "." r => read_digits i 0 r
    | _ => (i, 0, s1)
    end in
  let e :=
    match s2 with
    | String "e" r | String "E" r =>
        match r with
        | String "-" r' => - fst (fst (read_digits 0 0 r'))
        | String "+" r' => fst (fst (read_digits 0 0 r'))
        | _ => fst (fst (read_digits 0 0 r))
        end
    | _ => 0
    end in
  (m =? 0) || ((e - scale <? 0) && (m * 2 ^ 1075 <=? 10 ^ (scale - e))).

(** [!!v]: every value is truthy but [undefined], [null], [false], [0] and
    the empty string. *)
Definition truthy (v : jsval) : bool :=
  match v with
  | JUndefined | JNull => false
  | JBool b => b
  | JNum n => negb (n =? 0)
  | JReal l => negb (literal_is_zero l)
  | JStr s => negb (s =? "")%string
  | JArr _ | JObj _ | JError _ => true
  end.

(** [a || b] *)
Definition or_else (a b : jsval) : jsval := if truthy a then a else b.

Fixpoint assoc (k : string) (fields : list (string * jsval)) : jsval :=
  match fields with
  | [] => JUndefined
  | (k', v) :: rest => if (k' =? k)%string then v else assoc k rest
  end.

(** [o[k] = v] on the fields of an object: an existing key keeps its place. *)
Fixpoint obj_set (k : string) (v : jsval) (fields : list (string * jsval))
  : list (string * jsval) :=
  match fields with
  | [] => [(k, v)]
  | (k', v') :: rest =>
      if (k' =? k)%string then (k, v) :: rest else (k', v') :: obj_set k v rest
  end.

(** [v.k]: [None] is the TypeError of reading a property of [undefined] or
    [null]; the properties of the prototypes ([length] and the like) are not
    modelled. *)
Definition get_prop (v : jsval) (k : string) : option jsval :=
  match v with
  | JUndefined | JNull => None
  | JObj fields => Some (assoc k fields)
  | _ => Some JUndefined
  end.

(** [Object.keys(v).length], on a value that is neither [undefined] nor
    [null] (there [Object.keys] throws; the one caller tests [!v] first). *)
Definition keys_length (v : jsval) : nat :=
  match v with
  | JObj fields => List.length fields
  | JArr items => List.length items
  | JStr s => String.length s
  | _ => O
  end.

(** The decimal digits of an integer, with its sign: what [String(n)] and
    [n.toString()] write for an integer of magnitude below 2^53.  (Beyond it
    a JavaScript number keeps seventeen digits at most, and from 10^21 on it
    is written with an exponent; no property here depends on such
    numbers.) *)
Definition string_of_Z (n : Z) : string := NilZero.string_of_int (Z.to_int n).

Fixpoint join (sep : string) (l : list string) : string :=
  match l with
  | [] => ""
  | [x] => x
  | x :: rest => x ++ sep ++ join sep rest
  end.

(** [String(v)], as a template literal computes it. *)
Fixpoint to_string (v : jsval) : string :=
  match v with
  | JUndefined => "undefined"
  | JNull => "null"
  | JBool true => "true"
  | JBool false => "false"
  | JNum n => string_of_Z n
  | JReal l => l
  | JStr s => s
  | JArr items =>
      join "," (map (fun x => match x with
                              | JUndefined | JNull => ""
                              | _ => to_string x
                              end) items)
  | JObj _ => "[object Object]"
  | JError m => "Error: " ++ m
  end.

(** [s.startsWith(p)] *)
Definition startsWith (p s : string) : bool := String.prefix p s.

(** [s.substring(n)] *)
Fixpoint substring_from (n : nat) (s : string) : string :=
  match n, s with
  | O, _ => s
  | S n', String _ r => substring_from n' r
  | S _, EmptyString => ""
  end.

(** [s.includes(p)] *)
Fixpoint includes (p s : string) : bool :=
  String.prefix p s ||
  match s with
  | EmptyString => false
  | String _ r => includes p r
  end.

(** [s.split(sep)[0]] for a one-character separator. *)
Fixpoint before_first (sep : ascii) (s : string) : string :=
  match s with
  | EmptyString => ""
  | String c r => if Ascii.eqb c sep then "" else String c (before_first sep r)
  end.

(** An optional string as JavaScript sees it ([undefined] when absent). *)
Definition opt_truthy (o : option string) : bool :=
  match o with
  | Some s => negb (s =? "")%string
  | None => false
  end.

Definition opt_or (a b : option string) : option string :=
  if opt_truthy a then a else b.

Definition opt_to_string (o : option string) : string :=
  match o with
  | Some s => s
  | None => "undefined"
  end.

Definition of_opt (o : option string) : jsval :=
  match o with
  | Some s => JStr s
  | None => JUndefined
  end.

(** [v?.startsWith(p)] as a condition: [undefined] and [null] short-circuit
    to a falsy [undefined]; a string answers; any other value has no
    [startsWith] and the call throws a TypeError ([None]). *)
Definition opt_startsWith (v : jsval) (p : string) : option bool :=
  match v with
  | JUndefined | JNull => Some false
  | JStr s => Some (startsWith p s)
  | _ => None
  end.


(** [v === 'lit'] *)
Definition strict_eq_str (v : jsval) (lit : string) : bool :=
  match v with
  | JStr s => (s =? lit)%string
  | _ => false
  end.

End JS.

Import JS.

(** ** Characters *)

Module Chars.

Definition dquote : ascii := Ascii.ascii_of_nat 34.
Definition backslash : ascii := Ascii.ascii_of_nat 92.

Definition code (c : ascii) : N := N_of_ascii c.

Definition in_range (lo hi : N) (c : ascii) : bool :=
  ((lo <=? code c) && (code c <=? hi))%N.

Definition is_digit (c : ascii) : bool := in_range 48 57 c.
Definition is_alpha (c : ascii) : bool := in_range 65 90 c || in_range 97 122 c.

Fixpoint mem (c : ascii) (s : string) : bool :=
  match s with
  | EmptyString => false
  | String d r => Ascii.eqb c d || mem c r
  end.

Definition hex_upper (n : N) : ascii :=
  ascii_of_N (if (n <? 10)%N then 48 + n else 55 + n)%N.

Definition hex_lower (n : N) : ascii :=
  ascii_of_N (if (n <? 10)%N then 48 + n else 87 + n)%N.

Definition hex_value (c : ascii) : option N :=
  if in_range 48 57 c then Some (code c - 48)%N
  else if in_range 65 70 c then Some (code c - 55)%N
  else if in_range 97 102 c then Some (code c - 87)%N
  else None.

End Chars.

(** ** [encodeURIComponent] and [decodeURIComponent] *)

Module URI.
Import Chars.

(** The characters [encodeURIComponent] leaves as they are. *)
Definition unreserved (c : ascii) : bool :=
  is_alpha c || is_digit c || mem c "-_.!~*'()".

(** Every other byte of the UTF-8 form becomes [%XX], upper-case. *)
Definition escape (c : ascii) : string :=
  String "%" (String (hex_upper (code c / 16)) (String (hex_upper (code c mod 16)) "")).

Fixpoint encodeURIComponent (s : string) : string :=
  match s with
  | EmptyString => ""
  | String c r =>
      if unreserved c then String c (encodeURIComponent r)
      else escape c ++ encodeURIComponent r
  end.

(** [None] is the URIError of a [%] that two hexadecimal digits do not
    follow.  The check that the decoded bytes are well-formed UTF-8 is not
    modelled. *)
Fixpoint decodeURIComponent (s : string) : option string :=
  match s with
  | EmptyString => Some ""
  | String c r =>
      if Ascii.eqb c "%" then
        match r with
        | String h (String l r') =>
            match hex_value h, hex_value l with
            | Some a, Some b =>
                option_map (String (ascii_of_N (16 * a + b))) (decodeURIComponent r')
            | _, _ => None
            end
        | _ => None
        end
      else option_map (String c) (decodeURIComponent r)
  end.

End URI.

(** ** [JSON.stringify] and [JSON.parse] *)

Module JSON.
Import Chars.

(** QuoteJSONString, one character at a time: the quote and the backslash
    are escaped, the control characters take their short form or [\u00xx],
    every other byte stays. *)
Definition quote_char (c : ascii) : string :=
  let n := code c in
  if (n =? 8)%N then String backslash "b"
  else if (n =? 9)%N then String backslash "t"
  else if (n =? 10)%N then String backslash "n"
  else if (n =? 12)%N then String backslash "f"
  else if (n =? 13)%N then String backslash "r"
  else if (n =? 34)%N then String backslash (String dquote "")
  else if (n =? 92)%N then String backslash (String backslash "")
  else if (n <? 32)%N then
    String backslash
      (String "u" (String "0" (String "0"
         (String (hex_lower (n / 16)) (String (hex_lower (n mod 16)) "")))))
  else String c "".

Fixpoint quote_chars (s : string) : string :=
  match s with
  | EmptyString => ""
  | String c r => quote_char c ++ quote_chars r
  end.

Definition quote (s : string) : string :=
  String dquote (quote_chars s ++ String dquote "").

(** [JSON.stringify(v)] without indentation.  [None] is the [undefined] it
    returns for [undefined]; a member whose value is [undefined] is left out
    of an object and becomes [null] in an array; an [Error] has no enumerable
    property. *)
Fixpoint stringify (v : jsval) : option string :=
  match v with
  | JUndefined => None
  | JNull => Some "null"
  | JBool true => Some "true"
  | JBool false => Some "false"
  | JNum n => Some (string_of_Z n)
  | JReal l => Some l
  | JStr s => Some (quote s)
  | JArr items =>
      Some ("[" ++ join ","
                     (map (fun x => match stringify x with
                                    | Some t => t
                                    | None => "null"
                                    end) items) ++ "]")
  | JObj fields =>
      Some ("{" ++ join ","
                     (flat_map (fun kv => match stringify (snd kv) with
                                          | Some t => [quote (fst kv) ++ ":" ++ t]
                                          | None => []
                                          end) fields) ++ "}")
  | JError _ => Some "{}"
  end.

Definition is_ws (c : ascii) : bool :=
  let n := code c in ((n =? 32) || (n =? 9) || (n =? 10) || (n =? 13))%N.

Fixpoint skip_ws (s : string) : string :=
  match s with
  | String c r => if is_ws c then skip_ws r else s
  | EmptyString => ""
  end.

(** The UTF-8 bytes of a code point (a lone surrogate takes three bytes). *)
Definition utf8 (cp : N) : string :=
  (if cp <? 128 then String (ascii_of_N cp) ""
   else if cp <? 2048 then
     String (ascii_of_N (192 + cp / 64)) (String (ascii_of_N (128 + cp mod 64)) "")
   else if cp <? 65536 then
     String (ascii_of_N (224 + cp / 4096))
       (String (ascii_of_N (128 + (cp / 64) mod 64))
          (String (ascii_of_N (128 + cp mod 64)) ""))
   else
     String (ascii_of_N (240 + cp / 262144))
       (String (ascii_of_N (128 + (cp / 4096) mod 64))
          (String (ascii_of_N (128 + (cp / 64) mod 64))
             (String (ascii_of_N (128 + cp mod 64)) ""))))%N.

Definition is_high_surrogate (u : N) : bool := ((55296 <=? u) && (u <=? 56319))%N.
Definition is_low_surrogate (u : N) : bool := ((56320 <=? u) && (u <=? 57343))%N.

Definition flush (pending : option N) : string :=
  match pending with
  | Some hi => utf8 hi
  | None => ""
  end.

Definition simple_escape (e : ascii) : option ascii :=
  if Ascii.eqb e dquote then Some dquote
  else if Ascii.eqb e backslash then Some backslash
  else if Ascii.eqb e "/" then Some "/"%char
  else if Ascii.eqb e "b" then Some (ascii_of_N 8)
  else if Ascii.eqb e "f" then Some (ascii_of_N 12)
  else if Ascii.eqb e "n" then Some (ascii_of_N 10)
  else if Ascii.eqb e "r" then Some (ascii_of_N 13)
  else if Ascii.eqb e "t" then Some (ascii_of_N 9)
  else None.

Definition hex4 (a b c d : ascii) : option N :=
  match hex_value a, hex_value b, hex_value c, hex_value d with
  | Some x, Some y, Some z, Some w => Some (4096 * x + 256 * y + 16 * z + w)%N
  | _, _, _, _ => None
  end.

(** The characters of a string literal, after its opening quote: the
    contents and what follows the closing quote.  [pending] is a high
    surrogate read from a [\u] escape that waits for its low half. *)
Fixpoint string_body (pending : option N) (s : string) : option (string * string) :=
  match s with
  | EmptyString => None
  | String c r =>
      if Ascii.eqb c dquote then Some (flush pending, r)
      else if Ascii.eqb c backslash then
        match r with
        | EmptyString => None
        | String e r1 =>
            if Ascii.eqb e "u" then
              match r1 with
              | String h1 (String h2 (String h3 (String h4 r2))) =>
                  match hex4 h1 h2 h3 h4 with
                  | None => None
                  | Some u =>
                      match pending with
                      | Some hi =>
                          if is_low_surrogate u then
                            option_map
                              (fun p => (utf8 (65536 + (hi - 55296) * 1024 + (u - 56320))%N
                                           ++ fst p, snd p))
                              (string_body None r2)
                          else if is_high_surrogate u then
                            option_map (fun p => (utf8 hi ++ fst p, snd p))
                              (string_body (Some u) r2)
                          else
                            option_map (fun p => (utf8 hi ++ utf8 u ++ fst p, snd p))
                              (string_body None r2)
                      | None =>
                          if is_high_surrogate u then string_body (Some u) r2
                          else
                            option_map (fun p => (utf8 u ++ fst p, snd p))
                              (string_body None r2)
                      end
                  end
              | _ => None
              end
            else
              match simple_escape e with
              | Some x =>
                  option_map (fun p => (flush pending ++ String x (fst p), snd p))
                    (string_body None r1)
              | None => None
              end
        end
      else if (code c <? 32)%N then None
      else
        option_map (fun p => (flush pending ++ String c (fst p), snd p))
          (string_body None r)
  end.

Fixpoint span_digits (s : string) : string * string :=
  match s with
  | String c r =>
      if is_digit c then let p := span_digits r in (String c (fst p), snd p)
      else ("", s)
  | EmptyString => ("", "")
  end.

Fixpoint digits_value (acc : Z) (s : string) : Z :=
  match s with
  | String c r => digits_value (10 * acc + (Z.of_N (code c) - 48)) r
  | EmptyString => acc
  end.

(** The integer part of a number: a single [0], or digits that do not start
    with [0]. *)
Definition int_part (s : string) : option (string * string) :=
  match s with
  | String c r =>
      if Ascii.eqb c "0" then Some ("0", r)
      else if is_digit c then Some (span_digits s)
      else None
  | EmptyString => None
  end.

Definition frac_part (s : string) : option (string * string) :=
  match s with
  | String "." r =>
      match span_digits r with
      | (EmptyString, _) => None
      | (ds, r') => Some (String "." ds, r')
      end
  | _ => Some ("", s)
  end.

Definition exp_part (s : string) : option (string * string) :=
  match s with
  | String c r =>
      if Ascii.eqb c "e" || Ascii.eqb c "E" then
        let '(sign, r1) :=
          match r with
          | String "+" r1 => ("+", r1)
          | String "-" r1 => ("-", r1)
          | _ => ("", r)
          end in
        match span_digits r1 with
        | (EmptyString, _) => None
        | (ds, r') => Some (String c (sign ++ ds), r')
        end
      else Some ("", s)
  | EmptyString => Some ("", s)
  end.

(** A number literal.  Without fraction and exponent it is an integer;
    otherwise it is kept as written. *)
Definition number (s : string) : option (jsval * string) :=
  let '(neg, s1) :=
    match s with
    | String "-" r => (true, r)
    | _ => (false, s)
    end in
  match int_part s1 with
  | None => None
  | Some (ip, r1) =>
      match frac_part r1 with
      | None => None
      | Some (fp, r2) =>
          match exp_part r2 with
          | None => None
          | Some (ep, r3) =>
              match fp, ep with
              | EmptyString, EmptyString =>
                  let n := digits_value 0 ip in
                  Some (JNum (if neg then - n else n), r3)
              | _, _ =>
                  Some (JReal ((if neg then "-" else "") ++ ip ++ fp ++ ep), r3)
              end
          end
      end
  end.

Definition keyword (k : string) (v : jsval) (s : string) : option (jsval * string) :=
  if String.prefix k s then Some (v, substring_from (String.length k) s) else None.

(** A JSON value, then the list forms.  [fuel] bounds the number of nested
    calls; [parse] gives enough of it for any text. *)
Fixpoint value (fuel : nat) (s : string) : option (jsval * string) :=
  match fuel with
  | O => None
  | S f =>
      match skip_ws s with
      | EmptyString => None
      | String c r as t =>
          if Ascii.eqb c "{" then
            match skip_ws r with
            | String "}" r' => Some (JObj [], r')
            | r' => members f r' []
            end
          else if Ascii.eqb c "[" then
            match skip_ws r with
            | String "]" r' => Some (JArr [], r')
            | r' => elements f r' []
            end
          else if Ascii.eqb c dquote then
            option_map (fun p => (JStr (fst p), snd p)) (string_body None r)
          else if Ascii.eqb c "t" then keyword "true" (JBool true) t
          else if Ascii.eqb c "f" then keyword "false" (JBool false) t
          else if Ascii.eqb c "n" then keyword "null" JNull t
          else number t
      end
  end
with elements (fuel : nat) (s : string) (acc : list jsval) : option (jsval * string) :=
  match fuel with
  | O => None
  | S f =>
      match value f s with
      | None => None
      | Some (v, r) =>
          match skip_ws r with
          | String "," r' => elements f r' (acc ++ [v])
          | String "]" r' => Some (JArr (acc ++ [v]), r')
          | _ => None
          end
      end
  end
with members (fuel : nat) (s : string) (acc : list (string * jsval))
  : option (jsval * string) :=
  match fuel with
  | O => None
  | S f =>
      match skip_ws s with
      | String c r =>
          if Ascii.eqb c dquote then
            match string_body None r with
            | None => None
            | Some (k, r1) =>
                match skip_ws r1 with
                | String ":" r2 =>
                    match value f r2 with
                    | None => None
                    | Some (v, r3) =>
                        match skip_ws r3 with
                        | String "," r' => members f r' (obj_set k v acc)
                        | String "}" r' => Some (JObj (obj_set k v acc), r')
                        | _ => None
                        end
                    end
                | _ => None
                end
            end
          else None
      | EmptyString => None
      end
  end.

(** [JSON.parse(text)]; [None] is its SyntaxError. *)
Definition parse (text : string) : option jsval :=
  match value (2 * String.length text + 1) text with
  | Some (v, r) =>
      match skip_ws r with
      | EmptyString => Some v
      | _ => None
      end
  | None => None
  end.

End JSON.

(** ** Traces *)

(** The calls whose order the specification speaks of.  The first four
    belong to authentication and to the OAuth exchange, the last six to the
    protocol layer. *)
Inductive Event : Type :=
| JwtVerify (token secret : string)
| DownstreamCall (orgUrl token : string)
| TokenExchange (code redirectUri clientId clientSecret : string)
| JwtSign (secret : string)
| NewServer
| OpenStream
| ConnectStream
| ConnectDelegate
| Deliver (message : jsval)
| Wait (ms : Z).

Definition is_protocol_event (e : Event) : bool :=
  match e with
  | NewServer | OpenStream | ConnectStream | ConnectDelegate | Deliver _ | Wait _ =>
      true
  | _ => false
  end.

Definition is_downstream_call (e : Event) : bool :=
  match e with
  | DownstreamCall _ _ => true
  | _ => false
  end.

Definition is_delegation_event (e : Event) : bool :=
  match e with
  | ConnectDelegate | Deliver _ | Wait _ => true
  | _ => false
  end.

(** A computation that returns a value and the calls it made, in order. *)
Definition Traced (A : Type) : Type := (A * list Event)%type.

Definition ret {A} (a : A) : Traced A := (a, []).

Definition bind {A B} (m : Traced A) (k : A -> Traced B) : Traced B :=
  let r := k (fst m) in (fst r, (snd m ++ snd r)%list).

Definition emit (e : Event) : Traced unit := (tt, [e]).

Definition result {A} (m : Traced A) : A := fst m.
Definition trace {A} (m : Traced A) : list Event := snd m.

Declare Scope traced_scope.
Delimit Scope traced_scope with traced.
Notation "x <- m ;; k" := (bind m (fun x => k))
  (at level 61, m at next level, right associativity) : traced_scope.
Notation "m ;; k" := (bind m (fun _ => k))
  (at level 61, right associativity) : traced_scope.
Open Scope traced_scope.

(** ** The stream transport ([HttpTransport]) *)

Module Transport.

Definition nl : string := String (Ascii.ascii_of_nat 10) "".

(** The Express response under the transport: its headers, the chunks
    written to it and the number of times it was ended. *)
Record Response : Type := {
  headers : list (string * string);
  chunks : list string;
  end_calls : nat
}.

(** The socket decides whether [write] and [end] throw. *)
Record Socket : Type := {
  write_throws : Response -> string -> option jsval;
  end_throws : Response -> option jsval
}.

Fixpoint setHeader (k v : string) (hs : list (string * string))
  : list (string * string) :=
  match hs with
  | [] => [(k, v)]
  | (k', v') :: rest =>
      if (k' =? k)%string then (k, v) :: rest else (k', v') :: setHeader k v rest
  end.

(** The fields of the class; of the callbacks that the owning session may
    set, what is kept is whether they are set and what they were called
    with. *)
Record HttpTransport : Type := {
  _response : Response;
  _closed : bool;
  sessionId : string;
  onclose_set : bool;
  onerror_set : bool;
  onclose_calls : nat;
  onerror_calls : list jsval
}.

Definition with_response (r : Response) (t : HttpTransport) : HttpTransport :=
  {| _response := r; _closed := _closed t; sessionId := sessionId t;
     onclose_set := onclose_set t; onerror_set := onerror_set t;
     onclose_calls := onclose_calls t; onerror_calls := onerror_calls t |}.

Definition sse_headers (r : Response) : Response :=
  {| headers :=
       setHeader "Access-Control-Allow-Methods" "GET, POST, OPTIONS"
         (setHeader "Access-Control-Allow-Headers" "Content-Type, Authorization"
            (setHeader "Access-Control-Allow-Origin" "*"
               (setHeader "Connection" "keep-alive"
                  (setHeader "Cache-Control" "no-cache"
                     (setHeader "Content-Type" "text/event-stream" (headers r))))));
     chunks := chunks r;
     end_calls := end_calls r |}.

(** [new HttpTransport({request, response})]; [id] is the identifier drawn
    from [Math.random()]. *)
Definition new (id : string) (response : Response) : HttpTransport :=
  {| _response := sse_headers response; _closed := false; sessionId := id;
     onclose_set := false; onerror_set := false;
     onclose_calls := O; onerror_calls := [] |}.

(** [this.onerror?.(error)] *)
Definition report (error : jsval) (t : HttpTransport) : HttpTransport :=
  {| _response := _response t; _closed := _closed t; sessionId := sessionId t;
     onclose_set := onclose_set t; onerror_set := onerror_set t;
     onclose_calls := onclose_calls t;
     onerror_calls :=
       if onerror_set t then (onerror_calls t ++ [error])%list
       else onerror_calls t |}.

Definition frame (message : jsval) : string :=
  "data: " ++ match JSON.stringify message with
              | Some data => data
              | None => "undefined"
              end ++ nl ++ nl.

(** [send(message)]: what it throws, if anything, and the transport after. *)
Definition send (sock : Socket) (message : jsval) (t : HttpTransport)
  : option jsval * HttpTransport :=
  if _closed t then (Some (JError "Transport is closed"), t)
  else
    match write_throws sock (_response t) (frame message) with
    | Some error => (Some error, report error t)
    | None =>
        (None,
         with_response
           {| headers := headers (_response t);
              chunks := (chunks (_response t) ++ [frame message])%list;
              end_calls := end_calls (_response t) |} t)
    end.

(** [this._response.end()] *)
Definition end_response (sock : Socket) (r : Response) : option jsval * Response :=
  (end_throws sock r,
   {| headers := headers r; chunks := chunks r; end_calls := S (end_calls r) |}).

(** [close()]: what [end] throws is caught and dropped. *)
Definition close (sock : Socket) (t : HttpTransport) : HttpTransport :=
  if _closed t then t
  else
    {| _response :=
         match end_response sock (_response t) with
         | (Some _, r) => r
         | (None, r) => r
         end;
       _closed := true;
       sessionId := sessionId t;
       onclose_set := onclose_set t;
       onerror_set := onerror_set t;
       onclose_calls :=
         if onclose_set t then S (onclose_calls t) else onclose_calls t;
       onerror_calls := onerror_calls t |}.

(** The listeners that the constructor puts on the request. *)
Definition on_request_close (sock : Socket) (t : HttpTransport) : HttpTransport :=
  close sock t.

Definition on_request_error (error : jsval) (t : HttpTransport) : HttpTransport :=
  report error t.

(** The owning session sets its callbacks when it connects. *)
Definition set_callbacks (onclose onerror : bool) (t : HttpTransport)
  : HttpTransport :=
  {| _response := _response t; _closed := _closed t; sessionId := sessionId t;
     onclose_set := onclose; onerror_set := onerror;
     onclose_calls := onclose_calls t; onerror_calls := onerror_calls t |}.

End Transport.

(** ** HTTP replies *)

Inductive Reply : Type :=
| Json (status : Z) (body : jsval)
| NoBody (status : Z)
| EventStream (t : Transport.HttpTransport).

Definition error_body (reason : string) : jsval := JObj [("error", JStr reason)].

(** ** The authentication service ([AuthService]) *)

Module Auth.

Record AuthConfig : Type := {
  patEnabled : bool;
  oauthEnabled : bool;
  jwtSecret : option string;
  azureClientId : option string;
  azureClientSecret : option string;
  azureTenantId : option string
}.

(** What the handlers read of an Express request.  [body] is [req.body]:
    the routes receive it as the body parsers of [setupMiddleware] left it
    (see [App.setupMiddleware]; [JUndefined] when nothing was set). *)
Record Request : Type := {
  method : string;
  protocol : string;
  host : option string;
  authorization : option string;
  x_ado_organization : option string;
  upgrade : option string;
  accept : option string;
  query_organization : option string;
  query_redirect_uri : option string;
  query_code : option string;
  query_state : option string;
  body : jsval
}.

Inductive AuthType : Type := pat | oauth.

(** [req.auth]: the caller identity.  The interface declares [token] and
    [organization] as strings, but under OAuth they are read from the
    payload of the token, which is JSON that nothing checks: they are
    values.  [userId] and [claims] are [None] where the object literal does
    not set them. *)
Record Identity : Type := {
  type : AuthType;
  token : jsval;
  organization : jsval;
  userId : option jsval;
  claims : option jsval
}.

Record AzureTokenResponse : Type := {
  access_token : string;
  token_type : string;
  expires_in : Z;
  scope : string
}.

(** The payload that [handleOAuthCallback] signs. *)
Record SessionClaims : Type := {
  session_sub : string;
  session_accessToken : string;
  session_organization : jsval;
  session_iat : Z;
  session_exp : Z
}.

(** What [fetch] gives at the token endpoint: it rejects, or it resolves
    with a response whose body may be a token response. *)
Inductive FetchReply : Type :=
| NetworkError (error : jsval)
| HttpResponse (ok : bool) (status : Z) (text : string)
    (json : option AzureTokenResponse).

(** The world outside the service.
    - [jwt_verify token secret]: the decoded payload, any JSON value that
      was signed with the secret, or [None] when [jwt.verify] throws (bad
      signature, expired, not a JWT);
    - [jwt_sign]: the token that [jwt.sign] mints;
    - [getProjects orgUrl token]: whether the read-only call against the
      downstream API returns (it throws otherwise);
    - [fetch_token]: the token endpoint;
    - [now]: [Date.now()]. *)
Record Env : Type := {
  jwt_verify : string -> string -> option jsval;
  jwt_sign : SessionClaims -> string -> string;
  getProjects : string -> string -> bool;
  fetch_token : string -> string -> string -> string -> FetchReply;
  now : Z
}.

(** What a middleware did: it answered, or it set [req.auth] and called
    [next()]. *)
Inductive Middleware : Type :=
| Responded (r : Reply)
| Next (auth : Identity).

Definition reject (status : Z) (reason : string) : Traced Middleware :=
  ret (Responded (Json status (error_body reason))).

(** [!authHeader || !authHeader.startsWith('Bearer ')] *)
Definition missing_bearer (authHeader : option string) : bool :=
  match authHeader with
  | None => true
  | Some h => (h =? "")%string || negb (startsWith "Bearer " h)
  end.

(** [authHeader.substring(7)], read once the header is known to be there. *)
Definition bearer_token (authHeader : option string) : string :=
  match authHeader with
  | None => ""
  | Some h => substring_from 7 h
  end.

(** [validatePAT]: one call against the downstream API; whatever it throws
    is caught and answered with [false]. *)
Definition validatePAT (E : Env) (token organization : string) : Traced bool :=
  let orgUrl := "https://dev.azure.com/" ++ organization in
  emit (DownstreamCall orgUrl token);;
  ret (getProjects E orgUrl token).

Definition authenticateWithPAT (E : Env) (cfg : AuthConfig) (req : Request)
  : Traced Middleware :=
  if negb (patEnabled cfg) then reject 501 "PAT authentication is not enabled"
  else if missing_bearer (authorization req) then
    reject 401 "Missing or invalid Authorization header. Expected: Bearer <PAT_TOKEN>"
  else
    let token := bearer_token (authorization req) in
    match x_ado_organization req with
    | None => reject 400 "Missing x-ado-organization header"
    | Some organization =>
        if (organization =? "")%string then
          reject 400 "Missing x-ado-organization header"
        else
          isValid <- validatePAT E token organization;;
          if negb isValid then reject 401 "Invalid Personal Access Token"
          else
            ret (Next {| type := pat; token := JStr token;
                         organization := JStr organization;
                         userId := None; claims := None |})
    end.

(** Everything after the header check runs inside one [try]: a missing
    secret, a token that does not verify, and a payload whose properties
    cannot be read all end in the 401 of the [catch]. *)
Definition authenticateWithOAuth (E : Env) (cfg : AuthConfig) (req : Request)
  : Traced Middleware :=
  if negb (oauthEnabled cfg) then reject 501 "OAuth authentication is not enabled"
  else if missing_bearer (authorization req) then
    reject 401 "Missing or invalid Authorization header. Expected: Bearer <JWT_TOKEN>"
  else
    let token := bearer_token (authorization req) in
    if negb (opt_truthy (jwtSecret cfg)) then reject 401 "Invalid or expired token"
    else
      let secret := opt_to_string (jwtSecret cfg) in
      emit (JwtVerify token secret);;
      match jwt_verify E token secret with
      | None => reject 401 "Invalid or expired token"
      | Some decoded =>
          match get_prop decoded "organization", get_prop decoded "accessToken",
                get_prop decoded "sub" with
          | Some claimed, Some accessToken, Some sub =>
              let organization := or_else claimed (of_opt (x_ado_organization req)) in
              if negb (truthy organization) then
                reject 400 "Organization not found in token or headers"
              else
                ret (Next {| type := oauth;
                             token := or_else accessToken (JStr "");
                             organization := organization;
                             userId := Some sub;
                             claims := Some decoded |})
          | _, _, _ => reject 401 "Invalid or expired token"
          end
      end.

(** The middleware of the protocol endpoint: a token that verifies is
    handed to the OAuth middleware; otherwise the PAT middleware is tried. *)
Definition authenticate (E : Env) (cfg : AuthConfig) (req : Request)
  : Traced Middleware :=
  if missing_bearer (authorization req) then
    reject 401 "Missing or invalid Authorization header"
  else
    let token := bearer_token (authorization req) in
    let try_pat : Traced Middleware :=
      if patEnabled cfg then authenticateWithPAT E cfg req
      else reject 401 "No valid authentication method found" in
    if oauthEnabled cfg && opt_truthy (jwtSecret cfg) then
      let secret := opt_to_string (jwtSecret cfg) in
      emit (JwtVerify token secret);;
      match jwt_verify E token secret with
      | Some _ => authenticateWithOAuth E cfg req
      | None => try_pat
      end
    else try_pat.

Definition scopes : string :=
  join " " [ "https://app.vssps.visualstudio.com/user_profile";
             "https://dev.azure.com/user_profile";
             "vso.work_write";
             "vso.code_write";
             "vso.build_execute";
             "vso.release_execute" ].

Definition callback_uri (req : Request) : string :=
  protocol req ++ "://" ++ opt_to_string (host req) ++ "/auth/callback".

Definition state_of (organization : string) : jsval :=
  JObj [("organization", JStr organization)].

(** The text of [JSON.stringify({ organization })], spelled out. *)
Definition state_text (organization : string) : string :=
  String "{"
    (String Chars.dquote
       ("organization"
        ++ String Chars.dquote
             (String ":"
                (String Chars.dquote
                   (JSON.quote_chars organization ++ String Chars.dquote "}"))))).

Definition authorization_url (clientId redirectUri organization : string) : string :=
  "https://app.vssps.visualstudio.com/oauth2/authorize"
  ++ "?client_id=" ++ clientId
  ++ "&response_type=code"
  ++ "&redirect_uri=" ++ URI.encodeURIComponent redirectUri
  ++ "&scope=" ++ URI.encodeURIComponent scopes
  ++ "&state=" ++ URI.encodeURIComponent
                    (opt_to_string (JSON.stringify (state_of organization))).

Definition initiateOAuthFlow (cfg : AuthConfig) (req : Request) : Reply :=
  if negb (oauthEnabled cfg) || negb (opt_truthy (azureClientId cfg)) then
    Json 501 (error_body "OAuth is not configured")
  else
    let redirectUri :=
      opt_to_string (opt_or (query_redirect_uri req) (Some (callback_uri req))) in
    match query_organization req with
    | None => Json 400 (error_body "organization parameter is required")
    | Some organization =>
        if (organization =? "")%string then
          Json 400 (error_body "organization parameter is required")
        else
          Json 200
            (JObj [("authUrl",
                    JStr (authorization_url (opt_to_string (azureClientId cfg))
                            redirectUri organization))])
    end.

(** [exchangeCodeForToken]: what it throws, or the token response. *)
Definition exchangeCodeForToken (E : Env)
  (code redirectUri clientId clientSecret : string)
  : Traced (jsval + AzureTokenResponse) :=
  emit (TokenExchange code redirectUri clientId clientSecret);;
  ret match fetch_token E code redirectUri clientId clientSecret with
      | NetworkError error => inl error
      | HttpResponse ok status text json =>
          if negb ok then
            inl (JError ("Token exchange failed: " ++ string_of_Z status ++ " " ++ text))
          else
            match json with
            | Some r => inr r
            | None => inl (JError "Unexpected end of JSON input")
            end
      end.

Definition exchange_failed : Reply :=
  Json 400 (error_body "Failed to exchange authorization code").

Definition handleOAuthCallback (E : Env) (cfg : AuthConfig) (req : Request)
  : Traced Reply :=
  if negb (oauthEnabled cfg) || negb (opt_truthy (azureClientSecret cfg))
     || negb (opt_truthy (azureClientId cfg))
  then ret (Json 501 (error_body "OAuth is not configured"))
  else
    let redirectUri := callback_uri req in
    if negb (opt_truthy (query_code req)) then
      ret (Json 400 (error_body "Authorization code not provided"))
    else
      let parsed :=
        if opt_truthy (query_state req)
        then JSON.parse (opt_to_string (query_state req))
        else Some (JObj []) in
      match parsed with
      | None => ret exchange_failed
      | Some stateData =>
          match get_prop stateData "organization" with
          | None => ret exchange_failed
          | Some organization =>
              r <- exchangeCodeForToken E (opt_to_string (query_code req)) redirectUri
                     (opt_to_string (azureClientId cfg))
                     (opt_to_string (azureClientSecret cfg));;
              match r with
              | inl _ => ret exchange_failed
              | inr tokenResponse =>
                  if negb (opt_truthy (jwtSecret cfg)) then ret exchange_failed
                  else
                    let secret := opt_to_string (jwtSecret cfg) in
                    emit (JwtSign secret);;
                    let jwtToken :=
                      jwt_sign E
                        {| session_sub := before_first "." (access_token tokenResponse);
                           session_accessToken := access_token tokenResponse;
                           session_organization := organization;
                           session_iat := now E / 1000;
                           session_exp := now E / 1000 + expires_in tokenResponse |}
                        secret in
                    ret (Json 200
                           (JObj [("token", JStr jwtToken);
                                  ("expires_in", JNum (expires_in tokenResponse));
                                  ("organization", organization)]))
              end
          end
      end.

End Auth.

(** ** The HTTP server ([AzureDevOpsMcpHttpServer]) *)

Module Server.
Import Transport.

(** What a protocol server does with the transport it is connected to. *)
Inductive Emission : Type :=
| Sent (msg : jsval)
| TransportError (message : string).

(** The protocol server of one session, as the synthetic transport sees it.
    - [connect_throws]: what [server.connect(transport)] rejects with;
    - [sets_onmessage]: whether connecting sets [transport.onmessage];
    - [onmessage_throws message]: what delivering [message] throws;
    - [emits_within delivered ms]: the calls of [send] and [onerror] that
      the server makes up to [ms] milliseconds after the delivery, in order
      ([delivered] is the message, if one was delivered). *)
Record McpServer : Type := {
  connect_throws : option jsval;
  sets_onmessage : bool;
  onmessage_throws : jsval -> option jsval;
  emits_within : option jsval -> Z -> list Emission
}.

(** The collaborators of the server.
    - [packageVersion]: the constant of [version.ts];
    - [new_server req auth]: [new McpServer], [configurePrompts] and
      [configureAllTools]; [inl] is what they throw;
    - [connect_stream server t]: [server.connect(t)] on the stream
      transport: what it throws, and the transport as it leaves it;
    - [random_id]: the session identifier drawn by the transport. *)
Record Collaborators : Type := {
  packageVersion : string;
  new_server : Auth.Request -> Auth.Identity -> jsval + McpServer;
  connect_stream : McpServer -> HttpTransport -> option jsval * HttpTransport;
  random_id : string
}.

(** [getTimeoutForMethod(method)], in milliseconds; [None] is the TypeError
    of a method that is neither a string nor absent. *)
Definition getTimeoutForMethod (method : jsval) : option Z :=
  match opt_startsWith method "tools/call" with
  | None => None
  | Some true => Some 5000
  | Some false =>
      match opt_startsWith method "tools/list" with
      | None => None
      | Some true => Some 2000
      | Some false =>
          match opt_startsWith method "prompts/list" with
          | None => None
          | Some true => Some 2000
          | Some false =>
              if strict_eq_str method "initialize" then Some 1000 else Some 1000
          end
      end
  end.

(** The two buffers of the synthetic transport: [send] pushes on the first,
    [onerror] on the second. *)
Fixpoint record (es : list Emission) (buffers : list jsval * list string)
  : list jsval * list string :=
  match es with
  | [] => buffers
  | Sent msg :: rest => record rest ((fst buffers ++ [msg])%list, snd buffers)
  | TransportError e :: rest => record rest (fst buffers, (snd buffers ++ [e])%list)
  end.

(** The messages sent and the errors reported, each in order. *)
Fixpoint sent (es : list Emission) : list jsval :=
  match es with
  | [] => []
  | Sent msg :: rest => msg :: sent rest
  | TransportError _ :: rest => sent rest
  end.

Fixpoint errors (es : list Emission) : list string :=
  match es with
  | [] => []
  | Sent _ :: rest => errors rest
  | TransportError e :: rest => e :: errors rest
  end.

Definition rpc_error (id : jsval) (message : string) (data : option jsval) : jsval :=
  JObj [("jsonrpc", JStr "2.0");
        ("id", id);
        ("error",
         JObj ([("code", JNum (-32603)); ("message", JStr message)]
               ++ match data with
                  | Some d => [("data", d)]
                  | None => []
                  end)%list)].

Definition transport_error (id : jsval) (first_error : string) : jsval :=
  rpc_error id "Server transport error" (Some (JStr first_error)).

Definition timeout_error (id method : jsval) : jsval :=
  rpc_error id ("Server timeout: no response for " ++ to_string method) None.

Definition failed_to_delegate (id error : jsval) : jsval :=
  rpc_error id "Failed to delegate to server" (Some error).

Definition not_a_function : jsval :=
  JError "method?.startsWith is not a function".

(** The choice made when the wait is over. *)
Definition resolution (id method : jsval) (responseData : list jsval)
  (errorData : list string) : jsval :=
  match errorData with
  | first_error :: _ => transport_error id first_error
  | [] =>
      match responseData with
      | first_message :: _ => first_message
      | [] =>
          match opt_startsWith method "notifications/" with
          | Some true => JNull
          | Some false => timeout_error id method
          | None => failed_to_delegate id not_a_function
          end
      end
  end.

(** [delegateToMcpServer(message, server)]: [inl] when the call itself
    throws (reading [message.method] of [undefined] or [null]), otherwise
    the value its promise resolves with. *)
Definition delegateToMcpServer (message : jsval) (server : McpServer)
  : Traced (jsval + jsval) :=
  match get_prop message "method", get_prop message "id" with
  | Some method, Some id =>
      emit ConnectDelegate;;
      match connect_throws server with
      | Some error => ret (inr (failed_to_delegate id error))
      | None =>
          thrown <- (if sets_onmessage server
                     then emit (Deliver message);; ret (onmessage_throws server message)
                     else ret None);;
          match thrown with
          | Some error => ret (inr (failed_to_delegate id error))
          | None =>
              match getTimeoutForMethod method with
              | None => ret (inr (failed_to_delegate id not_a_function))
              | Some timeout =>
                  emit (Wait timeout);;
                  let delivered :=
                    if sets_onmessage server then Some message else None in
                  let buffers :=
                    record (emits_within server delivered timeout) ([], []) in
                  ret (inr (resolution id method (fst buffers) (snd buffers)))
              end
          end
      end
  | _, _ =>
      ret (inl (JError "Cannot read properties of undefined (reading 'method')"))
  end.

(** The capability declaration sent for an empty body. *)
Definition handshake (version : string) : jsval :=
  JObj [("jsonrpc", JStr "2.0");
        ("id", JNum 1);
        ("result",
         JObj [("protocolVersion", JStr "2024-11-05");
               ("capabilities",
                JObj [("tools", JObj []); ("resources", JObj []); ("prompts", JObj [])]);
               ("serverInfo",
                JObj [("name", JStr "Azure DevOps MCP Server");
                      ("version", JStr version)])])].

Definition envelope (code : Z) (message : string) (data : jsval) : jsval :=
  JObj [("jsonrpc", JStr "2.0");
        ("id", JNull);
        ("error",
         JObj [("code", JNum code); ("message", JStr message); ("data", data)])].

(** [res.headersSent] *)
Definition headersSent (r : Response) : bool :=
  negb (Nat.eqb (List.length (chunks r)) 0) || negb (Nat.eqb (end_calls r) 0).

(** [handleMcpConnection]: the stream path.  [res] is the response as the
    earlier middleware left it. *)
Definition handleMcpConnection (C : Collaborators) (res : Response)
  (req : Auth.Request) (auth : Auth.Identity) : Traced Reply :=
  emit NewServer;;
  match new_server C req auth with
  | inl _ => ret (Json 500 (error_body "Failed to establish MCP connection"))
  | inr server =>
      emit OpenStream;;
      let transport := Transport.new (random_id C) res in
      emit ConnectStream;;
      match connect_stream C server transport with
      | (Some _, t) =>
          if headersSent (_response t) then ret (EventStream t)
          else ret (Json 500 (error_body "Failed to establish MCP connection"))
      | (None, t) => ret (EventStream t)
      end
  end.

(** The request's [close] event reaches two listeners: the one of the
    transport's constructor and the one [handleMcpConnection] adds. *)
Definition peer_disconnect (sock : Socket) (t : HttpTransport) : HttpTransport :=
  close sock (on_request_close sock t).

Definition shouldUpgradeToSSE (req : Auth.Request) : bool :=
  let upgrade_is_sse :=
    match Auth.upgrade req with
    | Some u => (u =? "sse")%string
    | None => false
    end in
  if (Auth.method req =? "POST")%string then upgrade_is_sse
  else
    includes "text/event-stream"
      (opt_to_string (opt_or (Auth.accept req) (Some "")))
    || upgrade_is_sse.

(** [!req.body || Object.keys(req.body).length === 0] *)
Definition empty_body (b : jsval) : bool :=
  negb (truthy b) || Nat.eqb (keys_length b) 0.

(** [handleMcpRequest]: the single-shot path. *)
Definition handleMcpRequest (C : Collaborators) (res : Response)
  (req : Auth.Request) (auth : Auth.Identity) : Traced Reply :=
  if shouldUpgradeToSSE req then handleMcpConnection C res req auth
  else
    emit NewServer;;
    match new_server C req auth with
    | inl error => ret (Json 500 (envelope (-32603) "Internal error" error))
    | inr server =>
        if empty_body (Auth.body req) then
          ret (Json 200 (handshake (packageVersion C)))
        else
          let message := Auth.body req in
          r <- delegateToMcpServer message server;;
          match r with
          | inl parseError => ret (Json 400 (envelope (-32700) "Parse error" parseError))
          | inr JNull => ret (NoBody 204)
          | inr response => ret (Json 200 response)
          end
    end.

(** [app.get('/mcp', authenticate, handleMcpConnection)] and
    [app.post('/mcp', authenticate, handleMcpRequest)]: the handler runs
    when, and only when, the middleware calls [next()].  This is the pair
    that Express runs once the request has passed the middleware of
    [setupMiddleware], which [App.serve] puts in front of it. *)
Definition route
  (handler : Collaborators -> Response -> Auth.Request -> Auth.Identity -> Traced Reply)
  (E : Auth.Env) (cfg : Auth.AuthConfig) (C : Collaborators) (res : Response)
  (req : Auth.Request) : Traced Reply :=
  m <- Auth.authenticate E cfg req;;
  match m with
  | Auth.Responded r => ret r
  | Auth.Next auth => handler C res req auth
  end.

Definition get_mcp := route handleMcpConnection.
Definition post_mcp := route handleMcpRequest.

End Server.

(** ** Runs of the stream transport *)

Module Run.
Import Transport.

(** What can happen to a transport: the session sends, somebody closes, the
    peer disconnects, the request reports an error. *)
Inductive Op : Type :=
| OpSend (message : jsval)
| OpClose
| OpDisconnect
| OpRequestError (error : jsval).

Definition step (sock : Socket) (t : HttpTransport) (op : Op) : HttpTransport :=
  match op with
  | OpSend message => snd (send sock message t)
  | OpClose => close sock t
  | OpDisconnect => Server.peer_disconnect sock t
  | OpRequestError error => on_request_error error t
  end.

Definition run (sock : Socket) (ops : list Op) (t : HttpTransport) : HttpTransport :=
  fold_left (step sock) ops t.

End Run.

(** ** The state parameter of an authorization URL *)

Module Redirect.

(** The text after the last [&] of [s]; [candidate] is the text after the
    last [&] met so far. *)
Fixpoint last_parameter_from (candidate s : string) : string :=
  match s with
  | EmptyString => candidate
  | String c r =>
      if Ascii.eqb c "&" then last_parameter_from r r
      else last_parameter_from candidate r
  end.

Definition last_parameter (url : string) : string := last_parameter_from url url.

(** What the authorization server hands back as [state]: the last
    parameter of the URL, which [initiateOAuthFlow] names [state],
    percent-decoded. *)
Definition embedded_state (url : string) : option string :=
  let p := last_parameter url in
  if startsWith "state=" p then URI.decodeURIComponent (substring_from 6 p)
  else None.

End Redirect.

(** ** The server configuration ([config.ts]) *)

Module Config.

(** [process.env] *)
Definition Environment : Type := string -> option string.

Definition set_env (k v : string) (env : Environment) : Environment :=
  fun k' => if (k' =? k)%string then Some v else env k'.

(** The white space that [parseInt] skips, as far as it is ASCII. *)
Definition is_space (c : ascii) : bool :=
  let n := Chars.code c in
  ((n =? 32) || ((9 <=? n) && (n <=? 13)))%N.

Fixpoint skip_space (s : string) : string :=
  match s with
  | String c r => if is_space c then skip_space r else s
  | EmptyString => ""
  end.

(** [parseInt(s, 10)]: white space, a sign, the longest run of digits;
    [None] is [NaN].  The value of the digits is exact, as it is in
    JavaScript below 2^53 (beyond it JavaScript rounds to the nearest
    double), and the white space is the ASCII one (JavaScript also skips
    the white space beyond ASCII). *)
Definition parseInt (s : string) : option Z :=
  let s1 := skip_space s in
  let '(negative, s2) :=
    match s1 with
    | String "-" r => (true, r)
    | String "+" r => (false, r)
    | _ => (false, s1)
    end in
  match JSON.span_digits s2 with
  | (EmptyString, _) => None
  | (digits, _) =>
      let n := JSON.digits_value 0 digits in
      Some (if negative then - n else n)
  end.

(** [s.split(sep)] for a one-character separator. *)
Fixpoint split (sep : ascii) (s : string) : list string :=
  match s with
  | EmptyString => [""]
  | String c r =>
      if Ascii.eqb c sep then "" :: split sep r
      else
        match split sep r with
        | piece :: pieces => String c piece :: pieces
        | [] => [String c ""]
        end
  end.

(** [ServerConfig]; [allowedOrigins] is the field of that name of
    [AuthConfig], and a number that [parseInt] could not read is [None]. *)
Record ServerConfig : Type := {
  port : option Z;
  host : string;
  auth : Auth.AuthConfig;
  allowedOrigins : list string;
  cors_enabled : bool;
  cors_origins : list string;
  rateLimit_windowMs : option Z;
  rateLimit_maxRequests : option Z;
  logging_level : string
}.

(** [process.env.K !== 'v'] *)
Definition differs (env : Environment) (k v : string) : bool :=
  match env k with
  | Some x => negb (x =? v)%string
  | None => true
  end.

(** [process.env.K?.split(',') || ['*']] *)
Definition origins (env : Environment) (k : string) : list string :=
  match env k with
  | Some s => split "," s
  | None => ["*"]
  end.

(** [process.env.K || 'fallback'] *)
Definition env_or (env : Environment) (k fallback : string) : string :=
  opt_to_string (opt_or (env k) (Some fallback)).

Definition read (env : Environment) : ServerConfig :=
  {| port := parseInt (env_or env "PORT" "3000");
     host := env_or env "HOST" "0.0.0.0";
     auth :=
       {| Auth.patEnabled := differs env "AUTH_PAT_ENABLED" "false";
          Auth.oauthEnabled := negb (differs env "AUTH_OAUTH_ENABLED" "true");
          Auth.jwtSecret := env "JWT_SECRET";
          Auth.azureClientId := env "AZURE_CLIENT_ID";
          Auth.azureClientSecret := env "AZURE_CLIENT_SECRET";
          Auth.azureTenantId := env "AZURE_TENANT_ID" |};
     allowedOrigins := origins env "ALLOWED_ORIGINS";
     cors_enabled := differs env "CORS_ENABLED" "false";
     cors_origins := origins env "CORS_ORIGINS";
     rateLimit_windowMs := parseInt (env_or env "RATE_LIMIT_WINDOW_MS" "900000");
     rateLimit_maxRequests := parseInt (env_or env "RATE_LIMIT_MAX_REQUESTS" "100");
     logging_level := env_or env "LOG_LEVEL" "info" |}.

(** [loadConfig()]: the message of the error it throws, or the
    configuration. *)
Definition loadConfig (env : Environment) : string + ServerConfig :=
  let config := read env in
  if Auth.oauthEnabled (auth config)
     && negb (opt_truthy (Auth.jwtSecret (auth config)))
  then inl "JWT_SECRET is required when OAuth is enabled"
  else if Auth.oauthEnabled (auth config)
          && (negb (opt_truthy (Auth.azureClientId (auth config)))
              || negb (opt_truthy (Auth.azureClientSecret (auth config))))
  then inl "AZURE_CLIENT_ID and AZURE_CLIENT_SECRET are required when OAuth is enabled"
  else if negb (Auth.patEnabled (auth config)) && negb (Auth.oauthEnabled (auth config))
  then inl "At least one authentication method must be enabled"
  else inr config.

End Config.

(** ** The command line ([index.ts]) *)

Module Cli.

(** [argv.port] is a JavaScript number ([type: "number"]), of which the code
    takes the truth value and the text of [toString]:
    - [Whole z]: an integer of magnitude below 2^53, which [toString] writes
      with all its decimal digits;
    - [Other text]: any other number but [NaN], given with the text that
      [toString] writes for it ([3000.5], [1e+21], [Infinity]);
    - [NotANumber]: [NaN], what yargs makes of a port that is not a number. *)
Inductive Number : Type :=
| Whole (z : Z) (safe : (Z.abs z <? 9007199254740992) = true)
| Other (text : string)
| NotANumber.

Definition number_truthy (n : Number) : bool :=
  match n with
  | Whole z _ => negb (z =? 0)
  | Other _ => true
  | NotANumber => false
  end.

Definition number_toString (n : Number) : string :=
  match n with
  | Whole z _ => string_of_Z z
  | Other text => text
  | NotANumber => "NaN"
  end.

(** What [main] reads of the parsed arguments: [argv._], [argv.organization],
    [argv.tenant] and [argv.port] ([None] when it is [undefined]). *)
Record Argv : Type := {
  positional : list string;
  organization : option string;
  tenant : option string;
  port : option Number
}.

(** [argv._[0] || (argv.organization ? 'stdio' : 'help')] *)
Definition command (argv : Argv) : string :=
  opt_to_string
    (opt_or (hd_error (positional argv))
       (Some (if opt_truthy (organization argv) then "stdio" else "help"))).

(** What the process ends up doing. *)
Inductive Outcome : Type :=
| StdioServer (orgName : string)
| HttpServer (config : Config.ServerConfig)
| ConfigShown
| UsageShown
| Failed.

(** [runStdioServer]: without an organization the process exits with 1. *)
Definition runStdioServer (argv : Argv) : Outcome :=
  match organization argv with
  | Some orgName => if (orgName =? "")%string then Failed else StdioServer orgName
  | None => Failed
  end.

(** The environment after [runHttpServer] has set [PORT]:
    [if (argv.port) process.env.PORT = argv.port.toString()]. *)
Definition with_port (argv : Argv) (env : Config.Environment) : Config.Environment :=
  match port argv with
  | Some n =>
      if number_truthy n then Config.set_env "PORT" (number_toString n) env else env
  | None => env
  end.

(** [runHttpServer]: the constructor of the server loads the configuration;
    what it throws reaches the handler of [main], which exits with 1. *)
Definition runHttpServer (argv : Argv) (env : Config.Environment) : Outcome :=
  match Config.loadConfig (with_port argv env) with
  | inl _ => Failed
  | inr config => HttpServer config
  end.

Definition main (argv : Argv) (env : Config.Environment) : Outcome :=
  let c := command argv in
  if (c =? "stdio")%string then runStdioServer argv
  else if (c =? "http")%string then runHttpServer argv env
  else if (c =? "config")%string then ConfigShown
  else if opt_truthy (organization argv) then runStdioServer argv
  else UsageShown.

End Cli.

(** ** The downstream client ([createAzureDevOpsClient]) *)

Module Client.

(** The arguments of [new azdev.WebApi]; [bearer] is the value given to
    [getBearerHandler]. *)
Record WebApi : Type := {
  orgUrl : string;
  bearer : jsval;
  productName : string;
  productVersion : string;
  userAgent : string
}.

(** [createAzureDevOpsClient(auth, userAgent)]: the message of the error it
    throws when there is no identity, or the client. *)
Definition createAzureDevOpsClient (auth : option Auth.Identity)
  (agent : option string) : string + WebApi :=
  match auth with
  | None => inl "Authentication required"
  | Some a =>
      inr {| orgUrl := "https://dev.azure.com/" ++ to_string (Auth.organization a);
             bearer := Auth.token a;
             productName := "AzureDevOps.MCP.Remote";
             productVersion := "1.0.0";
             userAgent :=
               opt_to_string (opt_or agent (Some "AzureDevOps-MCP-Server/1.0.0")) |}
  end.

(** The token accessor that the handlers give to the tools:
    [{token: req.auth!.token, expiresOnTimestamp: Date.now() + 3600 * 1000}]. *)
Definition getAzureDevOpsToken (auth : Auth.Identity) (now : Z) : jsval * Z :=
  (Auth.token auth, now + 3600 * 1000).

End Client.

(** ** The routes ([setupRoutes]) *)

Module App.
Import Auth Server.

(** The route of [setupRoutes] that Express selects for the method and the
    path of a request; [Unrouted] when none of the six matches. *)
Inductive Endpoint : Type :=
| Health
| Info
| OAuthInit
| OAuthCallback
| McpGet
| McpPost
| Unrouted.

Definition not_found : Reply := Json 404 (error_body "Endpoint not found").

Definition health (version timestamp : string) : jsval :=
  JObj [("status", JStr "healthy"); ("version", JStr version);
        ("timestamp", JStr timestamp)].

Definition info (version : string) (cfg : AuthConfig) : jsval :=
  JObj [("name", JStr "Azure DevOps MCP Server");
        ("version", JStr version);
        ("authentication",
         JObj [("pat", JBool (patEnabled cfg)); ("oauth", JBool (oauthEnabled cfg))]);
        ("endpoints",
         JObj [("mcp", JStr "/mcp"); ("auth", JStr "/auth");
               ("oauth_init", JStr "/auth/oauth");
               ("oauth_callback", JStr "/auth/callback")])].

(** The application, once its routes are set up: the two OAuth routes exist
    only when OAuth is enabled, and what no route takes goes to the 404
    handler.  [timestamp] is [new Date().toISOString()]. *)
Definition handle (E : Env) (config : Config.ServerConfig) (C : Collaborators)
  (timestamp : string) (res : Transport.Response) (endpoint : Endpoint)
  (req : Request) : Traced Reply :=
  let cfg := Config.auth config in
  match endpoint with
  | Health => ret (Json 200 (health (packageVersion C) timestamp))
  | Info => ret (Json 200 (info (packageVersion C) cfg))
  | OAuthInit =>
      if oauthEnabled cfg then ret (initiateOAuthFlow cfg req) else ret not_found
  | OAuthCallback =>
      if oauthEnabled cfg then handleOAuthCallback E cfg req else ret not_found
  | McpGet => get_mcp E cfg C res req
  | McpPost => post_mcp E cfg C res req
  | Unrouted => ret not_found
  end.

(** The error handler: the message of the error is shown at the [debug]
    level only. *)
Definition error_handler (config : Config.ServerConfig) (message : string) : Reply :=
  Json 500
    (JObj [("error", JStr "Internal server error");
           ("message",
            JStr (if (Config.logging_level config =? "debug")%string then message
                  else "An error occurred"))]).

(** A request as it arrives, before any middleware has run: the route that
    Express will select for it, what the handlers will read of it
    ([req.body] is not set yet), and the body as it was sent. *)
Record Arrival : Type := {
  endpoint : Endpoint;
  head : Request;
  content_type : option string;
  payload : string
}.

(** The libraries that [setupMiddleware] installs, as far as they decide
    what becomes of a request:
    - [over_limit a]: whether the rate limiter refuses the request;
    - [parse_body a]: [express.json] followed by [express.urlencoded]: the
      message of the error that one of them hands to [next], or [req.body]
      as the two leave it.
    [helmet], [cookieParser] and the logger only call [next()]. *)
Record Libraries : Type := {
  over_limit : Arrival -> bool;
  parse_body : Arrival -> string + jsval
}.

(** What the middleware does with a request: it answers, it hands an error
    to [next], or it lets the request through to the routes. *)
Inductive Passage : Type :=
| Answered (r : Reply)
| Thrown (message : string)
| Passed (req : Request).

Definition with_body (req : Request) (b : jsval) : Request :=
  {| method := method req; protocol := protocol req; host := host req;
     authorization := authorization req;
     x_ado_organization := x_ado_organization req;
     upgrade := upgrade req; accept := accept req;
     query_organization := query_organization req;
     query_redirect_uri := query_redirect_uri req;
     query_code := query_code req; query_state := query_state req;
     body := b |}.

(** [cors] ends a preflight itself, with 204.  A preflight is an [OPTIONS]
    request, for which Express selects none of the six routes. *)
Definition preflighted (config : Config.ServerConfig) (a : Arrival) : bool :=
  match endpoint a with
  | Unrouted => Config.cors_enabled config && (method (head a) =? "OPTIONS")%string
  | _ => false
  end.

(** [setupMiddleware], in the order of its [app.use] calls: [helmet],
    [cors] when it is enabled, the rate limiter, the two body parsers,
    [cookieParser], the logger. *)
Definition setupMiddleware (L : Libraries) (config : Config.ServerConfig)
  (a : Arrival) : Passage :=
  if preflighted config a then Answered (NoBody 204)
  else if over_limit L a then
    Answered (Json 429 (error_body "Too many requests, please try again later."))
  else
    match parse_body L a with
    | inl message => Thrown message
    | inr b => Passed (with_body (head a) b)
    end.

(** The application: the middleware, then the routes; an error handed to
    [next] skips the routes and reaches the error handler. *)
Definition serve (E : Env) (config : Config.ServerConfig) (C : Collaborators)
  (L : Libraries) (timestamp : string) (res : Transport.Response) (a : Arrival)
  : Traced Reply :=
  match setupMiddleware L config a with
  | Answered r => ret r
  | Thrown message => ret (error_handler config message)
  | Passed req => handle E config C timestamp res (endpoint a) req
  end.

End App.

(** ** The earlier message handler ([handleMcpMessage]) *)

Module Earlier.
Import Server.






End Earlier.

(** ** The sentences of the specification that the code does not meet,
       as they are written *)

Module Stated.
Import Auth Server.

(** A request passes authentication when one of the three middlewares
    calls [next()]. *)
Definition passes (E : Env) (cfg : AuthConfig) (req : Request) (auth : Identity)
  : Prop :=
  result (authenticate E cfg req) = Next auth
  \/ result (authenticateWithPAT E cfg req) = Next auth
  \/ result (authenticateWithOAuth E cfg req) = Next auth.

(** "Every successfully authenticated request has exactly one CallerIdentity
    with non-empty organization and token."  Non-empty is read at its
    weakest: the value is not the empty string. *)
Definition identity_is_nonempty (E : Env) (cfg : AuthConfig) (req : Request)
  : Prop :=
  forall auth, passes E cfg req auth ->
    organization auth <> JStr "" /\ token auth <> JStr "".

(** "For every inbound request to the protocol endpoint whose Authorization
    header is absent or does not start with [Bearer ], the gateway rejects it
    with an authentication failure and the protocol layer is never invoked."
    An authentication failure is read as any answer of status 401 or 400,
    the two that the gateway gives. *)
Definition unauthenticated_is_rejected (E : Env) (config : Config.ServerConfig)
  (C : Collaborators) (L : App.Libraries) (timestamp : string)
  (res : Transport.Response) (a : App.Arrival) : Prop :=
  App.endpoint a = App.McpGet \/ App.endpoint a = App.McpPost ->
  missing_bearer (authorization (App.head a)) = true ->
  (exists status reason,
     result (App.serve E config C L timestamp res a) = Json status reason
     /\ (status = 401 \/ status = 400))
  /\ existsb is_protocol_event (trace (App.serve E config C L timestamp res a))
     = false.

(** The data model of the specification: a Notification is a message that
    carries no [id]; a Request carries one. *)
Definition is_notification (message : jsval) : bool :=
  match get_prop message "id" with
  | Some JUndefined => true
  | _ => false
  end.



(** "For every single-shot input that is a Notification, the adapter
    resolves with the no-response marker, and the boundary answers 204 with
    an empty body." *)
Definition notification_gets_no_content (C : Collaborators)
  (res : Transport.Response) (req : Request) (auth : Identity) : Prop :=
  forall server,
    is_notification (body req) = true ->
    empty_body (body req) = false ->
    shouldUpgradeToSSE req = false ->
    new_server C req auth = inr server ->
    result (delegateToMcpServer (body req) server) = inr JNull
    /\ result (handleMcpRequest C res req auth) = NoBody 204.

(** "Verification is attempted first; if it succeeds the federated scheme
    handles the request, and if it fails for any reason validation falls
    through to the credential-token scheme rather than rejecting outright." *)
Definition cascades (E : Env) (cfg : AuthConfig) (req : Request) : Prop :=
  missing_bearer (authorization req) = false ->
  let token := bearer_token (authorization req) in
  let secret := opt_to_string (jwtSecret cfg) in
  (exists rest, trace (authenticate E cfg req) = JwtVerify token secret :: rest)
  /\ (jwt_verify E token secret <> None ->
      result (authenticate E cfg req) = result (authenticateWithOAuth E cfg req))
  /\ (jwt_verify E token secret = None ->
      result (authenticate E cfg req) = result (authenticateWithPAT E cfg req)).

End Stated.

(** ** A deployment to run the definitions on *)

Module Examples.
Import Auth Server Transport.

Definition full_payload : jsval :=
  JObj [("sub", JStr "aad"); ("organization", JStr "contoso");
        ("accessToken", JStr "aad.tok.en"); ("iat", JNum 1700000000);
        ("exp", JNum 1700003600)].

(** A token signed with the shared secret that carries no [accessToken]. *)
Definition bare_payload : jsval :=
  JObj [("sub", JStr "u1"); ("organization", JStr "contoso")].

(** The payload that the callback signs when the [state] it is given reads
    [{organization: []}]: the organization is an empty list. *)
Definition listed_payload : jsval :=
  JObj [("sub", JStr "aad"); ("accessToken", JStr "aad.tok.en");
        ("organization", JArr []); ("iat", JNum 1700000000);
        ("exp", JNum 1700003600)].

Definition token_reply : AzureTokenResponse :=
  {| access_token := "aad.tok.en"; token_type := "bearer";
     expires_in := 3600; scope := "vso.work_write" |}.

Definition world : Env :=
  {| jwt_verify := fun token secret =>
       if (secret =? "s3cret")%string then
         if (token =? "full.jwt")%string then Some full_payload
         else if (token =? "bare.jwt")%string then Some bare_payload
         else if (token =? "listed.jwt")%string then Some listed_payload
         else None
       else None;
     jwt_sign := fun c secret => "jwt:" ++ session_accessToken c;
     getProjects := fun orgUrl token =>
       (orgUrl =? "https://dev.azure.com/contoso")%string
       && (token =? "pat-123")%string;
     fetch_token := fun code _ _ _ =>
       if (code =? "code-1")%string then HttpResponse true 200 "" (Some token_reply)
       else HttpResponse false 400 "invalid_grant" None;
     now := 1700000000000 |}.

Definition both_schemes : AuthConfig :=
  {| patEnabled := true; oauthEnabled := true; jwtSecret := Some "s3cret";
     azureClientId := Some "c0ffee"; azureClientSecret := Some "hush";
     azureTenantId := None |}.

(** The configuration that [loadConfig] builds from an empty environment. *)
Definition pat_only : AuthConfig :=
  {| patEnabled := true; oauthEnabled := false; jwtSecret := None;
     azureClientId := None; azureClientSecret := None; azureTenantId := None |}.

Definition oauth_only : AuthConfig :=
  {| patEnabled := false; oauthEnabled := true; jwtSecret := Some "s3cret";
     azureClientId := Some "c0ffee"; azureClientSecret := Some "hush";
     azureTenantId := None |}.

Definition request (method : string) (authorization organization : option string)
  (body : jsval) : Request :=
  {| method := method; protocol := "https"; host := Some "mcp.example";
     authorization := authorization; x_ado_organization := organization;
     upgrade := None; accept := None;
     query_organization := None; query_redirect_uri := None;
     query_code := None; query_state := None;
     body := body |}.

Definition oauth_request (organization code state : option string) : Request :=
  {| method := "GET"; protocol := "https"; host := Some "mcp.example";
     authorization := None; x_ado_organization := None;
     upgrade := None; accept := None;
     query_organization := organization; query_redirect_uri := None;
     query_code := code; query_state := state;
     body := JUndefined |}.

Definition contoso : Identity :=
  {| type := pat; token := JStr "pat-123"; organization := JStr "contoso";
     userId := None; claims := None |}.

Definition federated : Identity :=
  {| type := oauth; token := JStr "aad.tok.en"; organization := JStr "contoso";
     userId := Some (JStr "aad"); claims := Some full_payload |}.

Definition with_listed_token : Request :=
  request "GET" (Some "Bearer listed.jwt") None JUndefined.

Definition with_full_token : Request :=
  request "GET" (Some "Bearer full.jwt") None JUndefined.

Definition with_bare_token : Request :=
  request "GET" (Some "Bearer bare.jwt") None JUndefined.

Definition with_pat : Request :=
  request "GET" (Some "Bearer pat-123") (Some "contoso") JUndefined.

Definition with_pat_only : Request :=
  request "GET" (Some "Bearer pat-123") None JUndefined.

Definition without_credentials : Request :=
  request "POST" None (Some "contoso") JUndefined.

Definition post (body : jsval) : Request :=
  request "POST" (Some "Bearer pat-123") (Some "contoso") body.

(** A server that never answers. *)
Definition silent : McpServer :=
  {| connect_throws := None; sets_onmessage := true;
     onmessage_throws := fun _ => None;
     emits_within := fun _ _ => [] |}.

(** A server that reports a transport error, then answers, after a second
    and a half. *)
Definition slow : McpServer :=
  {| connect_throws := None; sets_onmessage := true;
     onmessage_throws := fun _ => None;
     emits_within := fun delivered ms =>
       if 1500 <=? ms then
         [Sent (JObj [("jsonrpc", JStr "2.0"); ("id", JNum 3);
                      ("result", JObj [("tools", JArr [])])]);
          TransportError "socket hang up"]
       else [] |}.


(** A server whose transport fails at once. *)
Definition failing : McpServer :=
  {| connect_throws := None; sets_onmessage := true;
     onmessage_throws := fun _ => None;
     emits_within := fun _ _ => [TransportError "socket hang up"] |}.

Definition collaborators (server : McpServer) : Collaborators :=
  {| packageVersion := "1.0.0";
     new_server := fun _ _ => inr server;
     connect_stream := fun _ t => (None, set_callbacks true true t);
     random_id := "k3x9f1" |}.

Definition blank : Response := {| headers := []; chunks := []; end_calls := O |}.

Definition quiet_socket : Socket :=
  {| write_throws := fun _ _ => None; end_throws := fun _ => None |}.

Definition open_stream : HttpTransport :=
  set_callbacks true true (Transport.new "k3x9f1" blank).


(** A message without [id] whose method does not lie under
    [notifications/]. *)
Definition bare_notification : jsval :=
  JObj [("jsonrpc", JStr "2.0"); ("method", JStr "initialized")].

Definition initialized : jsval :=
  JObj [("jsonrpc", JStr "2.0"); ("method", JStr "notifications/initialized")].

Definition list_tools : jsval :=
  JObj [("jsonrpc", JStr "2.0"); ("id", JNum 3); ("method", JStr "tools/list")].

(** A message whose method is a number. *)
Definition numbered_method : jsval :=
  JObj [("jsonrpc", JStr "2.0"); ("id", JNum 1); ("method", JNum 5)].

(** The configuration that [loadConfig] reads from an empty environment. *)
Definition defaults : Config.ServerConfig := Config.read (fun _ => None).

(** Libraries for the examples: a limiter that lets everything through, and
    body parsers that read a body declared as JSON, accept an object or an
    array, and leave an empty object when there is nothing for them. *)
Definition libraries : App.Libraries :=
  {| App.over_limit := fun _ => false;
     App.parse_body := fun a =>
       if startsWith "application/json" (opt_to_string (App.content_type a)) then
         match JSON.parse (App.payload a) with
         | Some (JObj fields) => inr (JObj fields)
         | Some (JArr items) => inr (JArr items)
         | _ => inl "Unexpected token in JSON"
         end
       else inr (JObj []) |}.

(** A limiter that refuses everything. *)
Definition saturated : App.Libraries :=
  {| App.over_limit := fun _ => true;
     App.parse_body := App.parse_body libraries |}.

(** [POST /mcp] without credentials, with a body that is not JSON. *)
Definition malformed_post : App.Arrival :=
  {| App.endpoint := App.McpPost;
     App.head := without_credentials;
     App.content_type := Some "application/json";
     App.payload := "{" |}.

(** [POST /mcp] without credentials, with a message as body. *)
Definition anonymous_post : App.Arrival :=
  {| App.endpoint := App.McpPost;
     App.head := without_credentials;
     App.content_type := Some "application/json";
     App.payload := "{" ++ JSON.quote "jsonrpc" ++ ":" ++ JSON.quote "2.0" ++ ","
                    ++ JSON.quote "id" ++ ":3," ++ JSON.quote "method" ++ ":"
                    ++ JSON.quote "tools/list" ++ "}" |}.

End Examples.

(** ** Measures for the properties *)

Module Measure.

Fixpoint count_events (p : Event -> bool) (t : list Event) : nat :=
  match t with
  | [] => O
  | e :: rest => (if p e then 1 else 0) + count_events p rest
  end.

Definition is_new_server (e : Event) : bool :=
  match e with NewServer => true | _ => false end.

Definition is_token_exchange (e : Event) : bool :=
  match e with TokenExchange _ _ _ _ => true | _ => false end.

Definition is_jwt_sign (e : Event) : bool :=
  match e with JwtSign _ => true | _ => false end.

Definition is_jwt_verify (e : Event) : bool :=
  match e with JwtVerify _ _ => true | _ => false end.

Definition is_deliver (e : Event) : bool :=
  match e with Deliver _ => true | _ => false end.

Definition is_connect_delegate (e : Event) : bool :=
  match e with ConnectDelegate => true | _ => false end.

Definition is_wait (e : Event) : bool :=
  match e with Wait _ => true | _ => false end.

Fixpoint count_char (c : ascii) (s : string) : nat :=
  match s with
  | EmptyString => O
  | String d r => (if Ascii.eqb d c then 1 else 0) + count_char c r
  end.

(** The status of a reply that has one. *)
Definition status_of (r : Reply) : option Z :=
  match r with
  | Json status _ => Some status
  | NoBody status => Some status
  | EventStream _ => None
  end.

(** The characters of a number literal. *)
Definition is_number_char (c : ascii) : bool :=
  Chars.is_digit c || Chars.mem c "+-.eE".

Fixpoint all_chars (p : ascii -> bool) (s : string) : bool :=
  match s with
  | EmptyString => true
  | String c r => p c && all_chars p r
  end.

(** No character of [s] is one of [set]. *)
Definition free_of (set s : string) : bool :=
  all_chars (fun c => negb (Chars.mem c set)) s.

(** The two characters that end a line of an event stream. *)
Definition line_breaks : string :=
  String (Ascii.ascii_of_nat 10) (String (Ascii.ascii_of_nat 13) "").

(** Every [JReal] inside the value is a number literal. *)
Fixpoint literals_are_numbers (v : jsval) : bool :=
  match v with
  | JReal l => all_chars is_number_char l
  | JArr items => forallb literals_are_numbers items
  | JObj fields => forallb (fun kv => literals_are_numbers (snd kv)) fields
  | _ => true
  end.

End Measure.

(** ** More of the deployment *)

Module Samples.
Import Examples.

Definition no_environment : Config.Environment := fun _ => None.

(** An environment that enables OAuth beside the credential scheme and asks
    for port 8080. *)
Definition oauth_environment : Config.Environment :=
  Config.set_env "AUTH_OAUTH_ENABLED" "true"
    (Config.set_env "JWT_SECRET" "s3cret"
       (Config.set_env "AZURE_CLIENT_ID" "c0ffee"
          (Config.set_env "AZURE_CLIENT_SECRET" "hush"
             (Config.set_env "PORT" "8080" no_environment)))).

(** [mcp-server-azuredevops http --port 4000] *)
Definition http_on_4000 : Cli.Argv :=
  {| Cli.positional := ["http"]; Cli.organization := None; Cli.tenant := None;
     Cli.port := Some (Cli.Whole 4000 eq_refl) |}.

(** [mcp-server-azuredevops http --port 1e21] *)
Definition http_on_1e21 : Cli.Argv :=
  {| Cli.positional := ["http"]; Cli.organization := None; Cli.tenant := None;
     Cli.port := Some (Cli.Other "1e+21") |}.

(** [mcp-server-azuredevops start --organization contoso]: an unknown
    command with an organization. *)
Definition unknown_command : Cli.Argv :=
  {| Cli.positional := ["start"]; Cli.organization := Some "contoso";
     Cli.tenant := None; Cli.port := Some (Cli.Whole 3000 eq_refl) |}.

(** A socket whose writes fail. *)
Definition broken_socket : Transport.Socket :=
  {| Transport.write_throws := fun _ _ => Some (JError "write EPIPE");
     Transport.end_throws := fun _ => None |}.

(** A token with its own organization, presented with another one in the
    header. *)
Definition with_token_and_header : Auth.Request :=
  request "GET" (Some "Bearer full.jwt") (Some "fabrikam") JUndefined.

(** A message whose text holds a line feed. *)
Definition two_lines : jsval :=
  JObj [("jsonrpc", JStr "2.0");
        ("method", JStr "notifications/message");
        ("params", JObj [("data", JStr ("first" ++ Transport.nl ++ "second"))])].


Definition call_tool : jsval :=
  JObj [("jsonrpc", JStr "2.0"); ("id", JNum 4); ("method", JStr "tools/call")].

End Samples.

(* ================================================================== *)
(** * Part II: properties *)
(* ================================================================== *)

Ltac traced :=
  unfold Auth.reject, bind, emit, ret, result, trace; cbn [fst snd app].

(** ** Runs of the definitions *)

Section Runs.
Import Examples.

Example encode_scopes :
  URI.encodeURIComponent "vso.work_write vso.code_write"
  = "vso.work_write%20vso.code_write".
Proof. reflexivity. Qed.

Example decode_truncated_escape : URI.decodeURIComponent "%7" = None.
Proof. reflexivity. Qed.

Example stringify_drops_undefined :
  JSON.stringify (JObj [("a", JUndefined); ("b", JArr [JUndefined; JNum (-3)])])
  = Some ("{" ++ JSON.quote "b" ++ ":[null,-3]}").
Proof. reflexivity. Qed.

Example parse_nested :
  JSON.parse (" {" ++ JSON.quote "a" ++ " : [1, -2, 2.5e3, true, null, {}], "
              ++ JSON.quote "a" ++ ":" ++ JSON.quote "x" ++ "} ")
  = Some (JObj [("a", JStr "x")]).
Proof. reflexivity. Qed.

Example parse_array :
  JSON.parse "[1, [2, []], -0, 1.5]"
  = Some (JArr [JNum 1; JArr [JNum 2; JArr []]; JNum 0; JReal "1.5"]).
Proof. reflexivity. Qed.

Example truth_of_literals :
  map truthy [JReal "0.0"; JReal "-0.00e7"; JReal "1e-400"; JReal "0.5"; JReal "5e-324";
              JReal "2.5e3"; JNum 0; JStr ""; JArr []; JObj []]
  = [false; false; false; true; true; true; false; false; true; true].
Proof. reflexivity. Qed.

Example parse_leading_zero : JSON.parse "[01]" = None.
Proof. reflexivity. Qed.

Example parse_trailing_text : JSON.parse "{}x" = None.
Proof. reflexivity. Qed.

Example timeouts :
  map Server.getTimeoutForMethod
    [JStr "tools/call"; JStr "tools/list"; JStr "prompts/list"; JStr "initialize";
     JStr "notifications/initialized"; JUndefined; JNum 5]
  = [Some 5000; Some 2000; Some 2000; Some 1000; Some 1000; Some 1000; None].
Proof. reflexivity. Qed.

Example pat_passes :
  Auth.authenticate world both_schemes with_pat
  = (Auth.Next contoso,
     [JwtVerify "pat-123" "s3cret";
      DownstreamCall "https://dev.azure.com/contoso" "pat-123"]).
Proof. reflexivity. Qed.

Example jwt_passes :
  Auth.authenticate world both_schemes with_full_token
  = (Auth.Next federated,
     [JwtVerify "full.jwt" "s3cret"; JwtVerify "full.jwt" "s3cret"]).
Proof. reflexivity. Qed.

Example default_configuration_skips_verification :
  Auth.authenticate world pat_only with_pat
  = (Auth.Next contoso, [DownstreamCall "https://dev.azure.com/contoso" "pat-123"]).
Proof. reflexivity. Qed.

Example tools_list_times_out :
  Server.post_mcp world pat_only (collaborators silent) blank (post list_tools)
  = (Json 200 (Server.timeout_error (JNum 3) (JStr "tools/list")),
     [DownstreamCall "https://dev.azure.com/contoso" "pat-123";
      NewServer; ConnectDelegate; Deliver list_tools; Wait 2000]).
Proof. reflexivity. Qed.

Example numbered_method_fails :
  result (Server.delegateToMcpServer numbered_method silent)
  = inr (Server.failed_to_delegate (JNum 1) Server.not_a_function).
Proof. reflexivity. Qed.

Example malformed_body_is_an_internal_error :
  App.serve world defaults (collaborators silent) libraries
    "2024-01-01T00:00:00.000Z" blank malformed_post
  = (Json 500 (JObj [("error", JStr "Internal server error");
                     ("message", JStr "An error occurred")]), []).
Proof. reflexivity. Qed.

Example slow_server_misses_the_short_deadline :
  result (Server.delegateToMcpServer initialized slow) = inr JNull.
Proof. reflexivity. Qed.

Example stream_is_opened :
  result (Server.get_mcp world pat_only (collaborators silent) blank with_pat)
  = EventStream open_stream.
Proof. reflexivity. Qed.

Example send_then_close_then_send :
  let t1 := snd (Transport.send quiet_socket list_tools open_stream) in
  let t2 := Transport.close quiet_socket t1 in
  Transport.chunks (Transport._response t1)
  = ["data: {" ++ JSON.quote "jsonrpc" ++ ":" ++ JSON.quote "2.0" ++ ","
     ++ JSON.quote "id" ++ ":3," ++ JSON.quote "method" ++ ":"
     ++ JSON.quote "tools/list" ++ "}" ++ Transport.nl ++ Transport.nl]
  /\ Transport.send quiet_socket initialized t2
     = (Some (JError "Transport is closed"), t2).
Proof. split; reflexivity. Qed.

Example authorization_url_of_contoso :
  Auth.initiateOAuthFlow both_schemes (oauth_request (Some "contoso") None None)
  = Json 200
      (JObj [("authUrl",
              JStr ("https://app.vssps.visualstudio.com/oauth2/authorize"
                    ++ "?client_id=c0ffee&response_type=code"
                    ++ "&redirect_uri=https%3A%2F%2Fmcp.example%2Fauth%2Fcallback"
                    ++ "&scope=https%3A%2F%2Fapp.vssps.visualstudio.com%2Fuser_profile"
                    ++ "%20https%3A%2F%2Fdev.azure.com%2Fuser_profile"
                    ++ "%20vso.work_write%20vso.code_write"
                    ++ "%20vso.build_execute%20vso.release_execute"
                    ++ "&state=%7B%22organization%22%3A%22contoso%22%7D"))]).
Proof. reflexivity. Qed.

Example listed_organization_passes :
  result (Auth.authenticate world both_schemes with_listed_token)
  = Auth.Next {| Auth.type := Auth.oauth; Auth.token := JStr "aad.tok.en";
                 Auth.organization := JArr [];
                 Auth.userId := Some (JStr "aad");
                 Auth.claims := Some listed_payload |}.
Proof. reflexivity. Qed.

Example callback_signs_any_organization :
  result (Auth.handleOAuthCallback world both_schemes
            (oauth_request None (Some "code-1")
               (Some ("{" ++ JSON.quote "organization" ++ ":[]}"))))
  = Json 200 (JObj [("token", JStr "jwt:aad.tok.en"); ("expires_in", JNum 3600);
                    ("organization", JArr [])]).
Proof. reflexivity. Qed.

Example callback_without_state :
  result (Auth.handleOAuthCallback world both_schemes
            (oauth_request None (Some "code-1") None))
  = Json 200 (JObj [("token", JStr "jwt:aad.tok.en"); ("expires_in", JNum 3600);
                    ("organization", JUndefined)]).
Proof. reflexivity. Qed.

End Runs.

(** ** The stream transport *)

Section TransportFacts.
Import Transport Run.
Variable sock : Socket.

Lemma close_closes (t : HttpTransport) : _closed (close sock t) = true.
Proof. unfold close. destruct (_closed t) eqn:Hc; [exact Hc | reflexivity]. Qed.

Lemma close_when_closed (t : HttpTransport) :
  _closed t = true -> close sock t = t.
Proof. intros Hc. unfold close. now rewrite Hc. Qed.

Lemma send_when_closed (message : jsval) (t : HttpTransport) :
  _closed t = true ->
  send sock message t = (Some (JError "Transport is closed"), t).
Proof. intros Hc. unfold send. now rewrite Hc. Qed.

Lemma report_keeps (error : jsval) (t : HttpTransport) :
  _closed (report error t) = _closed t /\ _response (report error t) = _response t
  /\ onclose_calls (report error t) = onclose_calls t.
Proof. repeat split. Qed.

(** Once closed, a transport stays as it is under sends, closes and
    disconnects; an error of the request touches neither the flag, nor the
    response, nor the count of close notifications. *)
Lemma step_when_closed (t : HttpTransport) (op : Op) :
  _closed t = true ->
  _closed (step sock t op) = true
  /\ _response (step sock t op) = _response t
  /\ onclose_calls (step sock t op) = onclose_calls t.
Proof.
  intros Hc. destruct op as [message | | | error]; cbn [step].
  - rewrite (send_when_closed message t Hc). cbn. auto.
  - rewrite (close_when_closed t Hc). auto.
  - unfold Server.peer_disconnect, on_request_close.
    rewrite (close_when_closed t Hc), (close_when_closed t Hc). auto.
  - unfold on_request_error. destruct (report_keeps error t) as (H1 & H2 & H3).
    rewrite H1, H2, H3. auto.
Qed.

Lemma run_when_closed (ops : list Op) :
  forall t, _closed t = true ->
    _closed (run sock ops t) = true
    /\ _response (run sock ops t) = _response t
    /\ onclose_calls (run sock ops t) = onclose_calls t.
Proof.
  induction ops as [| op ops IH]; intros t Hc; cbn.
  - auto.
  - destruct (step_when_closed t op Hc) as (H1 & H2 & H3).
    destruct (IH _ H1) as (K1 & K2 & K3).
    unfold run in *. rewrite K2, K3, H2, H3. auto.
Qed.

Lemma iter_close (n : nat) (t : HttpTransport) :
  Nat.iter (S n) (close sock) t = close sock t.
Proof.
  induction n as [| n IH].
  - reflexivity.
  - change (Nat.iter (S (S n)) (close sock) t)
      with (close sock (Nat.iter (S n) (close sock) t)).
    rewrite IH. apply close_when_closed, close_closes.
Qed.

(** C9. Closing the stream transport is idempotent.  A close of a closed
    transport changes nothing, whatever happened since the first close, so
    closing any number of times is closing once, and so is the peer's
    disconnect, which reaches the two listeners of the request; on an open
    transport whose owning session has set [onclose], any number of closes,
    and whatever follows them, end the response exactly once and call
    [onclose] exactly once. *)
Theorem C9_close_is_idempotent (t : HttpTransport) (n : nat) (between : list Op) :
  close sock (close sock t) = close sock t
  /\ close sock (run sock between (close sock t)) = run sock between (close sock t)
  /\ Nat.iter (S n) (close sock) t = close sock t
  /\ Server.peer_disconnect sock t = close sock t
  /\ (_closed t = false -> onclose_set t = true ->
      let t' := run sock between (Nat.iter (S n) (close sock) t) in
      _closed t' = true
      /\ end_calls (_response t') = S (end_calls (_response t))
      /\ onclose_calls t' = S (onclose_calls t)).
Proof.
  split; [| split; [| split; [| split]]].
  - apply close_when_closed, close_closes.
  - apply close_when_closed.
    exact (proj1 (run_when_closed between (close sock t) (close_closes t))).
  - apply iter_close.
  - unfold Server.peer_disconnect, on_request_close.
    apply close_when_closed, close_closes.
  - intros Hopen Hset. cbv zeta. rewrite iter_close.
    destruct (run_when_closed between (close sock t) (close_closes t))
      as (H1 & H2 & H3).
    rewrite H1, H2, H3. unfold close. rewrite Hopen, Hset. cbn.
    destruct (end_throws sock (_response t)); auto.
Qed.

(** C10. After the stream transport has been closed, every later [send]
    throws the error [Transport is closed] and leaves the transport as it
    was, whatever happened in between; nothing is written to the response
    after the close. *)
Theorem C10_send_after_close_fails (t : HttpTransport) (between : list Op)
  (message : jsval) :
  let closed := run sock between (close sock t) in
  send sock message closed = (Some (JError "Transport is closed"), closed)
  /\ chunks (_response closed) = chunks (_response (close sock t))
  /\ chunks (_response (close sock t)) = chunks (_response t).
Proof.
  cbv zeta.
  destruct (run_when_closed between (close sock t) (close_closes t)) as (H1 & H2 & _).
  split; [| split].
  - apply send_when_closed, H1.
  - now rewrite H2.
  - unfold close. destruct (_closed t); [reflexivity |].
    cbn. destruct (end_throws sock (_response t)); reflexivity.
Qed.

End TransportFacts.

(** An open stream closed three times: one [end], one [onclose]. *)
Lemma C9_close_is_idempotent_witness :
  Transport._closed Examples.open_stream = false
  /\ Transport.onclose_set Examples.open_stream = true
  /\ Transport.end_calls
       (Transport._response
          (Nat.iter 3 (Transport.close Examples.quiet_socket) Examples.open_stream)) = 1%nat
  /\ Transport.onclose_calls
       (Nat.iter 3 (Transport.close Examples.quiet_socket) Examples.open_stream) = 1%nat.
Proof.
  split; [reflexivity | split; [reflexivity |]].
  destruct (C9_close_is_idempotent Examples.quiet_socket Examples.open_stream 2 [])
    as (_ & _ & _ & _ & H).
  destruct (H eq_refl eq_refl) as (_ & He & Hc).
  split; [exact He | exact Hc].
Defined.

(** ** The authentication gateway *)

Section AuthFacts.
Import Auth.
Variable E : Env.
Variable cfg : AuthConfig.

Lemma prefix_splits (p : string) :
  forall s, String.prefix p s = true -> s = p ++ substring_from (String.length p) s.
Proof.
  induction p as [| a p IH]; intros s H.
  - reflexivity.
  - destruct s as [| b s]; cbn in H; [discriminate |].
    destruct (ascii_dec a b) as [-> |]; [| discriminate].
    cbn. f_equal. now apply IH.
Qed.

Lemma bearer_header (h : option string) :
  missing_bearer h = false ->
  h = Some ("Bearer " ++ bearer_token h).
Proof.
  unfold missing_bearer, bearer_token. intros H.
  destruct h as [a |]; [| discriminate].
  apply orb_false_elim in H as [_ H]. apply negb_false_iff in H.
  f_equal. exact (prefix_splits "Bearer " a H).
Qed.

Lemma absent_header_is_missing (h : option string) :
  h = None \/ (exists a, h = Some a /\ startsWith "Bearer " a = false) ->
  missing_bearer h = true.
Proof.
  unfold missing_bearer. intros [-> | (a & -> & H)].
  - reflexivity.
  - rewrite H. apply orb_true_r.
Qed.

(** What the PAT middleware has checked when it calls [next()]. *)
Lemma pat_next (req : Request) (auth : Identity) :
  result (authenticateWithPAT E cfg req) = Next auth ->
  exists org,
    patEnabled cfg = true
    /\ missing_bearer (authorization req) = false
    /\ x_ado_organization req = Some org
    /\ org <> ""
    /\ getProjects E ("https://dev.azure.com/" ++ org)
         (bearer_token (authorization req)) = true
    /\ auth = {| type := pat; token := JStr (bearer_token (authorization req));
                 organization := JStr org; userId := None; claims := None |}.
Proof.
  unfold authenticateWithPAT, validatePAT.
  destruct (patEnabled cfg); cbn [negb]; [| traced; discriminate].
  destruct (missing_bearer (authorization req)); [traced; discriminate |].
  destruct (x_ado_organization req) as [org |]; [| traced; discriminate].
  destruct (org =? "")%string eqn:Horg; [traced; discriminate |].
  traced.
  destruct (getProjects E _ _) eqn:Hok; cbn; [| discriminate].
  intros [= <-]. apply String.eqb_neq in Horg. exists org. repeat split; auto.
Qed.

(** What the OAuth middleware has checked when it calls [next()]. *)
Lemma oauth_next (req : Request) (auth : Identity) :
  result (authenticateWithOAuth E cfg req) = Next auth ->
  exists decoded claimed accessToken sub,
    oauthEnabled cfg = true
    /\ opt_truthy (jwtSecret cfg) = true
    /\ jwt_verify E (bearer_token (authorization req))
         (opt_to_string (jwtSecret cfg)) = Some decoded
    /\ get_prop decoded "organization" = Some claimed
    /\ get_prop decoded "accessToken" = Some accessToken
    /\ get_prop decoded "sub" = Some sub
    /\ truthy (or_else claimed (of_opt (x_ado_organization req))) = true
    /\ auth = {| type := oauth;
                 token := or_else accessToken (JStr "");
                 organization := or_else claimed (of_opt (x_ado_organization req));
                 userId := Some sub; claims := Some decoded |}.
Proof.
  unfold authenticateWithOAuth.
  destruct (oauthEnabled cfg); cbn [negb]; [| traced; discriminate].
  destruct (missing_bearer (authorization req)); [traced; discriminate |].
  destruct (opt_truthy (jwtSecret cfg)); cbn [negb]; [| traced; discriminate].
  traced.
  destruct (jwt_verify E _ _) as [decoded |] eqn:Hv; [| discriminate].
  destruct (get_prop decoded "organization") as [claimed |] eqn:Hc; [| discriminate].
  destruct (get_prop decoded "accessToken") as [accessToken |] eqn:Ha;
    [| discriminate].
  destruct (get_prop decoded "sub") as [sub |] eqn:Hs; [| discriminate].
  destruct (truthy (or_else claimed _)) eqn:Ht; cbn [negb]; [| discriminate].
  cbn. intros [= <-]. exists decoded, claimed, accessToken, sub. repeat split; auto.
Qed.

(** The gateway calls [next()] only through one of the two schemes. *)
Lemma authenticate_next (req : Request) (auth : Identity) :
  result (authenticate E cfg req) = Next auth ->
  result (authenticateWithPAT E cfg req) = Next auth
  \/ result (authenticateWithOAuth E cfg req) = Next auth.
Proof.
  unfold authenticate.
  destruct (missing_bearer (authorization req)); [traced; discriminate |].
  destruct (oauthEnabled cfg && opt_truthy (jwtSecret cfg)).
  - traced. destruct (jwt_verify E _ _); [now right |].
    destruct (patEnabled cfg); [now left | discriminate].
  - destruct (patEnabled cfg); [now left | traced; discriminate].
Qed.

Lemma oauth_trace (req : Request) :
  forallb (fun e => negb (is_protocol_event e) && negb (is_downstream_call e))
    (trace (authenticateWithOAuth E cfg req)) = true.
Proof.
  unfold authenticateWithOAuth.
  destruct (oauthEnabled cfg); cbn [negb]; [| reflexivity].
  destruct (missing_bearer (authorization req)); [reflexivity |].
  destruct (opt_truthy (jwtSecret cfg)); cbn [negb]; [| reflexivity].
  traced.
  destruct (jwt_verify E _ _) as [decoded |]; [| reflexivity].
  destruct (get_prop decoded "organization") as [claimed |]; [| reflexivity].
  destruct (get_prop decoded "accessToken"); [| reflexivity].
  destruct (get_prop decoded "sub"); [| reflexivity].
  destruct (truthy (or_else claimed _)); reflexivity.
Qed.

Lemma pat_trace (req : Request) :
  forallb (fun e => negb (is_protocol_event e))
    (trace (authenticateWithPAT E cfg req)) = true.
Proof.
  unfold authenticateWithPAT, validatePAT.
  destruct (patEnabled cfg); cbn [negb]; [| reflexivity].
  destruct (missing_bearer (authorization req)); [reflexivity |].
  destruct (x_ado_organization req) as [org |]; [| reflexivity].
  destruct (org =? "")%string; [reflexivity |].
  traced. destruct (getProjects E _ _); reflexivity.
Qed.

(** Without an organization header the PAT middleware stops before the
    downstream call. *)
Lemma pat_without_organization (req : Request) :
  opt_truthy (x_ado_organization req) = false ->
  trace (authenticateWithPAT E cfg req) = []
  /\ exists status reason,
       result (authenticateWithPAT E cfg req)
       = Responded (Json status (error_body reason))
       /\ (patEnabled cfg = true -> missing_bearer (authorization req) = false ->
           status = 400 /\ reason = "Missing x-ado-organization header").
Proof.
  intros Horg. unfold authenticateWithPAT.
  destruct (patEnabled cfg); cbn [negb].
  2:{ split; [reflexivity |]. eexists _, _. split; [reflexivity | discriminate]. }
  destruct (missing_bearer (authorization req)).
  { split; [reflexivity |]. eexists _, _. split; [reflexivity | discriminate]. }
  destruct (x_ado_organization req) as [org |].
  - cbn in Horg. apply negb_false_iff in Horg. rewrite Horg.
    split; [reflexivity |]. eexists _, _. split; [reflexivity | auto].
  - split; [reflexivity |]. eexists _, _. split; [reflexivity | auto].
Qed.

Lemma authenticate_trace (req : Request) :
  forallb (fun e => negb (is_protocol_event e))
    (trace (authenticate E cfg req)) = true.
Proof.
  unfold authenticate.
  destruct (missing_bearer (authorization req)); [reflexivity |].
  assert (Hpat : forallb (fun e => negb (is_protocol_event e))
                   (trace (if patEnabled cfg then authenticateWithPAT E cfg req
                           else reject 401 "No valid authentication method found"))
                 = true).
  { destruct (patEnabled cfg); [apply pat_trace | reflexivity]. }
  destruct (oauthEnabled cfg && opt_truthy (jwtSecret cfg)); [| exact Hpat].
  traced. destruct (jwt_verify E _ _); cbn [forallb is_protocol_event negb andb].
  - pose proof (oauth_trace req) as H. unfold trace in H.
    rewrite forallb_forall in H |- *. intros e He. specialize (H e He).
    apply andb_prop in H. exact (proj1 H).
  - exact Hpat.
Qed.

Lemma authenticate_without_organization (req : Request) :
  opt_truthy (x_ado_organization req) = false ->
  existsb is_downstream_call (trace (authenticate E cfg req)) = false.
Proof.
  intros Horg. unfold authenticate.
  destruct (missing_bearer (authorization req)); [reflexivity |].
  assert (Hpat : existsb is_downstream_call
                   (trace (if patEnabled cfg then authenticateWithPAT E cfg req
                           else reject 401 "No valid authentication method found"))
                 = false).
  { destruct (patEnabled cfg); [| reflexivity].
    now rewrite (proj1 (pat_without_organization req Horg)). }
  destruct (oauthEnabled cfg && opt_truthy (jwtSecret cfg)); [| exact Hpat].
  traced. destruct (jwt_verify E _ _); cbn [existsb is_downstream_call orb].
  - pose proof (oauth_trace req) as H. unfold trace in H.
    rewrite forallb_forall in H.
    destruct (existsb is_downstream_call (snd (authenticateWithOAuth E cfg req)))
      eqn:Hex; [| reflexivity].
    apply existsb_exists in Hex as (e & He & Hd).
    specialize (H e He). rewrite Hd in H. now rewrite andb_false_r in H.
  - exact Hpat.
Qed.

(** C1 (amended). For every request that passes authentication, under
    either scheme, the caller identity has a truthy [organization].  Under
    the credential scheme it is the [x-ado-organization] header, a string
    that is not empty, and the [token] is the presented bearer string, which
    is not empty unless the header is exactly [Bearer ] followed by nothing.
    Under the federated scheme the [organization] is the [organization]
    claim of the verified token when that claim is truthy (the claim is JSON
    that nothing checks, so it need not be a string) and the header
    otherwise; the [token] is the [accessToken] claim when that is truthy,
    and the empty string otherwise. *)
Theorem C1_identity_of_authenticated_request (req : Request) (auth : Identity) :
  Stated.passes E cfg req auth ->
  truthy (organization auth) = true
  /\ match type auth with
     | pat =>
         organization auth = of_opt (x_ado_organization req)
         /\ (exists org, organization auth = JStr org /\ org <> "")
         /\ token auth = JStr (bearer_token (authorization req))
         /\ (authorization req <> Some "Bearer " -> token auth <> JStr "")
     | oauth =>
         exists decoded claimed accessToken,
           jwt_verify E (bearer_token (authorization req))
             (opt_to_string (jwtSecret cfg)) = Some decoded
           /\ get_prop decoded "organization" = Some claimed
           /\ get_prop decoded "accessToken" = Some accessToken
           /\ organization auth
              = (if truthy claimed then claimed else of_opt (x_ado_organization req))
           /\ token auth = (if truthy accessToken then accessToken else JStr "")
     end.
Proof.
  intros Hpass.
  assert (H : result (authenticateWithPAT E cfg req) = Next auth
              \/ result (authenticateWithOAuth E cfg req) = Next auth).
  { destruct Hpass as [H | [H | H]]; auto using authenticate_next. }
  destruct H as [H | H].
  - apply pat_next in H as (org & _ & Hb & Ho & Horg & _ & ->).
    cbn [type token organization]. rewrite Ho. cbn [of_opt truthy].
    apply String.eqb_neq in Horg as Hne. rewrite Hne.
    repeat split; eauto.
    intros Hh [= Ht]. apply Hh. rewrite (bearer_header _ Hb). now rewrite Ht.
  - apply oauth_next in H as (decoded & claimed & accessToken & sub & _ & _ & Hv
                              & Hc & Ha & _ & Ht & ->).
    cbn [type token organization].
    split; [exact Ht |]. exists decoded, claimed, accessToken. repeat split; auto.
Qed.

(** C5 (amended). For every presented bearer token at the generic entry
    point: when the federated scheme is enabled and a secret is configured,
    local verification is the first call made, and a token that verifies is
    handled by the OAuth middleware; when verification fails, or was not
    attempted, the request goes to the PAT middleware if the
    credential scheme is enabled, and is otherwise rejected with 401 [No
    valid authentication method found], the downstream API not being
    called. *)
Theorem C5_scheme_selection (req : Request) :
  missing_bearer (authorization req) = false ->
  let token := bearer_token (authorization req) in
  let secret := opt_to_string (jwtSecret cfg) in
  let federated := oauthEnabled cfg && opt_truthy (jwtSecret cfg) in
  (federated = true ->
   exists rest, trace (authenticate E cfg req) = JwtVerify token secret :: rest)
  /\ (federated = true -> jwt_verify E token secret <> None ->
      authenticate E cfg req
      = (emit (JwtVerify token secret);; authenticateWithOAuth E cfg req))
  /\ (federated = true -> jwt_verify E token secret = None -> patEnabled cfg = true ->
      authenticate E cfg req
      = (emit (JwtVerify token secret);; authenticateWithPAT E cfg req))
  /\ (federated = false -> patEnabled cfg = true ->
      authenticate E cfg req = authenticateWithPAT E cfg req)
  /\ ((federated = false \/ jwt_verify E token secret = None) ->
      patEnabled cfg = false ->
      result (authenticate E cfg req)
      = Responded (Json 401 (error_body "No valid authentication method found"))
      /\ existsb is_downstream_call (trace (authenticate E cfg req)) = false).
Proof.
  intros Hb. cbv zeta. unfold authenticate. rewrite Hb.
  destruct (oauthEnabled cfg && opt_truthy (jwtSecret cfg)).
  - split; [| split; [| split; [| split]]]; try discriminate.
    + intros _. traced. eauto.
    + intros _ Hv. destruct (jwt_verify E _ _); [reflexivity | contradiction].
    + intros _ Hv Hp. now rewrite Hv, Hp.
    + intros [H | Hv] Hp; [discriminate |]. now rewrite Hv, Hp.
  - split; [| split; [| split; [| split]]]; try discriminate.
    + intros _ Hp. now rewrite Hp.
    + intros _ Hp. now rewrite Hp.
Qed.

(** C6. Under the credential-token scheme, a request whose organization
    header is absent (or empty) never reaches the downstream API: the PAT
    middleware makes no call at all and does not call [next()], the gateway
    makes no downstream call either, and when the scheme is enabled and a
    bearer token is presented the answer is 400 [Missing x-ado-organization
    header]. *)
Theorem C6_missing_organization_fails_fast (req : Request) :
  opt_truthy (x_ado_organization req) = false ->
  trace (authenticateWithPAT E cfg req) = []
  /\ existsb is_downstream_call (trace (authenticate E cfg req)) = false
  /\ (forall auth, result (authenticateWithPAT E cfg req) <> Next auth)
  /\ (patEnabled cfg = true -> missing_bearer (authorization req) = false ->
      authenticateWithPAT E cfg req
      = (Responded (Json 400 (error_body "Missing x-ado-organization header")), [])).
Proof.
  intros Horg.
  destruct (pat_without_organization req Horg) as (Ht & status & reason & Hr & Hwhy).
  split; [exact Ht | split; [now apply authenticate_without_organization | split]].
  - intros auth Hn. rewrite Hr in Hn. discriminate.
  - intros Hp Hb. destruct (Hwhy Hp Hb) as [-> ->].
    unfold result, trace in *. destruct (authenticateWithPAT E cfg req) as [r t].
    cbn in *. now subst.
Qed.

End AuthFacts.

(** A token that verifies and carries its claims. *)
Lemma C1_identity_of_authenticated_request_witness :
  Stated.passes Examples.world Examples.both_schemes Examples.with_full_token
    Examples.federated
  /\ truthy (Auth.organization Examples.federated) = true
  /\ Auth.token Examples.federated = JStr "aad.tok.en".
Proof.
  assert (Hp : Stated.passes Examples.world Examples.both_schemes
                 Examples.with_full_token Examples.federated)
    by (left; reflexivity).
  destruct (C1_identity_of_authenticated_request Examples.world Examples.both_schemes
              Examples.with_full_token Examples.federated Hp)
    as (Horg & decoded & claimed & accessToken & Hv & _ & Ha & _ & Ht).
  split; [exact Hp | split; [exact Horg |]].
  vm_compute in Hv. injection Hv as <-.
  vm_compute in Ha. injection Ha as <-. exact Ht.
Defined.

(** A token signed with the shared secret that carries no [accessToken]
    passes, and the identity has the empty token. *)
Lemma C1_empty_token_counterexample :
  ~ Stated.identity_is_nonempty Examples.world Examples.both_schemes
      Examples.with_bare_token.
Proof.
  intros H.
  destruct (H {| Auth.type := Auth.oauth; Auth.token := JStr "";
                 Auth.organization := JStr "contoso";
                 Auth.userId := Some (JStr "u1");
                 Auth.claims := Some Examples.bare_payload |}
              (or_introl eq_refl)) as [_ Ht].
  now apply Ht.
Qed.

(** Two configurations that leave the stated cascade.  With the credential
    scheme disabled, a token that does not verify is rejected by the gateway
    itself (the PAT middleware would have answered 501).  With the federated
    scheme disabled, as it is by default, no verification is attempted. *)
Lemma C5_cascade_counterexample :
  ~ Stated.cascades Examples.world Examples.oauth_only Examples.with_pat
  /\ ~ Stated.cascades Examples.world Examples.pat_only Examples.with_pat.
Proof.
  split; intros H.
  - destruct (H eq_refl) as (_ & _ & Hpat).
    specialize (Hpat eq_refl). vm_compute in Hpat. discriminate Hpat.
  - destruct (H eq_refl) as ((rest & Hfirst) & _).
    vm_compute in Hfirst. discriminate Hfirst.
Qed.

Lemma C5_scheme_selection_witness :
  Auth.authenticate Examples.world Examples.both_schemes Examples.with_pat
  = (emit (JwtVerify "pat-123" "s3cret");;
     Auth.authenticateWithPAT Examples.world Examples.both_schemes Examples.with_pat).
Proof.
  destruct (C5_scheme_selection Examples.world Examples.both_schemes
              Examples.with_pat eq_refl) as (_ & _ & H & _).
  exact (H eq_refl eq_refl eq_refl).
Defined.

Lemma C6_missing_organization_fails_fast_witness :
  Auth.authenticateWithPAT Examples.world Examples.both_schemes Examples.with_pat_only
  = (Auth.Responded (Json 400 (error_body "Missing x-ado-organization header")), []).
Proof.
  destruct (C6_missing_organization_fails_fast Examples.world Examples.both_schemes
              Examples.with_pat_only eq_refl) as (_ & _ & _ & H).
  exact (H eq_refl eq_refl).
Defined.

(** ** The protocol endpoint *)

Section ServerFacts.
Import Auth Server.

Lemma record_collects (es : list Emission) :
  forall buffers,
    record es buffers
    = ((fst buffers ++ sent es)%list, (snd buffers ++ errors es)%list).
Proof.
  induction es as [| [msg | e] es IH]; intros [a b]; cbn [record sent errors fst snd].
  - now rewrite !app_nil_r.
  - rewrite IH. cbn [fst snd]. now rewrite <- app_assoc.
  - rewrite IH. cbn [fst snd]. now rewrite <- app_assoc.
Qed.

Lemma notifications_timeout (m : string) :
  startsWith "notifications/" m = true ->
  getTimeoutForMethod (JStr m) = Some 1000.
Proof.
  intros H. apply (prefix_splits "notifications/") in H. rewrite H. reflexivity.
Qed.

(** An object that has a method is not an empty body. *)
Lemma message_is_not_empty (b : jsval) (m : string) :
  get_prop b "method" = Some (JStr m) -> empty_body b = false.
Proof.
  destruct b as [| | | | | | | fields |]; cbn; try discriminate.
  destruct fields; [discriminate | reflexivity].
Qed.

(** The run of a delegation in which nothing throws. *)
Lemma delegation_runs (server : McpServer) (message method id : jsval) (timeout : Z) :
  get_prop message "method" = Some method ->
  get_prop message "id" = Some id ->
  connect_throws server = None ->
  (sets_onmessage server = true -> onmessage_throws server message = None) ->
  getTimeoutForMethod method = Some timeout ->
  let delivered := if sets_onmessage server then Some message else None in
  let emitted := emits_within server delivered timeout in
  delegateToMcpServer message server
  = (inr (resolution id method (sent emitted) (errors emitted)),
     (ConnectDelegate
        :: (if sets_onmessage server then [Deliver message] else [])
        ++ [Wait timeout])%list).
Proof.
  intros Hm Hi Hc Hd Ht. cbv zeta. unfold delegateToMcpServer.
  rewrite Hm, Hi, Hc. traced.
  destruct (sets_onmessage server).
  - cbn [fst snd app]. rewrite (Hd eq_refl), Ht. cbn [fst snd app].
    now rewrite record_collects.
  - cbn [fst snd app]. rewrite Ht. cbn [fst snd app].
    now rewrite record_collects.
Qed.

Lemma stream_has_no_delegation (C : Collaborators) (res : Transport.Response)
  (req : Request) (auth : Identity) :
  existsb is_delegation_event (trace (handleMcpConnection C res req auth)) = false.
Proof.
  unfold handleMcpConnection. traced.
  destruct (new_server C req auth) as [e | server]; [reflexivity |].
  cbn [fst snd app]. destruct (connect_stream C server _) as [[e |] t].
  - destruct (headersSent _); reflexivity.
  - reflexivity.
Qed.

Lemma route_splits
  (handler : Collaborators -> Transport.Response -> Request -> Identity -> Traced Reply)
  (E : Env) (cfg : AuthConfig) (C : Collaborators) (res : Transport.Response)
  (req : Request) :
  exists rest,
    trace (route handler E cfg C res req)
    = (trace (authenticate E cfg req) ++ rest)%list
    /\ ((forall auth, result (authenticate E cfg req) <> Next auth) -> rest = [])
    /\ (forall auth, result (authenticate E cfg req) = Next auth ->
        rest = trace (handler C res req auth)).
Proof.
  unfold route. traced.
  destruct (authenticate E cfg req) as [[r | auth] t]; cbn [fst snd].
  - exists []. repeat split; auto. intros auth H. discriminate.
  - exists (snd (handler C res req auth)). repeat split; auto.
    + intros H. now destruct (H auth).
    + now intros auth' [= <-].
Qed.

(** On both routes a request without a bearer token is answered by the
    gateway, and nothing is called. *)
Lemma routes_reject_missing_bearer (E : Env) (cfg : AuthConfig)
  (C : Collaborators) (res : Transport.Response) (req : Request) :
  missing_bearer (authorization req) = true ->
  get_mcp E cfg C res req
  = (Json 401 (error_body "Missing or invalid Authorization header"), [])
  /\ post_mcp E cfg C res req
     = (Json 401 (error_body "Missing or invalid Authorization header"), []).
Proof.
  intros H. unfold get_mcp, post_mcp, route, authenticate. rewrite H.
  split; reflexivity.
Qed.

(** C2 (amended). Of a request to the protocol endpoint whose
    [Authorization] header is absent, or does not start with [Bearer ], the
    protocol layer sees nothing: no call at all is made, no server is built,
    nothing is connected or delivered.  The rate limiter and the body
    parsers run before the authentication: when the limiter refuses the
    request the answer is 429, when a parser rejects the body the answer is
    the 500 of the error handler, and in every other case the gateway
    answers 401 [Missing or invalid Authorization header].  And for every
    request that the middleware lets through, with its headers as they
    came, the calls are those of the authentication followed by those of the
    handler; the first contain no protocol call, and the second are there
    only when the authentication has called [next()]; a request that the
    middleware does not let through causes no call. *)
Theorem C2_authentication_precedes_protocol (E : Env)
  (config : Config.ServerConfig) (C : Collaborators) (L : App.Libraries)
  (timestamp : string) (res : Transport.Response) (a : App.Arrival) :
  App.endpoint a = App.McpGet \/ App.endpoint a = App.McpPost ->
  let cfg := Config.auth config in
  let answer := App.serve E config C L timestamp res a in
  ((authorization (App.head a) = None
    \/ exists h, authorization (App.head a) = Some h
                 /\ startsWith "Bearer " h = false) ->
   trace answer = []
   /\ (App.over_limit L a = true ->
       result answer
       = Json 429 (error_body "Too many requests, please try again later."))
   /\ (forall message,
         App.over_limit L a = false -> App.parse_body L a = inl message ->
         result answer = App.error_handler config message)
   /\ (forall b,
         App.over_limit L a = false -> App.parse_body L a = inr b ->
         result answer
         = Json 401 (error_body "Missing or invalid Authorization header")))
  /\ (forall req,
        App.setupMiddleware L config a = App.Passed req ->
        authorization req = authorization (App.head a)
        /\ answer = match App.endpoint a with
                    | App.McpGet => get_mcp E cfg C res req
                    | _ => post_mcp E cfg C res req
                    end
        /\ forallb (fun e => negb (is_protocol_event e))
             (trace (authenticate E cfg req)) = true
        /\ exists rest,
             trace answer = (trace (authenticate E cfg req) ++ rest)%list
             /\ ((forall auth, result (authenticate E cfg req) <> Next auth) ->
                 rest = []))
  /\ ((forall req, App.setupMiddleware L config a <> App.Passed req) ->
      trace answer = []).
Proof.
  intros Hep. cbv zeta.
  assert (Hpre : App.preflighted config a = false).
  { unfold App.preflighted. now destruct Hep as [-> | ->]. }
  unfold App.serve, App.setupMiddleware. rewrite Hpre.
  split; [| split].
  - intros Hh. apply absent_header_is_missing in Hh.
    destruct (App.over_limit L a).
    { repeat split; try discriminate; reflexivity. }
    destruct (App.parse_body L a) as [message | b].
    { repeat split; try discriminate. now intros m _ [= <-]. }
    assert (Hr : App.handle E config C timestamp res (App.endpoint a)
                   (App.with_body (App.head a) b)
                 = (Json 401 (error_body "Missing or invalid Authorization header"),
                    [])).
    { destruct (routes_reject_missing_bearer E (Config.auth config) C res
                  (App.with_body (App.head a) b) Hh) as [Hg Hp].
      now destruct Hep as [-> | ->]. }
    rewrite Hr. repeat split; try discriminate; reflexivity.
  - intros req Hpass.
    destruct (App.over_limit L a); [discriminate |].
    destruct (App.parse_body L a) as [message | b]; [discriminate |].
    injection Hpass as <-.
    split; [reflexivity | split; [| split; [apply authenticate_trace |]]].
    + now destruct Hep as [-> | ->].
    + destruct Hep as [-> | ->]; cbn [App.handle].
      * destruct (route_splits handleMcpConnection E (Config.auth config) C res
                    (App.with_body (App.head a) b)) as (rest & H1 & H2 & _).
        exists rest. split; assumption.
      * destruct (route_splits handleMcpRequest E (Config.auth config) C res
                    (App.with_body (App.head a) b)) as (rest & H1 & H2 & _).
        exists rest. split; assumption.
  - intros Hnot.
    destruct (App.over_limit L a); [reflexivity |].
    destruct (App.parse_body L a) as [message | b]; [reflexivity |].
    now destruct (Hnot (App.with_body (App.head a) b)).
Qed.



(** C4 (amended). For every single-shot input whose method starts with
    [notifications/], when connecting and delivering do not throw and the
    server neither sends nor reports an error within the deadline of one
    second, the adapter resolves with the no-response marker [null], and
    the HTTP boundary answers 204 with no body. *)
Theorem C4_notification_gets_no_content (C : Collaborators)
  (res : Transport.Response) (req : Request) (auth : Identity)
  (server : McpServer) (m : string) :
  get_prop (body req) "method" = Some (JStr m) ->
  startsWith "notifications/" m = true ->
  shouldUpgradeToSSE req = false ->
  new_server C req auth = inr server ->
  connect_throws server = None ->
  (sets_onmessage server = true -> onmessage_throws server (body req) = None) ->
  emits_within server (if sets_onmessage server then Some (body req) else None) 1000
  = [] ->
  getTimeoutForMethod (JStr m) = Some 1000
  /\ result (delegateToMcpServer (body req) server) = inr JNull
  /\ result (handleMcpRequest C res req auth) = NoBody 204.
Proof.
  intros Hm Hn Hu Hs Hc Hd Hq.
  pose proof (notifications_timeout m Hn) as Ht.
  assert (Hi : exists id, get_prop (body req) "id" = Some id).
  { destruct (body req); try discriminate; cbn; eauto. }
  destruct Hi as (id & Hi).
  pose proof (delegation_runs server (body req) (JStr m) id 1000 Hm Hi Hc Hd Ht) as Hrun.
  cbv zeta in Hrun. rewrite Hq in Hrun. cbn [sent errors] in Hrun.
  assert (Hres : resolution id (JStr m) [] [] = JNull).
  { unfold resolution. cbn [opt_startsWith]. now rewrite Hn. }
  rewrite Hres in Hrun.
  split; [exact Ht | split].
  - now rewrite Hrun.
  - unfold handleMcpRequest. rewrite Hu. traced. rewrite Hs.
    rewrite (message_is_not_empty _ m Hm). cbn [fst snd]. now rewrite Hrun.
Qed.

(** C8. A POST to the single-shot endpoint whose body is absent or is the
    empty object never invokes the delegation, whichever path it takes; on
    the single-shot path, once the session's server is built, the answer has
    status 200 and is the fixed capability declaration: the response to the
    request [1] of JSON-RPC [2.0] that gives the protocol version
    [2024-11-05], the capabilities [tools], [resources] and [prompts], each
    without options, and the name and the version of the server; building the
    server is the only call made. *)
Theorem C8_empty_body_handshake (C : Collaborators) (res : Transport.Response)
  (req : Request) (auth : Identity) :
  body req = JUndefined \/ body req = JObj [] ->
  existsb is_delegation_event (trace (handleMcpRequest C res req auth)) = false
  /\ (forall server,
        shouldUpgradeToSSE req = false ->
        new_server C req auth = inr server ->
        handleMcpRequest C res req auth
        = (Json 200
             (JObj [("jsonrpc", JStr "2.0");
                    ("id", JNum 1);
                    ("result",
                     JObj [("protocolVersion", JStr "2024-11-05");
                           ("capabilities",
                            JObj [("tools", JObj []); ("resources", JObj []);
                                  ("prompts", JObj [])]);
                           ("serverInfo",
                            JObj [("name", JStr "Azure DevOps MCP Server");
                                  ("version", JStr (packageVersion C))])])]),
           [NewServer])).
Proof.
  intros Hb.
  assert (He : empty_body (body req) = true) by (destruct Hb as [-> | ->]; reflexivity).
  split.
  - unfold handleMcpRequest.
    destruct (shouldUpgradeToSSE req); [apply stream_has_no_delegation |].
    traced. destruct (new_server C req auth); [reflexivity |].
    now rewrite He.
  - intros server Hu Hs. unfold handleMcpRequest. rewrite Hu. traced.
    now rewrite Hs, He.
Qed.

End ServerFacts.

(** A message posted without credentials is answered 401, and nothing is
    called. *)
Lemma C2_authentication_precedes_protocol_witness :
  trace (App.serve Examples.world Examples.defaults
           (Examples.collaborators Examples.silent) Examples.libraries
           "2024-01-01T00:00:00.000Z" Examples.blank Examples.anonymous_post) = []
  /\ result (App.serve Examples.world Examples.defaults
               (Examples.collaborators Examples.silent) Examples.libraries
               "2024-01-01T00:00:00.000Z" Examples.blank Examples.anonymous_post)
     = Json 401 (error_body "Missing or invalid Authorization header").
Proof.
  destruct (C2_authentication_precedes_protocol Examples.world Examples.defaults
              (Examples.collaborators Examples.silent) Examples.libraries
              "2024-01-01T00:00:00.000Z" Examples.blank Examples.anonymous_post
              (or_intror eq_refl)) as (H & _).
  destruct (H (or_introl eq_refl)) as (Ht & _ & _ & H401).
  split; [exact Ht |].
  exact (H401 Examples.list_tools eq_refl eq_refl).
Defined.

(** Two requests without credentials that are not answered by the
    authentication.  A body that is not JSON: the parser hands its error to
    the error handler, which answers 500.  And a request over the limit: the
    limiter answers 429. *)
Lemma C2_unauthenticated_counterexample :
  ~ Stated.unauthenticated_is_rejected Examples.world Examples.defaults
      (Examples.collaborators Examples.silent) Examples.libraries
      "2024-01-01T00:00:00.000Z" Examples.blank Examples.malformed_post
  /\ ~ Stated.unauthenticated_is_rejected Examples.world Examples.defaults
        (Examples.collaborators Examples.silent) Examples.saturated
        "2024-01-01T00:00:00.000Z" Examples.blank Examples.anonymous_post.
Proof.
  split; intros H;
    destruct (H (or_intror eq_refl) eq_refl) as [(status & reason & Hr & Hs) _];
    vm_compute in Hr; injection Hr as Hstatus _; subst status;
    destruct Hs; discriminate.
Qed.



Lemma C4_notification_gets_no_content_witness :
  result (Server.handleMcpRequest (Examples.collaborators Examples.silent)
            Examples.blank (Examples.post Examples.initialized) Examples.contoso)
  = NoBody 204.
Proof.
  exact (proj2 (proj2
    (C4_notification_gets_no_content (Examples.collaborators Examples.silent)
       Examples.blank (Examples.post Examples.initialized) Examples.contoso
       Examples.silent "notifications/initialized"
       eq_refl eq_refl eq_refl eq_refl eq_refl (fun _ => eq_refl) eq_refl))).
Defined.

(** Two Notifications that are not answered 204.  A message without [id]
    whose method does not lie under [notifications/]: a silent server leaves
    a timeout error, sent with status 200.  And an [initialized]
    notification whose server reports a transport error: the error response
    is sent with status 200. *)
Lemma C4_notification_counterexample :
  ~ Stated.notification_gets_no_content (Examples.collaborators Examples.silent)
      Examples.blank (Examples.post Examples.bare_notification) Examples.contoso
  /\ ~ Stated.notification_gets_no_content (Examples.collaborators Examples.failing)
        Examples.blank (Examples.post Examples.initialized) Examples.contoso.
Proof.
  split; intros H.
  - destruct (H Examples.silent eq_refl eq_refl eq_refl eq_refl) as [_ H2].
    vm_compute in H2. discriminate H2.
  - destruct (H Examples.failing eq_refl eq_refl eq_refl eq_refl) as [_ H2].
    vm_compute in H2. discriminate H2.
Qed.

Lemma C8_empty_body_handshake_witness :
  Server.handleMcpRequest (Examples.collaborators Examples.silent) Examples.blank
    (Examples.post (JObj [])) Examples.contoso
  = (Json 200 (Server.handshake "1.0.0"), [NewServer]).
Proof.
  exact (proj2 (C8_empty_body_handshake (Examples.collaborators Examples.silent)
                  Examples.blank (Examples.post (JObj [])) Examples.contoso
                  (or_intror eq_refl))
           Examples.silent eq_refl eq_refl).
Defined.

(** ** The OAuth exchange *)

Section OAuthFacts.
Import Chars Auth Redirect.

Lemma append_assoc (a b c : string) : ((a ++ b) ++ c = a ++ (b ++ c))%string.
Proof. induction a as [| x a IH]; cbn; [reflexivity | now rewrite IH]. Qed.

Ltac each_character c :=
  destruct c as [b0 b1 b2 b3 b4 b5 b6 b7];
  destruct b0, b1, b2, b3, b4, b5, b6, b7.

(** Decoding undoes the encoding of one character, kept or escaped. *)
Lemma decode_character (c : ascii) (r : string) :
  URI.decodeURIComponent
    (if URI.unreserved c then String c r else URI.escape c ++ r)
  = option_map (String c) (URI.decodeURIComponent r).
Proof. each_character c; reflexivity. Qed.

Lemma decode_encode (s : string) :
  URI.decodeURIComponent (URI.encodeURIComponent s) = Some s.
Proof.
  induction s as [| c s IH]; [reflexivity |].
  cbn [URI.encodeURIComponent]. rewrite decode_character, IH. reflexivity.
Qed.

(** No [&] survives the encoding. *)
Lemma encoded_character_has_no_ampersand (c : ascii) (r : string) :
  mem "&" (if URI.unreserved c then String c r else URI.escape c ++ r) = mem "&" r.
Proof. each_character c; reflexivity. Qed.

Lemma encoded_has_no_ampersand (s : string) :
  mem "&" (URI.encodeURIComponent s) = false.
Proof.
  induction s as [| c s IH]; [reflexivity |].
  cbn [URI.encodeURIComponent]. now rewrite encoded_character_has_no_ampersand.
Qed.

Lemma last_parameter_without_ampersand (s : string) :
  mem "&" s = false -> forall candidate, last_parameter_from candidate s = candidate.
Proof.
  induction s as [| c s IH]; intros H candidate; [reflexivity |].
  cbn [mem] in H. cbn [last_parameter_from].
  apply orb_false_elim in H as [Hc Hs].
  rewrite Ascii.eqb_sym in Hc. rewrite Hc. now apply IH.
Qed.

(** When the last parameter of [s] does not depend on what came before,
    it is the last parameter of any text that ends with [s]. *)
Lemma last_parameter_after (s v : string) :
  (forall candidate, last_parameter_from candidate s = v) ->
  forall p candidate, last_parameter_from candidate (p ++ s) = v.
Proof.
  intros H p. induction p as [| c p IH]; intros candidate; cbn.
  - apply H.
  - destruct (Ascii.eqb c "&"); apply IH.
Qed.

Lemma state_is_last_parameter (clientId redirectUri organization : string) :
  last_parameter (authorization_url clientId redirectUri organization)
  = "state=" ++ URI.encodeURIComponent
                  (opt_to_string (JSON.stringify (state_of organization))).
Proof.
  unfold last_parameter, authorization_url.
  set (payload := URI.encodeURIComponent
                    (opt_to_string (JSON.stringify (state_of organization)))).
  assert (Hamp : mem "&" payload = false) by apply encoded_has_no_ampersand.
  clearbody payload.
  assert (Hstate : forall candidate,
             last_parameter_from candidate ("&state=" ++ payload) = "state=" ++ payload).
  { intros candidate. cbn.
    now rewrite (last_parameter_without_ampersand payload Hamp). }
  do 8 (apply last_parameter_after; intros ?).
  apply Hstate.
Qed.

(** A string literal is read back from its quoted form. *)
Lemma body_of_quoted_character (c : ascii) (r : string) :
  JSON.string_body None (JSON.quote_char c ++ r)
  = option_map (fun p => (String c (fst p), snd p)) (JSON.string_body None r).
Proof. each_character c; reflexivity. Qed.

Lemma body_of_quoted (s rest : string) :
  JSON.string_body None (JSON.quote_chars s ++ String dquote rest) = Some (s, rest).
Proof.
  induction s as [| c s IH]; [reflexivity |].
  cbn [JSON.quote_chars]. rewrite append_assoc, body_of_quoted_character, IH.
  reflexivity.
Qed.

Lemma stringify_state (organization : string) :
  JSON.stringify (state_of organization) = Some (state_text organization).
Proof.
  unfold state_of, state_text. cbn. unfold JSON.quote. cbn.
  now rewrite append_assoc.
Qed.

Lemma value_of_state (organization : string) (fuel : nat) :
  JSON.value (S (S (S fuel))) (state_text organization)
  = Some (state_of organization, "").
Proof.
  unfold state_text.
  set (tail := String ":" (String dquote
                 (JSON.quote_chars organization ++ String dquote "}"))).
  change ("organization" ++ String dquote tail)
    with (JSON.quote_chars "organization" ++ String dquote tail).
  cbn -[JSON.string_body JSON.quote_chars append tail].
  rewrite body_of_quoted. subst tail.
  cbn -[JSON.string_body JSON.quote_chars append].
  rewrite body_of_quoted. reflexivity.
Qed.

Lemma parse_state (organization : string) :
  JSON.parse (state_text organization) = Some (state_of organization).
Proof.
  unfold JSON.parse.
  assert (Hfuel : exists fuel,
             (2 * String.length (state_text organization) + 1)%nat = S (S (S fuel))).
  { exists (2 * String.length (state_text organization) - 2)%nat.
    unfold state_text. cbn [String.length]. lia. }
  destruct Hfuel as (fuel & ->). now rewrite value_of_state.
Qed.

Lemma state_is_embedded (clientId redirectUri organization : string) :
  embedded_state (authorization_url clientId redirectUri organization)
  = Some (state_text organization).
Proof.
  unfold embedded_state. rewrite state_is_last_parameter, stringify_state.
  cbn [opt_to_string].
  change (startsWith "state=" ("state=" ++ ?x)) with true.
  change (substring_from 6 ("state=" ++ ?x)) with x.
  cbv iota. apply decode_encode.
Qed.

(** C7. For every organization [org] that [initiateOAuthFlow] accepts (the
    flow is configured and [org] is not empty), the authorization URL it
    answers carries as [state] a text that decodes to the JSON of
    [{organization: org}] and parses back to exactly that object; and when
    that text comes back to [handleOAuthCallback] and the code is exchanged,
    the answer has [org] as its [organization] (and so has the session
    token that is signed). *)
Theorem C7_state_round_trip (E : Env) (cfg : AuthConfig) (init back : Request)
  (org : string) :
  oauthEnabled cfg = true ->
  opt_truthy (azureClientId cfg) = true ->
  query_organization init = Some org ->
  org <> "" ->
  exists url state,
    initiateOAuthFlow cfg init = Json 200 (JObj [("authUrl", JStr url)])
    /\ embedded_state url = Some state
    /\ JSON.stringify (JObj [("organization", JStr org)]) = Some state
    /\ JSON.parse state = Some (JObj [("organization", JStr org)])
    /\ (forall reply,
          opt_truthy (azureClientSecret cfg) = true ->
          opt_truthy (jwtSecret cfg) = true ->
          opt_truthy (query_code back) = true ->
          query_state back = Some state ->
          result (exchangeCodeForToken E (opt_to_string (query_code back))
                    (callback_uri back) (opt_to_string (azureClientId cfg))
                    (opt_to_string (azureClientSecret cfg))) = inr reply ->
          result (handleOAuthCallback E cfg back)
          = Json 200
              (JObj [("token",
                      JStr (jwt_sign E
                              {| session_sub := before_first "." (access_token reply);
                                 session_accessToken := access_token reply;
                                 session_organization := JStr org;
                                 session_iat := now E / 1000;
                                 session_exp := now E / 1000 + expires_in reply |}
                              (opt_to_string (jwtSecret cfg))));
                     ("expires_in", JNum (expires_in reply));
                     ("organization", JStr org)])).
Proof.
  intros Hon Hid Horg Hne.
  exists (authorization_url (opt_to_string (azureClientId cfg))
            (opt_to_string (opt_or (query_redirect_uri init) (Some (callback_uri init))))
            org),
         (state_text org).
  split; [| split; [| split; [| split]]].
  - unfold initiateOAuthFlow. rewrite Hon, Hid, Horg. cbn [negb orb].
    apply String.eqb_neq in Hne. now rewrite Hne.
  - apply state_is_embedded.
  - apply (stringify_state org).
  - apply (parse_state org).
  - intros reply Hsecret Hjwt Hcode Hstate Hexchange.
    unfold handleOAuthCallback.
    rewrite Hon, Hid, Hsecret, Hcode, Hstate. cbn [negb orb].
    change (opt_truthy (Some (state_text org))) with true. cbv iota.
    cbn [opt_to_string]. rewrite parse_state.
    change (get_prop (state_of org) "organization") with (Some (JStr org)).
    cbv iota. unfold result in Hexchange |- *. unfold bind at 1.
    rewrite Hexchange, Hjwt. reflexivity.
Qed.

End OAuthFacts.

(** The organization [contoso], through the redirect and back. *)
Lemma C7_state_round_trip_witness :
  exists url state,
    Auth.initiateOAuthFlow Examples.both_schemes
      (Examples.oauth_request (Some "contoso") None None)
    = Json 200 (JObj [("authUrl", JStr url)])
    /\ Redirect.embedded_state url = Some state
    /\ result (Auth.handleOAuthCallback Examples.world Examples.both_schemes
                 (Examples.oauth_request None (Some "code-1") (Some state)))
       = Json 200 (JObj [("token", JStr "jwt:aad.tok.en");
                         ("expires_in", JNum 3600);
                         ("organization", JStr "contoso")]).
Proof.
  destruct (C7_state_round_trip Examples.world Examples.both_schemes
              (Examples.oauth_request (Some "contoso") None None)
              (Examples.oauth_request None (Some "code-1")
                 (Some (Auth.state_text "contoso")))
              "contoso" eq_refl eq_refl eq_refl)
    as (url & state & Hurl & Hstate & Htext & _ & Hback).
  { discriminate. }
  exists url, state. split; [exact Hurl | split; [exact Hstate |]].
  assert (Hs : state = Auth.state_text "contoso").
  { change (JSON.stringify (Auth.state_of "contoso") = Some state) in Htext.
    rewrite stringify_state in Htext. now injection Htext. }
  subst state.
  exact (Hback Examples.token_reply eq_refl eq_refl eq_refl eq_refl eq_refl).
Defined.

(* ================================================================== *)
(** * Part III: further properties of the code *)
(* ================================================================== *)

(** ** Authentication: what the middlewares call, and when *)

Section AuthCalls.
Import Auth Measure.
Variable E : Env.
Variable cfg : AuthConfig.

Lemma pat_run (req : Request) :
  trace (authenticateWithPAT E cfg req) = []
  \/ exists organization,
       x_ado_organization req = Some organization
       /\ trace (authenticateWithPAT E cfg req)
          = [DownstreamCall ("https://dev.azure.com/" ++ organization)
               (bearer_token (authorization req))]
       /\ result (authenticateWithPAT E cfg req)
          = if getProjects E ("https://dev.azure.com/" ++ organization)
                 (bearer_token (authorization req))
            then Next {| type := pat;
                         token := JStr (bearer_token (authorization req));
                         organization := JStr organization;
                         userId := None; claims := None |}
            else Responded (Json 401 (error_body "Invalid Personal Access Token")).
Proof.
  unfold authenticateWithPAT, validatePAT.
  destruct (patEnabled cfg); cbn [negb]; [| now left].
  destruct (missing_bearer (authorization req)); [now left |].
  destruct (x_ado_organization req) as [org |]; [| now left].
  destruct (org =? "")%string; [now left |].
  right. exists org. traced.
  destruct (getProjects E _ _); cbn; repeat split; reflexivity.
Qed.

(** X1. The PAT middleware validates at most once and never retries: it
    makes no call at all, or exactly one call against the organization URL
    of the header with the presented token, and the answer of that one call
    decides between [next()] and 401 [Invalid Personal Access Token]. *)
Theorem pat_validates_at_most_once (req : Request) :
  trace (authenticateWithPAT E cfg req) = []
  \/ exists organization,
       x_ado_organization req = Some organization
       /\ trace (authenticateWithPAT E cfg req)
          = [DownstreamCall ("https://dev.azure.com/" ++ organization)
               (bearer_token (authorization req))]
       /\ result (authenticateWithPAT E cfg req)
          = if getProjects E ("https://dev.azure.com/" ++ organization)
                 (bearer_token (authorization req))
            then Next {| type := pat;
                         token := JStr (bearer_token (authorization req));
                         organization := JStr organization;
                         userId := None; claims := None |}
            else Responded (Json 401 (error_body "Invalid Personal Access Token")).
Proof. exact (pat_run req). Qed.

(** X2. The federated middleware never calls the downstream API and never
    reaches the protocol layer: whatever the request, its only call is at
    most one local verification of the presented token. *)
Theorem oauth_only_verifies_locally (req : Request) :
  trace (authenticateWithOAuth E cfg req) = []
  \/ trace (authenticateWithOAuth E cfg req)
     = [JwtVerify (bearer_token (authorization req)) (opt_to_string (jwtSecret cfg))].
Proof.
  unfold authenticateWithOAuth.
  destruct (oauthEnabled cfg); cbn [negb]; [| now left].
  destruct (missing_bearer (authorization req)); [now left |].
  destruct (opt_truthy (jwtSecret cfg)); cbn [negb]; [| now left].
  right. traced.
  destruct (jwt_verify E _ _) as [decoded |]; [| reflexivity].
  destruct (get_prop decoded "organization") as [claimed |]; [| reflexivity].
  destruct (get_prop decoded "accessToken"); [| reflexivity].
  destruct (get_prop decoded "sub"); [| reflexivity].
  destruct (truthy (or_else claimed _)); reflexivity.
Qed.

(** X3. In the federated scheme the organization claim of the token takes
    precedence over the header: when the middleware calls [next()], the
    presented token has verified against the configured secret, the identity
    carries its payload as [claims], and the organization of the identity is
    the [organization] claim of that payload when the claim is truthy, and
    the header, which is then a string that is not empty, only otherwise. *)
Theorem oauth_claim_precedes_header (req : Request) (auth : Identity) :
  result (authenticateWithOAuth E cfg req) = Next auth ->
  exists decoded claimed,
    jwt_verify E (bearer_token (authorization req)) (opt_to_string (jwtSecret cfg))
    = Some decoded
    /\ get_prop decoded "organization" = Some claimed
    /\ claims auth = Some decoded
    /\ (truthy claimed = true -> organization auth = claimed)
    /\ (truthy claimed = false ->
        exists header,
          x_ado_organization req = Some header /\ header <> ""
          /\ organization auth = JStr header).
Proof.
  intros H.
  apply oauth_next in H as (decoded & claimed & accessToken & sub & _ & _ & Hv & Hc
                            & _ & _ & Ht & ->).
  exists decoded, claimed. cbn [claims organization].
  split; [exact Hv | split; [exact Hc | split; [reflexivity | split]]].
  - intros Hy. unfold or_else. now rewrite Hy.
  - intros Hy. unfold or_else in *. rewrite Hy in *.
    destruct (x_ado_organization req) as [header |]; [| discriminate Ht].
    exists header. cbn in Ht. apply negb_true_iff, String.eqb_neq in Ht.
    repeat split; auto.
Qed.

Lemma gateway_rejections (req : Request) (r : Reply) :
  result (authenticate E cfg req) = Responded r ->
  exists reason,
    (r = Json 400 (error_body reason) \/ r = Json 401 (error_body reason)).
Proof.
  unfold authenticate.
  destruct (missing_bearer (authorization req)) eqn:Hb.
  { traced. intros [= <-]. eauto. }
  assert (Hpat : patEnabled cfg = true ->
                 result (authenticateWithPAT E cfg req) = Responded r ->
                 exists reason,
                   r = Json 400 (error_body reason) \/ r = Json 401 (error_body reason)).
  { intros Hp. unfold authenticateWithPAT, validatePAT. rewrite Hp, Hb. cbn [negb].
    destruct (x_ado_organization req) as [org |]; [| traced; intros [= <-]; eauto].
    destruct (org =? "")%string; [traced; intros [= <-]; eauto |].
    traced. destruct (getProjects E _ _); cbn; [discriminate |].
    intros [= <-]. eauto. }
  assert (Htry : result (if patEnabled cfg then authenticateWithPAT E cfg req
                         else reject 401 "No valid authentication method found")
                 = Responded r ->
                 exists reason,
                   r = Json 400 (error_body reason) \/ r = Json 401 (error_body reason)).
  { destruct (patEnabled cfg); [now apply Hpat |]. traced. intros [= <-]. eauto. }
  destruct (oauthEnabled cfg && opt_truthy (jwtSecret cfg)) eqn:Hf; [| exact Htry].
  apply andb_prop in Hf as [Ho Hs]. traced.
  destruct (jwt_verify E _ _) as [decoded |] eqn:Hv; [| exact Htry].
  unfold authenticateWithOAuth. rewrite Ho, Hb, Hs. cbn [negb]. traced. rewrite Hv.
  destruct (get_prop decoded "organization") as [claimed |];
    [| intros [= <-]; eauto].
  destruct (get_prop decoded "accessToken"); [| intros [= <-]; eauto].
  destruct (get_prop decoded "sub"); [| intros [= <-]; eauto].
  destruct (truthy (or_else claimed _)); cbn [negb];
    [discriminate | intros [= <-]; eauto].
Qed.

(** X4. The gateway never answers 501: every rejection is a JSON reply with
    status 400 or 401, also when the scheme that would have applied is
    disabled. *)
Theorem gateway_rejects_with_400_or_401 (req : Request) (r : Reply) :
  result (authenticate E cfg req) = Responded r ->
  exists reason,
    (r = Json 400 (error_body reason) \/ r = Json 401 (error_body reason)).
Proof. exact (gateway_rejections req r). Qed.

(** X5. The credential that was validated is the credential that is used:
    when the gateway passes a request under the credential scheme, the
    downstream client built from the identity addresses the organization
    URL and carries the token of the one downstream call that the gateway
    made, and that call succeeded. *)
Theorem validated_credential_is_used (req : Request) (auth : Identity)
  (agent : option string) :
  result (authenticate E cfg req) = Next auth ->
  type auth = pat ->
  exists client token,
    Client.createAzureDevOpsClient (Some auth) agent = inr client
    /\ Client.bearer client = JStr token
    /\ In (DownstreamCall (Client.orgUrl client) token)
         (trace (authenticate E cfg req))
    /\ count_events is_downstream_call (trace (authenticate E cfg req)) = 1%nat
    /\ getProjects E (Client.orgUrl client) token = true.
Proof.
  intros Hn Hpat.
  assert (Hcore : exists org tok,
             organization auth = JStr org /\ token auth = JStr tok
             /\ In (DownstreamCall ("https://dev.azure.com/" ++ org) tok)
                  (trace (authenticate E cfg req))
             /\ count_events is_downstream_call (trace (authenticate E cfg req))
                = 1%nat
             /\ getProjects E ("https://dev.azure.com/" ++ org) tok = true).
  { revert Hn. unfold authenticate.
    destruct (missing_bearer (authorization req)) eqn:Hb; [traced; discriminate |].
    assert (Hp : forall pre,
               forallb (fun e => negb (is_downstream_call e)) pre = true ->
               result (authenticateWithPAT E cfg req) = Next auth ->
               exists org tok,
                 organization auth = JStr org /\ token auth = JStr tok
                 /\ In (DownstreamCall ("https://dev.azure.com/" ++ org) tok)
                      (pre ++ trace (authenticateWithPAT E cfg req))%list
                 /\ count_events is_downstream_call
                      (pre ++ trace (authenticateWithPAT E cfg req))%list = 1%nat
                 /\ getProjects E ("https://dev.azure.com/" ++ org) tok = true).
    { intros pre Hpre H.
      destruct (pat_run req) as [Ht | (org & Ho & Ht & Hr)].
      - exfalso. unfold authenticateWithPAT, validatePAT in H, Ht.
        destruct (patEnabled cfg); cbn [negb] in *; [| traced; discriminate].
        rewrite Hb in *.
        destruct (x_ado_organization req) as [o |]; [| traced; discriminate].
        destruct (o =? "")%string; [traced; discriminate |].
        revert Ht. traced. discriminate.
      - rewrite Hr in H. rewrite Ht.
        destruct (getProjects E _ _) eqn:Hg; [| discriminate].
        injection H as <-. exists org, (bearer_token (authorization req)).
        cbn [organization token].
        split; [reflexivity | split; [reflexivity |]].
        split; [apply in_or_app; right; now left | split; [| exact Hg]].
        clear - Hpre. induction pre as [| e pre IH]; cbn in *; [reflexivity |].
        apply andb_prop in Hpre as [He Hpre]. apply negb_true_iff in He.
        rewrite He. now apply IH. }
    destruct (oauthEnabled cfg && opt_truthy (jwtSecret cfg)).
    - traced. destruct (jwt_verify E _ _) as [decoded |] eqn:Hv.
      + intros H. exfalso.
        apply oauth_next in H as (d & c & a & sb & _ & _ & _ & _ & _ & _ & _ & H).
        rewrite H in Hpat. discriminate.
      + destruct (patEnabled cfg); [| discriminate].
        intros H. exact (Hp [JwtVerify _ _] eq_refl H).
    - destruct (patEnabled cfg); [| traced; discriminate].
      intros H. exact (Hp [] eq_refl H). }
  destruct Hcore as (org & tok & Horg & Htok & Hin & Hcount & Hok).
  eexists. exists tok. split; [reflexivity |].
  cbn [Client.orgUrl Client.bearer]. rewrite Horg. cbn [to_string].
  repeat split; assumption.
Qed.

Lemma callback_run (req : Request) :
  let exchange :=
    TokenExchange (opt_to_string (query_code req)) (callback_uri req)
      (opt_to_string (azureClientId cfg)) (opt_to_string (azureClientSecret cfg)) in
  let sign := JwtSign (opt_to_string (jwtSecret cfg)) in
  (trace (handleOAuthCallback E cfg req) = []
   \/ trace (handleOAuthCallback E cfg req) = [exchange]
   \/ trace (handleOAuthCallback E cfg req) = [exchange; sign])
  /\ (trace (handleOAuthCallback E cfg req) = [exchange; sign]
      <-> status_of (result (handleOAuthCallback E cfg req)) = Some 200)
  /\ (opt_truthy (query_code req) = false ->
      trace (handleOAuthCallback E cfg req) = []).
Proof.
  cbv zeta. unfold handleOAuthCallback.
  destruct (negb (oauthEnabled cfg) || negb (opt_truthy (azureClientSecret cfg))
            || negb (opt_truthy (azureClientId cfg))).
  { cbn. repeat split; auto; discriminate. }
  destruct (opt_truthy (query_code req)); cbn [negb].
  2:{ cbn. repeat split; auto; discriminate. }
  destruct (if opt_truthy (query_state req)
            then JSON.parse (opt_to_string (query_state req))
            else Some (JObj [])) as [stateData |].
  2:{ cbn. repeat split; auto; discriminate. }
  destruct (get_prop stateData "organization") as [organization |].
  2:{ cbn. repeat split; auto; discriminate. }
  unfold exchangeCodeForToken. traced.
  destruct (match fetch_token E _ _ _ _ with
            | NetworkError error => inl error
            | HttpResponse ok status text json => _
            end) as [error | tokenResponse].
  { cbn. repeat split; auto; discriminate. }
  destruct (opt_truthy (jwtSecret cfg)); cbn.
  - repeat split; auto; discriminate.
  - repeat split; auto; discriminate.
Qed.


(** X7. The OAuth callback says nothing about why it failed: once the flow
    is configured and a code is given, the answer is either the 200 with the
    session token or one fixed 400 body, the same for a state that does not
    parse, a token endpoint that fails or answers with an error, and a
    missing JWT secret. *)
Theorem callback_failures_are_uniform (req : Request) :
  oauthEnabled cfg = true ->
  opt_truthy (azureClientSecret cfg) = true ->
  opt_truthy (azureClientId cfg) = true ->
  opt_truthy (query_code req) = true ->
  status_of (result (handleOAuthCallback E cfg req)) = Some 200
  \/ result (handleOAuthCallback E cfg req)
     = Json 400 (error_body "Failed to exchange authorization code").
Proof.
  intros Ho Hs Hi Hc. unfold handleOAuthCallback.
  rewrite Ho, Hs, Hi, Hc. cbn [negb orb].
  destruct (if opt_truthy (query_state req)
            then JSON.parse (opt_to_string (query_state req))
            else Some (JObj [])) as [stateData |]; [| now right].
  destruct (get_prop stateData "organization") as [organization |]; [| now right].
  traced.
  destruct (fst (exchangeCodeForToken E _ _ _ _)) as [error | tokenResponse];
    [now right |].
  destruct (opt_truthy (jwtSecret cfg)); cbn; [now left | now right].
Qed.

End AuthCalls.

(** ** The authorization URL *)

Section AuthorizationUrl.
Import Chars Auth Measure.

Ltac every_character c :=
  destruct c as [b0 b1 b2 b3 b4 b5 b6 b7];
  destruct b0, b1, b2, b3, b4, b5, b6, b7.

Lemma encoded_character_is_free (c : ascii) (r : string) :
  free_of "&=#?" (if URI.unreserved c then String c r else URI.escape c ++ r)
  = free_of "&=#?" r.
Proof. every_character c; reflexivity. Qed.

Lemma encoded_is_free (s : string) : free_of "&=#?" (URI.encodeURIComponent s) = true.
Proof.
  induction s as [| c s IH]; [reflexivity |].
  cbn [URI.encodeURIComponent]. now rewrite encoded_character_is_free.
Qed.

(** X8. Whatever the organization and the redirect URI contain, they cannot
    add or break a parameter of the authorization URL: the URL is the fixed
    endpoint, the client id, and three values that contain none of [&], [=],
    [#] and [?] and that decode to the redirect URI (the one of the query,
    or the callback address of the request), to the scopes and to the JSON
    of the organization. *)
Theorem authorization_url_is_unambiguous (cfg : AuthConfig) (req : Request)
  (url : string) :
  initiateOAuthFlow cfg req = Json 200 (JObj [("authUrl", JStr url)]) ->
  exists organization r s t,
    query_organization req = Some organization
    /\ url = "https://app.vssps.visualstudio.com/oauth2/authorize"
             ++ "?client_id=" ++ opt_to_string (azureClientId cfg)
             ++ "&response_type=code"
             ++ "&redirect_uri=" ++ r ++ "&scope=" ++ s ++ "&state=" ++ t
    /\ URI.decodeURIComponent r
       = Some (if opt_truthy (query_redirect_uri req)
               then opt_to_string (query_redirect_uri req)
               else callback_uri req)
    /\ URI.decodeURIComponent s = Some scopes
    /\ URI.decodeURIComponent t = JSON.stringify (state_of organization)
    /\ free_of "&=#?" r = true /\ free_of "&=#?" s = true /\ free_of "&=#?" t = true.
Proof.
  unfold initiateOAuthFlow.
  destruct (negb (oauthEnabled cfg) || negb (opt_truthy (azureClientId cfg)));
    [discriminate |].
  destruct (query_organization req) as [organization |]; [| discriminate].
  destruct (organization =? "")%string; [discriminate |].
  intros [= <-]. exists organization. do 3 eexists.
  split; [reflexivity | split; [reflexivity |]].
  rewrite !decode_encode, !encoded_is_free, stringify_state. cbn [opt_to_string].
  repeat split. unfold opt_or. now destruct (opt_truthy (query_redirect_uri req)).
Qed.

End AuthorizationUrl.

(** ** Configuration and command line *)

Section Startup.
Import Config Measure.

Lemma digits_accumulate (d : Decimal.uint) :
  forall acc : positive,
    JSON.digits_value (Z.pos acc) (NilEmpty.string_of_uint d)
    = Z.pos (Pos.of_uint_acc d acc).
Proof.
  induction d; intros acc; cbn [NilEmpty.string_of_uint JSON.digits_value Pos.of_uint_acc];
    try reflexivity;
    match goal with
    | |- JSON.digits_value ?a _ = _ =>
        match goal with
        | |- _ = Z.pos (Pos.of_uint_acc _ ?b) =>
            replace a with (Z.pos b) by (vm_compute Chars.code; lia)
        end
    end; apply IHd.
Qed.

Lemma digits_value_of_uint (d : Decimal.uint) :
  JSON.digits_value 0 (NilEmpty.string_of_uint d) = Z.of_N (Pos.of_uint d).
Proof.
  induction d; cbn [NilEmpty.string_of_uint JSON.digits_value Pos.of_uint];
    try reflexivity; try exact IHd;
    match goal with
    | |- JSON.digits_value ?a _ = Z.of_N (N.pos (Pos.of_uint_acc _ ?b)) =>
        change a with (Z.pos b); apply digits_accumulate
    end.
Qed.

Lemma span_digits_of_uint (d : Decimal.uint) :
  JSON.span_digits (NilEmpty.string_of_uint d) = (NilEmpty.string_of_uint d, "").
Proof.
  induction d; cbn [NilEmpty.string_of_uint JSON.span_digits]; try reflexivity;
    change (Chars.is_digit _) with true; cbv iota; now rewrite IHd.
Qed.

(** A number written in decimal is read back by [parseInt]. *)
Lemma parseInt_string_of_Z (n : Z) : parseInt (string_of_Z n) = Some n.
Proof.
  assert (Hpos : forall p,
             exists c r, NilEmpty.string_of_uint (Pos.to_uint p) = String c r
                         /\ Chars.is_digit c = true).
  { intros p. pose proof (Unsigned.to_uint_nonnil p) as Hn.
    destruct (Pos.to_uint p); try contradiction; cbn; eauto. }
  assert (Hval : forall p,
             JSON.digits_value 0 (NilEmpty.string_of_uint (Pos.to_uint p)) = Z.pos p).
  { intros p. now rewrite digits_value_of_uint, Unsigned.of_to. }
  assert (Hsame : forall p,
             NilZero.string_of_uint (Pos.to_uint p)
             = NilEmpty.string_of_uint (Pos.to_uint p)).
  { intros p. pose proof (Unsigned.to_uint_nonnil p) as Hn.
    now destruct (Pos.to_uint p). }
  assert (Hread : forall p,
             parseInt (NilEmpty.string_of_uint (Pos.to_uint p)) = Some (Z.pos p)).
  { intros p. destruct (Hpos p) as (c & r & Hs & Hd). unfold parseInt.
    assert (Hskip : skip_space (NilEmpty.string_of_uint (Pos.to_uint p))
                    = NilEmpty.string_of_uint (Pos.to_uint p)).
    { rewrite Hs. cbn [skip_space].
      replace (is_space c) with false; [reflexivity |].
      revert Hd. clear. destruct c as [[] [] [] [] [] [] [] []]; cbv; congruence. }
    rewrite Hskip.
    assert (Hsign : (match NilEmpty.string_of_uint (Pos.to_uint p) with
                     | String "-" r0 => (true, r0)
                     | String "+" r0 => (false, r0)
                     | _ => (false, NilEmpty.string_of_uint (Pos.to_uint p))
                     end) = (false, NilEmpty.string_of_uint (Pos.to_uint p))).
    { rewrite Hs. revert Hd. clear.
      destruct c as [[] [] [] [] [] [] [] []]; cbv; congruence. }
    rewrite Hsign, span_digits_of_uint, Hs, <- Hs, Hval. reflexivity. }
  destruct n as [| p | p]; unfold string_of_Z; cbn [Z.to_int NilZero.string_of_int].
  - reflexivity.
  - rewrite Hsame. apply Hread.
  - rewrite Hsame. unfold parseInt. cbn [skip_space].
    change (is_space "-") with false. cbv iota.
    rewrite span_digits_of_uint.
    destruct (Hpos p) as (c & r & Hs & _). rewrite Hs, <- Hs, Hval. reflexivity.
Qed.

Lemma string_of_Z_is_not_empty (n : Z) : (string_of_Z n =? "")%string = false.
Proof.
  destruct n as [| p | p]; unfold string_of_Z; cbn [Z.to_int NilZero.string_of_int];
    try reflexivity.
  pose proof (Unsigned.to_uint_nonnil p) as Hn.
  unfold NilZero.string_of_uint. destruct (Pos.to_uint p); try contradiction; reflexivity.
Qed.

Lemma loadConfig_cases (env : Environment) :
  let a := auth (read env) in
  let usable :=
    (Auth.patEnabled a || Auth.oauthEnabled a)
    && (negb (Auth.oauthEnabled a)
        || (opt_truthy (Auth.jwtSecret a) && opt_truthy (Auth.azureClientId a)
            && opt_truthy (Auth.azureClientSecret a))) in
  (usable = true -> loadConfig env = inr (read env))
  /\ (usable = false -> exists message, loadConfig env = inl message)
  /\ (forall config, loadConfig env = inr config -> config = read env /\ usable = true).
Proof.
  cbv zeta. unfold loadConfig.
  destruct (Auth.patEnabled (auth (read env))),
           (Auth.oauthEnabled (auth (read env))),
           (opt_truthy (Auth.jwtSecret (auth (read env)))),
           (opt_truthy (Auth.azureClientId (auth (read env)))),
           (opt_truthy (Auth.azureClientSecret (auth (read env))));
    cbn; repeat split; try discriminate; eauto;
    try match goal with
        | H : inr _ = inr _ |- _ => now injection H as <-
        | H : inl _ = inr _ |- _ => discriminate H
        end.
Qed.

(** X9. A configuration that [loadConfig] returns can authenticate: at
    least one scheme is enabled, and when OAuth is enabled the JWT secret,
    the client id and the client secret are all there and not empty.  It
    is the configuration read from the environment, and [loadConfig] throws
    for every environment that does not meet these conditions. *)
Theorem loaded_configuration_is_usable (env : Environment) :
  let a := auth (read env) in
  let usable :=
    (Auth.patEnabled a || Auth.oauthEnabled a)
    && (negb (Auth.oauthEnabled a)
        || (opt_truthy (Auth.jwtSecret a) && opt_truthy (Auth.azureClientId a)
            && opt_truthy (Auth.azureClientSecret a))) in
  (usable = true -> loadConfig env = inr (read env))
  /\ (usable = false -> exists message, loadConfig env = inl message)
  /\ (forall config, loadConfig env = inr config -> config = read env /\ usable = true).
Proof. exact (loadConfig_cases env). Qed.

(** X10. The schemes are switched by exact words: the credential scheme is
    off only when [AUTH_PAT_ENABLED] is exactly [false], and OAuth is on only
    when [AUTH_OAUTH_ENABLED] is exactly [true]; so an environment that sets
    neither variable loads, with the credential scheme alone, whatever else
    it sets. *)
Theorem schemes_are_switched_by_exact_words (env : Environment) :
  (Auth.patEnabled (auth (read env)) = false <-> env "AUTH_PAT_ENABLED" = Some "false")
  /\ (Auth.oauthEnabled (auth (read env)) = true
      <-> env "AUTH_OAUTH_ENABLED" = Some "true")
  /\ (env "AUTH_PAT_ENABLED" = None -> env "AUTH_OAUTH_ENABLED" = None ->
      loadConfig env = inr (read env)).
Proof.
  unfold loadConfig, read, differs. cbn [auth Auth.patEnabled Auth.oauthEnabled].
  split; [| split].
  - destruct (env "AUTH_PAT_ENABLED") as [v |]; [| split; discriminate].
    destruct (v =? "false")%string eqn:Hv; cbn [negb].
    + apply String.eqb_eq in Hv. subst v. split; reflexivity.
    + apply String.eqb_neq in Hv. split; [discriminate | congruence].
  - destruct (env "AUTH_OAUTH_ENABLED") as [v |]; [| split; discriminate].
    destruct (v =? "true")%string eqn:Hv; cbn [negb].
    + apply String.eqb_eq in Hv. subst v. split; reflexivity.
    + apply String.eqb_neq in Hv. split; [discriminate | congruence].
  - intros Hp Ho. now rewrite Hp, Ho.
Qed.

(** X11. The port of the command line wins over the environment: when the
    [http] command starts the server with a [--port] that is truthy (neither
    0 nor [NaN]), the port of the configuration is read back from the text
    of that number and does not depend on the environment; and when the
    number is an integer other than 0 of magnitude below 2^53, the
    configuration listens on exactly that port, whatever [PORT] says in the
    environment. *)
Theorem command_line_port_wins (argv : Cli.Argv) (env : Environment)
  (config : ServerConfig) (n : Cli.Number) :
  Cli.main argv env = Cli.HttpServer config ->
  Cli.port argv = Some n ->
  Cli.number_truthy n = true ->
  (forall env', port (read (Cli.with_port argv env')) = port config)
  /\ (forall p safe, n = Cli.Whole p safe -> port config = Some p).
Proof.
  intros Hmain Hport Hn. unfold Cli.main in Hmain.
  assert (Hrun : Cli.runHttpServer argv env = Cli.HttpServer config).
  { destruct (Cli.command argv =? "stdio")%string.
    - unfold Cli.runStdioServer in Hmain.
      destruct (Cli.organization argv) as [o |]; [| discriminate].
      destruct (o =? "")%string; discriminate.
    - destruct (Cli.command argv =? "http")%string; [exact Hmain |].
      destruct (Cli.command argv =? "config")%string; [discriminate |].
      destruct (opt_truthy (Cli.organization argv)); [| discriminate].
      unfold Cli.runStdioServer in Hmain.
      destruct (Cli.organization argv) as [o |]; [| discriminate].
      destruct (o =? "")%string; discriminate. }
  unfold Cli.runHttpServer in Hrun.
  destruct (loadConfig _) as [e | c] eqn:Hload; [discriminate |].
  injection Hrun as <-.
  destruct (loadConfig_cases (Cli.with_port argv env)) as (_ & _ & H).
  destruct (H _ Hload) as [-> _].
  assert (Hany : forall env',
             port (read (Cli.with_port argv env'))
             = parseInt (opt_to_string
                           (opt_or (Some (Cli.number_toString n)) (Some "3000")))).
  { intros env'. unfold Cli.with_port. rewrite Hport, Hn.
    unfold read. cbn [port]. unfold env_or, set_env.
    now cbn [String.eqb Ascii.eqb Bool.eqb]. }
  split.
  - intros env'. now rewrite !Hany.
  - intros p safe ->. rewrite Hany. cbn [Cli.number_toString].
    unfold opt_or, opt_truthy. rewrite string_of_Z_is_not_empty.
    cbn [negb opt_to_string]. apply parseInt_string_of_Z.
Qed.

Example fractional_and_exponent_ports :
  port (read (Cli.with_port Samples.http_on_1e21 Samples.oauth_environment)) = Some 1
  /\ parseInt (Cli.number_toString (Cli.Other "3000.5")) = Some 3000.
Proof. split; reflexivity. Qed.

(** X12. The stdio server runs only with an organization: [main] starts it
    exactly when an organization that is not empty is given and the command
    is neither [http] nor [config]; in particular an unknown command with an
    organization starts it, and the [stdio] command without one fails. *)
Theorem stdio_needs_an_organization (argv : Cli.Argv) (env : Environment)
  (orgName : string) :
  Cli.main argv env = Cli.StdioServer orgName
  <-> (Cli.organization argv = Some orgName /\ orgName <> ""
       /\ Cli.command argv <> "http" /\ Cli.command argv <> "config").
Proof.
  unfold Cli.main, Cli.runStdioServer, Cli.runHttpServer, Cli.command.
  destruct (Cli.organization argv) as [o |]; cbn [opt_truthy].
  - destruct (o =? "")%string eqn:Ho; cbn [negb].
    + apply String.eqb_eq in Ho. subst o.
      repeat match goal with
             | |- context [(?a =? ?b)%string] => destruct (a =? b)%string
             end;
        try destruct (loadConfig _);
        split; try discriminate; intros (H1 & H2 & _); injection H1 as <-;
        now destruct H2.
    + apply String.eqb_neq in Ho.
      destruct (_ =? "stdio")%string eqn:Hs.
      * apply String.eqb_eq in Hs. rewrite Hs.
        split.
        -- intros [= <-]. repeat split; auto; discriminate.
        -- intros ([= <-] & _). reflexivity.
      * destruct (_ =? "http")%string eqn:Hh.
        -- apply String.eqb_eq in Hh.
           split; [destruct (loadConfig _); discriminate |].
           intros (_ & _ & H & _). now destruct H.
        -- destruct (_ =? "config")%string eqn:Hc.
           ++ apply String.eqb_eq in Hc.
              split; [discriminate |]. intros (_ & _ & _ & H). now destruct H.
           ++ apply String.eqb_neq in Hh, Hc.
              split.
              ** intros [= <-]. repeat split; auto.
              ** intros ([= <-] & _). reflexivity.
  - repeat match goal with
           | |- context [(?a =? ?b)%string] => destruct (a =? b)%string
           end;
      try destruct (loadConfig _);
      split; try discriminate; intros (H1 & _); discriminate.
Qed.

End Startup.

(** ** Delegation: deadlines, outcomes and calls *)

Section DelegationFacts.
Import Auth Server Measure.

(** X13. Every deadline is one of three: five seconds exactly for the
    methods that start with [tools/call], two for those that start with
    [tools/list] or [prompts/list], one second for everything else,
    [initialize] and an absent method included; and no deadline exists only
    for a method that is neither a string nor absent. *)
Theorem deadlines_are_bounded (method : jsval) :
  (forall t, getTimeoutForMethod method = Some t ->
     1000 <= t <= 5000
     /\ (t = 5000 <-> opt_startsWith method "tools/call" = Some true)
     /\ (t = 2000 <->
         opt_startsWith method "tools/call" = Some false
         /\ (opt_startsWith method "tools/list" = Some true
             \/ opt_startsWith method "prompts/list" = Some true))
     /\ (t <> 5000 -> t <> 2000 -> t = 1000))
  /\ (getTimeoutForMethod method = None <-> opt_startsWith method "" = None).
Proof.
  assert (Hsolve : forall (t : Z) (a b c : bool),
             (if a then Some 5000 else if b then Some 2000
              else if c then Some 2000 else Some 1000) = Some t ->
             1000 <= t <= 5000
             /\ (t = 5000 <-> Some a = Some true)
             /\ (t = 2000 <-> Some a = Some false
                              /\ (Some b = Some true \/ Some c = Some true))
             /\ (t <> 5000 -> t <> 2000 -> t = 1000)).
  { intros t [|] [|] [|] [= <-]; repeat split; try lia; try discriminate;
      try (intros; exfalso; lia); intuition (try discriminate; try lia). }
  unfold getTimeoutForMethod. split.
  - intros t.
    destruct method; cbn [opt_startsWith]; try discriminate.
    + intros H. apply (Hsolve t false false false). exact H.
    + intros H. apply (Hsolve t false false false). exact H.
    + intros H.
      apply (Hsolve t (startsWith "tools/call" s) (startsWith "tools/list" s)
               (startsWith "prompts/list" s)).
      destruct (startsWith "tools/call" s), (startsWith "tools/list" s),
        (startsWith "prompts/list" s); try exact H.
      destruct (strict_eq_str (JStr s) "initialize"); exact H.
  - destruct method; cbn [opt_startsWith]; try (split; [reflexivity | reflexivity]);
      try (split; discriminate).
    destruct (startsWith "tools/call" s), (startsWith "tools/list" s),
      (startsWith "prompts/list" s), (strict_eq_str (JStr s) "initialize");
      split; discriminate.
Qed.

Lemma resolution_cases (id method : jsval) (es : list Emission) :
  resolution id method (sent es) (errors es) = JNull
  \/ In (resolution id method (sent es) (errors es)) (sent es)
  \/ exists text data,
       resolution id method (sent es) (errors es) = rpc_error id text data.
Proof.
  unfold resolution.
  destruct (errors es) as [| e rest].
  - destruct (sent es) as [| m rest].
    + destruct (opt_startsWith method "notifications/") as [[|] |].
      * now left.
      * right; right. unfold timeout_error. eauto.
      * right; right. unfold failed_to_delegate. eauto.
    + right; left. now left.
  - right; right. unfold transport_error. eauto.
Qed.

Lemma delegation_cases (server : McpServer) (message method id : jsval) :
  get_prop message "method" = Some method ->
  get_prop message "id" = Some id ->
  let delivered := if sets_onmessage server then Some message else None in
  let deliver := if sets_onmessage server then [Deliver message] else [] in
  (exists error,
     delegateToMcpServer message server
     = (inr (failed_to_delegate id error), [ConnectDelegate]))
  \/ (exists error,
        delegateToMcpServer message server
        = (inr (failed_to_delegate id error), ConnectDelegate :: deliver))
  \/ (exists t,
        getTimeoutForMethod method = Some t
        /\ delegateToMcpServer message server
           = (inr (resolution id method (sent (emits_within server delivered t))
                     (errors (emits_within server delivered t))),
              (ConnectDelegate :: deliver ++ [Wait t])%list)).
Proof.
  intros Hm Hi. cbv zeta.
  destruct (connect_throws server) as [e |] eqn:Hc.
  { left. exists e. unfold delegateToMcpServer. rewrite Hm, Hi, Hc. reflexivity. }
  assert (Hd : (sets_onmessage server = true /\ exists e, onmessage_throws server message = Some e)
               \/ (sets_onmessage server = true -> onmessage_throws server message = None)).
  { destruct (sets_onmessage server); [| right; discriminate].
    destruct (onmessage_throws server message) as [e |]; [left | right]; eauto. }
  destruct Hd as [(Hs & e & He) | Hd].
  { right; left. exists e. unfold delegateToMcpServer.
    rewrite Hm, Hi, Hc, Hs. traced. rewrite He. reflexivity. }
  destruct (getTimeoutForMethod method) as [t |] eqn:Ht.
  - right; right. exists t. split; [reflexivity |].
    exact (delegation_runs server message method id t Hm Hi Hc Hd Ht).
  - right; left. exists not_a_function. unfold delegateToMcpServer.
    rewrite Hm, Hi, Hc. traced. destruct (sets_onmessage server).
    + cbn [fst snd app]. rewrite (Hd eq_refl), Ht. reflexivity.
    + cbn [fst snd app]. rewrite Ht. reflexivity.
Qed.

Lemma not_empty_has_properties (b : jsval) :
  empty_body b = false ->
  exists method id, get_prop b "method" = Some method /\ get_prop b "id" = Some id.
Proof.
  destruct b; cbn; try discriminate; eauto.
Qed.

(** X14. Where the outcome of a delegation comes from: it is the marker
    [null], or a message that the server sent, verbatim, or an error response
    that the adapter made, and every such response has the [id] of the
    inbound message, the version [2.0] and the code -32603. *)
Theorem delegation_outcome_provenance (server : McpServer)
  (message method id outcome : jsval) :
  get_prop message "method" = Some method ->
  get_prop message "id" = Some id ->
  result (delegateToMcpServer message server) = inr outcome ->
  outcome = JNull
  \/ (exists t,
        In outcome
          (sent (emits_within server
                   (if sets_onmessage server then Some message else None) t)))
  \/ (exists text data,
        outcome = rpc_error id text data
        /\ get_prop outcome "id" = Some id
        /\ get_prop outcome "jsonrpc" = Some (JStr "2.0")
        /\ exists members,
             get_prop outcome "error" = Some (JObj members)
             /\ assoc "code" members = JNum (-32603)
             /\ assoc "message" members = JStr text).
Proof.
  intros Hm Hi Hr.
  assert (Herr : forall text data,
             outcome = rpc_error id text data ->
             exists text data,
               outcome = rpc_error id text data
               /\ get_prop outcome "id" = Some id
               /\ get_prop outcome "jsonrpc" = Some (JStr "2.0")
               /\ exists members,
                    get_prop outcome "error" = Some (JObj members)
                    /\ assoc "code" members = JNum (-32603)
                    /\ assoc "message" members = JStr text).
  { intros text data ->. exists text, data. repeat split. eexists. repeat split. }
  destruct (delegation_cases server message method id Hm Hi)
    as [(e & H) | [(e & H) | (t & Ht & H)]];
    rewrite H in Hr; unfold result in Hr; cbn [fst] in Hr; injection Hr as <-.
  - right; right. now apply (Herr "Failed to delegate to server" (Some e)).
  - right; right. now apply (Herr "Failed to delegate to server" (Some e)).
  - destruct (resolution_cases id method
                (emits_within server
                   (if sets_onmessage server then Some message else None) t))
      as [H0 | [H0 | (text & data & H0)]].
    + now left.
    + right; left. eauto.
    + right; right. now apply (Herr text data).
Qed.

(** X15. The calls of a delegation: the server is connected once, the
    message is delivered at most once and only after the connection, and
    there is at most one wait, after the delivery, which lasts the deadline
    of the method. *)
Theorem delegation_delivers_once (server : McpServer) (message method id : jsval) :
  get_prop message "method" = Some method ->
  get_prop message "id" = Some id ->
  exists deliver wait,
    trace (delegateToMcpServer message server)
    = (ConnectDelegate :: deliver ++ wait)%list
    /\ (deliver = [] \/ (deliver = [Deliver message] /\ sets_onmessage server = true))
    /\ (wait = []
        \/ exists t, wait = [Wait t] /\ getTimeoutForMethod method = Some t).
Proof.
  intros Hm Hi.
  destruct (delegation_cases server message method id Hm Hi)
    as [(e & H) | [(e & H) | (t & Ht & H)]]; rewrite H; unfold trace; cbn [snd].
  - exists [], []. repeat split; auto.
  - exists (if sets_onmessage server then [Deliver message] else []), [].
    rewrite app_nil_r. split; [reflexivity | split; [| now left]].
    destruct (sets_onmessage server); [right | left]; auto.
  - exists (if sets_onmessage server then [Deliver message] else []), [Wait t].
    split; [reflexivity | split; [| right; eauto]].
    destruct (sets_onmessage server); [right | left]; auto.
Qed.

(** X16. On the single-shot path a body that is not empty always gets the
    outcome of its delegation as its answer: the delegation never rejects,
    the answer is 204 without body when the outcome is [null], and otherwise
    200 with the outcome as body, an error response included. *)
Theorem single_shot_answers_with_the_outcome (C : Collaborators)
  (res : Transport.Response) (req : Request) (auth : Identity)
  (server : McpServer) :
  empty_body (body req) = false ->
  shouldUpgradeToSSE req = false ->
  new_server C req auth = inr server ->
  exists outcome,
    result (delegateToMcpServer (body req) server) = inr outcome
    /\ result (handleMcpRequest C res req auth)
       = match outcome with
         | JNull => NoBody 204
         | _ => Json 200 outcome
         end.
Proof.
  intros He Hu Hs.
  destruct (not_empty_has_properties _ He) as (method & id & Hm & Hi).
  assert (Hr : exists outcome,
             result (delegateToMcpServer (body req) server) = inr outcome).
  { destruct (delegation_cases server (body req) method id Hm Hi)
      as [(e & H) | [(e & H) | (t & _ & H)]]; rewrite H; cbn; eauto. }
  destruct Hr as (outcome & Hr). exists outcome. split; [exact Hr |].
  unfold handleMcpRequest. rewrite Hu. traced. rewrite Hs, He. cbn [fst snd].
  unfold result in Hr. rewrite Hr. now destruct outcome.
Qed.

End DelegationFacts.

(** ** The application *)

Section AppFacts.
Import Auth Server App Measure.
Variable E : Env.
Variable C : Collaborators.
Variable timestamp : string.
Variable res : Transport.Response.

Lemma connection_run (req : Request) (auth : Identity) :
  (exists r, handleMcpConnection C res req auth = (r, [NewServer])
             /\ status_of r = Some 500)
  \/ (exists r, handleMcpConnection C res req auth
                = (r, [NewServer; OpenStream; ConnectStream])
                /\ (status_of r = Some 500 \/ status_of r = None)).
Proof.
  unfold handleMcpConnection. traced.
  destruct (new_server C req auth) as [e | server].
  - left. eexists. split; reflexivity.
  - right. cbn [fst snd app]. destruct (connect_stream C server _) as [[e |] t].
    + destruct (headersSent _); eexists; (split; [reflexivity | cbn; auto]).
    + eexists. split; [reflexivity | cbn; auto].
Qed.

Lemma request_run (req : Request) (auth : Identity) :
  exists r rest,
    handleMcpRequest C res req auth = (r, NewServer :: rest)
    /\ forallb (fun e => is_protocol_event e && negb (is_new_server e)) rest = true
    /\ (status_of r = None \/ status_of r = Some 200 \/ status_of r = Some 204
        \/ status_of r = Some 400 \/ status_of r = Some 500).
Proof.
  unfold handleMcpRequest.
  destruct (shouldUpgradeToSSE req).
  { destruct (connection_run req auth) as [(r & -> & Hs) | (r & -> & Hs)];
      exists r; eexists; (split; [reflexivity | split; [reflexivity |]]);
      intuition. }
  traced. destruct (new_server C req auth) as [e | server].
  { do 2 eexists. split; [reflexivity | split; [reflexivity | cbn; auto 6]]. }
  destruct (empty_body (body req)) eqn:He.
  { do 2 eexists. split; [reflexivity | split; [reflexivity | cbn; auto 6]]. }
  cbn [fst snd app].
  destruct (not_empty_has_properties _ He) as (method & id & Hm & Hi).
  destruct (delegation_cases server (body req) method id Hm Hi)
    as [(e & H) | [(e & H) | (t & _ & H)]]; rewrite H; cbn [fst snd].
  - do 2 eexists. split; [reflexivity | split; [reflexivity | cbn; auto 6]].
  - do 2 eexists. split; [reflexivity | split; [| cbn; auto 6]].
    destruct (sets_onmessage server); reflexivity.
  - match goal with
    | |- context [resolution ?a ?b ?c ?d] => destruct (resolution a b c d)
    end;
      (do 2 eexists; split; [reflexivity | split; [| cbn; auto 6]]);
      destruct (sets_onmessage server); reflexivity.
Qed.

Lemma count_one (rest : list Event) :
  forallb (fun e => is_protocol_event e && negb (is_new_server e)) rest = true ->
  count_events is_new_server rest = O.
Proof.
  induction rest as [| e rest IH]; cbn; [reflexivity |].
  intros H. apply andb_prop in H as [He Hr]. apply andb_prop in He as [_ He].
  apply negb_true_iff in He. rewrite He. now apply IH.
Qed.

Lemma count_app (p : Event -> bool) (a b : list Event) :
  count_events p (a ++ b) = (count_events p a + count_events p b)%nat.
Proof. induction a as [| e a IH]; cbn; [reflexivity | rewrite IH; lia]. Qed.

Lemma count_none (p : Event -> bool) (t : list Event) :
  forallb (fun e => negb (p e)) t = true -> count_events p t = O.
Proof.
  induction t as [| e t IH]; cbn; [reflexivity |].
  intros H. apply andb_prop in H as [He Ht]. apply negb_true_iff in He.
  rewrite He. now apply IH.
Qed.

(** X17. One server per request: on either route of the protocol endpoint
    exactly one protocol server is built when the authentication has called
    [next()], before anything else is done with the protocol, and none is
    built otherwise. *)
Theorem one_server_per_request (cfg : AuthConfig) (req : Request) :
  let built t := count_events is_new_server t in
  (forall auth,
     result (authenticate E cfg req) = Next auth ->
     built (trace (get_mcp E cfg C res req)) = 1%nat
     /\ built (trace (post_mcp E cfg C res req)) = 1%nat
     /\ (exists rest, trace (handleMcpConnection C res req auth) = NewServer :: rest)
     /\ (exists rest, trace (handleMcpRequest C res req auth) = NewServer :: rest))
  /\ ((forall auth, result (authenticate E cfg req) <> Next auth) ->
      built (trace (get_mcp E cfg C res req)) = O
      /\ built (trace (post_mcp E cfg C res req)) = O).
Proof.
  cbv zeta.
  assert (Hauth : count_events is_new_server (trace (authenticate E cfg req)) = O).
  { apply count_none. pose proof (authenticate_trace E cfg req) as H.
    rewrite forallb_forall in H |- *. intros e He. specialize (H e He).
    destruct e; cbn in *; congruence. }
  destruct (route_splits handleMcpConnection E cfg C res req) as (r1 & H1 & N1 & P1).
  destruct (route_splits handleMcpRequest E cfg C res req) as (r2 & H2 & N2 & P2).
  unfold get_mcp, post_mcp. rewrite H1, H2, !count_app, Hauth. cbn [Nat.add].
  split.
  - intros auth Ha. rewrite (P1 auth Ha), (P2 auth Ha).
    destruct (request_run req auth) as (r & rest & Hq & Hrest & _).
    destruct (connection_run req auth) as [(rc & Hc & _) | (rc & Hc & _)];
      unfold trace; rewrite Hc, Hq; cbn [snd count_events is_new_server Nat.add];
      rewrite (count_one rest Hrest); repeat split; eauto.
  - intros Hn. now rewrite (N1 Hn), (N2 Hn).
Qed.

Lemma callback_has_no_protocol (cfg : AuthConfig) (req : Request) :
  forallb (fun e => negb (is_protocol_event e) && negb (is_jwt_verify e)
                    && negb (is_downstream_call e))
    (trace (handleOAuthCallback E cfg req)) = true.
Proof.
  destruct (callback_run E cfg req) as ([H | [H | H]] & _); rewrite H; reflexivity.
Qed.

(** X18. Across the whole application the protocol layer is reached only
    through the two routes of the protocol endpoint, and only for a request
    that the authentication has passed: the health, info and OAuth routes
    and the 404 handler never build or touch a protocol server. *)
Theorem protocol_only_behind_authentication (config : Config.ServerConfig)
  (endpoint : Endpoint) (req : Request) :
  existsb is_protocol_event
    (trace (handle E config C timestamp res endpoint req)) = true ->
  (endpoint = McpGet \/ endpoint = McpPost)
  /\ exists auth, result (authenticate E (Config.auth config) req) = Next auth.
Proof.
  assert (Hmcp : forall handler,
             existsb is_protocol_event
               (trace (route handler E (Config.auth config) C res req)) = true ->
             exists auth, result (authenticate E (Config.auth config) req) = Next auth).
  { intros handler H.
    destruct (route_splits handler E (Config.auth config) C res req)
      as (rest & Hs & Hn & _).
    destruct (result (authenticate E (Config.auth config) req)) as [r | auth] eqn:Hr;
      [| eauto].
    exfalso. rewrite Hs, Hn in H by (intros auth; discriminate).
    rewrite app_nil_r in H. apply existsb_exists in H as (e & He & Hp).
    pose proof (authenticate_trace E (Config.auth config) req) as Ht.
    rewrite forallb_forall in Ht. specialize (Ht e He). now rewrite Hp in Ht. }
  destruct endpoint; cbn [handle].
  - discriminate.
  - discriminate.
  - destruct (oauthEnabled (Config.auth config)); discriminate.
  - destruct (oauthEnabled (Config.auth config)); [| discriminate].
    intros H. exfalso. apply existsb_exists in H as (e & He & Hp).
    pose proof (callback_has_no_protocol (Config.auth config) req) as Ht.
    rewrite forallb_forall in Ht. specialize (Ht e He). rewrite Hp in Ht. discriminate.
  - intros H. split; [now left | now apply (Hmcp handleMcpConnection)].
  - intros H. split; [now right | now apply (Hmcp handleMcpRequest)].
  - discriminate.
Qed.

Lemma handlers_stay_in_protocol (req : Request) (auth : Identity) :
  forallb is_protocol_event (trace (handleMcpConnection C res req auth)) = true
  /\ forallb is_protocol_event (trace (handleMcpRequest C res req auth)) = true.
Proof.
  split.
  - destruct (connection_run req auth) as [(r & -> & _) | (r & -> & _)]; reflexivity.
  - destruct (request_run req auth) as (r & rest & -> & Hrest & _).
    unfold trace. cbn [snd forallb is_protocol_event andb].
    rewrite forallb_forall in Hrest |- *. intros e He.
    specialize (Hrest e He). now apply andb_prop in Hrest as [-> _].
Qed.

(** X19. With OAuth disabled nothing of it is left: no endpoint verifies or
    signs a token or contacts the token endpoint, the two OAuth routes do not
    exist (they get the 404 of an unknown path), and the protocol endpoint
    validates bearer tokens as credentials only. *)
Theorem oauth_disabled_is_absent (config : Config.ServerConfig)
  (endpoint : Endpoint) (req : Request) :
  oauthEnabled (Config.auth config) = false ->
  forallb (fun e => negb (is_jwt_verify e || is_jwt_sign e || is_token_exchange e))
    (trace (handle E config C timestamp res endpoint req)) = true
  /\ (endpoint = OAuthInit \/ endpoint = OAuthCallback ->
      handle E config C timestamp res endpoint req
      = handle E config C timestamp res Unrouted req)
  /\ handle E config C timestamp res Unrouted req
     = (Json 404 (error_body "Endpoint not found"), []).
Proof.
  intros Ho.
  assert (Hmcp : forall handler,
             (forall auth, forallb is_protocol_event (trace (handler C res req auth)) = true) ->
             forallb (fun e => negb (is_jwt_verify e || is_jwt_sign e
                                     || is_token_exchange e))
               (trace (route handler E (Config.auth config) C res req)) = true).
  { intros handler Hh.
    destruct (route_splits handler E (Config.auth config) C res req)
      as (rest & Hs & Hn & Hp).
    rewrite Hs. rewrite forallb_app. apply andb_true_intro. split.
    - unfold authenticate. rewrite Ho. cbn [andb].
      destruct (missing_bearer (authorization req)); [reflexivity |].
      destruct (patEnabled (Config.auth config)); [| reflexivity].
      destruct (pat_run E (Config.auth config) req) as [-> | (o & _ & -> & _)];
        reflexivity.
    - destruct (result (authenticate E (Config.auth config) req)) as [r | auth] eqn:Hr.
      + rewrite Hn by (intros auth; discriminate). reflexivity.
      + rewrite (Hp auth eq_refl). specialize (Hh auth).
        rewrite forallb_forall in Hh |- *. intros e He. specialize (Hh e He).
        destruct e; cbn in *; congruence. }
  split; [| split].
  - destruct endpoint; cbn [handle]; rewrite ?Ho; try reflexivity.
    + apply (Hmcp handleMcpConnection). intros auth. apply handlers_stay_in_protocol.
    + apply (Hmcp handleMcpRequest). intros auth. apply handlers_stay_in_protocol.
  - intros [-> | ->]; cbn [handle]; now rewrite Ho.
  - reflexivity.
Qed.

(** X20. A server whose configuration was loaded never answers 501: the
    validation of [loadConfig] and the conditional registration of the OAuth
    routes leave the answers [not enabled] and [not configured] of the
    handlers out of reach, on every endpoint and for every request. *)
Theorem loaded_server_never_answers_501 (env : Config.Environment)
  (config : Config.ServerConfig) (endpoint : Endpoint) (req : Request) :
  Config.loadConfig env = inr config ->
  status_of (result (handle E config C timestamp res endpoint req)) <> Some 501.
Proof.
  intros Hload.
  destruct (loadConfig_cases env) as (_ & _ & H).
  destruct (H config Hload) as [-> Hu]. clear H Hload.
  set (cfg := Config.auth (Config.read env)) in *.
  assert (Hroute : forall handler,
             (forall auth, status_of (result (handler C res req auth)) <> Some 501) ->
             status_of (result (route handler E cfg C res req)) <> Some 501).
  { intros handler Hh. unfold route. traced.
    destruct (fst (authenticate E cfg req)) as [r | auth] eqn:Hr.
    - destruct (gateway_rejections E cfg req r Hr) as (reason & [-> | ->]);
        cbn; discriminate.
    - apply Hh. }
  destruct endpoint; cbn [handle]; fold cfg; try (cbn; discriminate).
  - destruct (oauthEnabled cfg) eqn:Ho; [| cbn; discriminate].
    apply andb_prop in Hu as [_ Hu]. cbn [negb orb] in Hu. apply andb_prop in Hu as [Hu _].
    apply andb_prop in Hu as [_ Hid].
    unfold initiateOAuthFlow. rewrite Ho, Hid. cbn [negb orb].
    destruct (query_organization req) as [o |]; [| cbn; discriminate].
    destruct (o =? "")%string; cbn; discriminate.
  - destruct (oauthEnabled cfg) eqn:Ho; [| cbn; discriminate].
    destruct (callback_run E cfg req) as (_ & Hok & _).
    apply andb_prop in Hu as [_ Hu]. cbn [negb orb] in Hu. apply andb_prop in Hu as [Hu Hsec].
    apply andb_prop in Hu as [_ Hid].
    unfold handleOAuthCallback. rewrite Ho, Hid, Hsec. cbn [negb orb].
    destruct (opt_truthy (query_code req)); cbn [negb]; [| cbn; discriminate].
    destruct (if opt_truthy (query_state req)
              then JSON.parse (opt_to_string (query_state req))
              else Some (JObj [])) as [stateData |]; [| cbn; discriminate].
    destruct (get_prop stateData "organization"); [| cbn; discriminate].
    traced. destruct (fst (exchangeCodeForToken E _ _ _ _)); [cbn; discriminate |].
    destruct (opt_truthy (jwtSecret cfg)); cbn; discriminate.
  - apply Hroute. intros auth.
    destruct (connection_run req auth) as [(r & -> & Hs) | (r & -> & [Hs | Hs])];
      cbn [result fst]; rewrite Hs; discriminate.
  - apply Hroute. intros auth.
    destruct (request_run req auth) as (r & rest & -> & _ & Hs).
    cbn [result fst]. intuition congruence.
Qed.

End AppFacts.

(** ** The stream: order, failures and framing *)

Section StreamFacts.
Import Transport Run Measure.
Variable sock : Socket.

Lemma send_when_open (message : jsval) (t : HttpTransport) :
  _closed t = false ->
  write_throws sock (_response t) (frame message) = None ->
  send sock message t
  = (None,
     with_response
       {| headers := headers (_response t);
          chunks := (chunks (_response t) ++ [frame message])%list;
          end_calls := end_calls (_response t) |} t).
Proof. intros Hc Hw. unfold send. now rewrite Hc, Hw. Qed.

(** X21. Delivery order is production order: on an open transport whose
    socket accepts every write, a series of sends appends one frame per
    message to the response, in the order of the sends, and neither closes
    the transport nor ends the response. *)
Theorem sends_are_written_in_order (messages : list jsval) :
  (forall r chunk, write_throws sock r chunk = None) ->
  forall t, _closed t = false ->
    let t' := run sock (map OpSend messages) t in
    chunks (_response t') = (chunks (_response t) ++ map frame messages)%list
    /\ _closed t' = false
    /\ end_calls (_response t') = end_calls (_response t)
    /\ headers (_response t') = headers (_response t).
Proof.
  intros Hw. cbv zeta. induction messages as [| m messages IH]; intros t Hc.
  - cbn. rewrite app_nil_r. auto.
  - cbn [map run fold_left step].
    rewrite (send_when_open m t Hc (Hw _ _)). cbn [snd].
    set (t1 := with_response _ t).
    destruct (IH t1 Hc) as (H1 & H2 & H3 & H4).
    unfold run in *. rewrite H1, H2, H3, H4. cbn. rewrite <- app_assoc.
    repeat split.
Qed.

(** X22. A failure does not close the stream: when the socket throws on a
    write, [send] throws the same error, reports it to [onerror] when the
    session has set it, writes nothing and leaves the transport open, and an
    error of the request is reported in the same way; only a close or the
    disconnect of the peer closes. *)
Theorem failures_do_not_close (message error : jsval) (t : HttpTransport) :
  _closed t = false ->
  write_throws sock (_response t) (frame message) = Some error ->
  send sock message t = (Some error, report error t)
  /\ on_request_error error t = report error t
  /\ _closed (report error t) = false
  /\ _response (report error t) = _response t
  /\ onclose_calls (report error t) = onclose_calls t
  /\ onerror_calls (report error t)
     = (if onerror_set t then (onerror_calls t ++ [error])%list else onerror_calls t).
Proof.
  intros Hc Hw. unfold send. rewrite Hc, Hw. repeat split. exact Hc.
Qed.

Lemma free_of_append (set a b : string) :
  free_of set (a ++ b) = free_of set a && free_of set b.
Proof.
  unfold free_of. induction a as [| c a IH]; cbn; [reflexivity |].
  now rewrite IH, andb_assoc.
Qed.

Lemma free_of_cons (set : string) (c : ascii) (r : string) :
  free_of set (String c r) = negb (Chars.mem c set) && free_of set r.
Proof. reflexivity. Qed.

Lemma quoted_character_is_one_line (c : ascii) :
  free_of line_breaks (JSON.quote_char c) = true.
Proof. destruct c as [[] [] [] [] [] [] [] []]; reflexivity. Qed.

Lemma quoted_is_one_line (s : string) : free_of line_breaks (JSON.quote s) = true.
Proof.
  unfold JSON.quote. rewrite free_of_cons, free_of_append.
  change (free_of line_breaks (String Chars.dquote "")) with true.
  change (negb (Chars.mem Chars.dquote line_breaks)) with true.
  rewrite andb_true_r. cbn [andb].
  induction s as [| c s IH]; [reflexivity |].
  cbn [JSON.quote_chars]. now rewrite free_of_append, quoted_character_is_one_line.
Qed.

Lemma digits_are_one_line (d : Decimal.uint) :
  free_of line_breaks (NilEmpty.string_of_uint d) = true.
Proof.
  induction d; cbn [NilEmpty.string_of_uint]; try reflexivity;
    rewrite free_of_cons, IHd; reflexivity.
Qed.

Lemma number_is_one_line (n : Z) : free_of line_breaks (string_of_Z n) = true.
Proof.
  assert (H : forall d, free_of line_breaks (NilZero.string_of_uint d) = true).
  { intros d. unfold NilZero.string_of_uint.
    destruct d; try reflexivity; apply (digits_are_one_line (_ d)). }
  destruct n as [| p | p]; unfold string_of_Z; cbn [Z.to_int NilZero.string_of_int].
  - reflexivity.
  - apply H.
  - rewrite free_of_cons, H. reflexivity.
Qed.

Lemma literal_is_one_line (l : string) :
  all_chars is_number_char l = true -> free_of line_breaks l = true.
Proof.
  unfold free_of. induction l as [| c l IH]; cbn [all_chars]; [reflexivity |].
  intros H. apply andb_prop in H as [Hc Hl]. rewrite (IH Hl), andb_true_r.
  revert Hc. clear. destruct c as [[] [] [] [] [] [] [] []]; cbv; congruence.
Qed.

Lemma join_is_one_line (pieces : list string) :
  Forall (fun x => free_of line_breaks x = true) pieces ->
  free_of line_breaks (join "," pieces) = true.
Proof.
  induction 1 as [| x rest Hx Hrest IH]; [reflexivity |].
  destruct rest as [| y rest]; [exact Hx |].
  change (join "," (x :: y :: rest)) with (x ++ "," ++ join "," (y :: rest)).
  rewrite !free_of_append, Hx, IH. reflexivity.
Qed.

(** The text of a value has no line break. *)
Lemma stringify_is_one_line :
  forall v text,
    literals_are_numbers v = true ->
    JSON.stringify v = Some text ->
    free_of line_breaks text = true.
Proof.
  fix IH 1. intros v text Hv Hs. destruct v; cbn in Hs.
  - discriminate.
  - now injection Hs as <-.
  - destruct b; now injection Hs as <-.
  - injection Hs as <-. apply number_is_one_line.
  - injection Hs as <-. now apply literal_is_one_line.
  - injection Hs as <-. apply quoted_is_one_line.
  - injection Hs as <-. rewrite free_of_cons, free_of_append.
    change (free_of line_breaks "]") with true.
    change (negb (Chars.mem "[" line_breaks)) with true.
    rewrite andb_true_r. cbn [andb].
    apply join_is_one_line. cbn [literals_are_numbers] in Hv.
    induction items as [| x items IHitems]; cbn [map]; [constructor |].
    cbn [forallb] in Hv. apply andb_prop in Hv as [Hx Hitems].
    constructor; [| now apply IHitems].
    destruct (JSON.stringify x) as [t |] eqn:Hx'; [| reflexivity].
    exact (IH x t Hx Hx').
  - injection Hs as <-. rewrite free_of_cons, free_of_append.
    change (free_of line_breaks "}") with true.
    change (negb (Chars.mem "{" line_breaks)) with true.
    rewrite andb_true_r. cbn [andb].
    apply join_is_one_line. cbn [literals_are_numbers] in Hv.
    induction fields as [| [k x] fields IHfields]; cbn [flat_map fst snd];
      [constructor |].
    cbn [forallb snd] in Hv. apply andb_prop in Hv as [Hx Hfields].
    destruct (JSON.stringify x) as [t |] eqn:Hx'.
    + cbn [app]. constructor; [| now apply IHfields].
      change (free_of line_breaks (JSON.quote k ++ (":" ++ t)) = true).
      rewrite !free_of_append, quoted_is_one_line, (IH x t Hx Hx'). reflexivity.
    + cbn [app]. now apply IHfields.
  - now injection Hs as <-.
Qed.

(** X23. One message, one event: the frame of a message is [data: ], a
    payload and an empty line, and the payload contains neither a line feed
    nor a carriage return, whatever the strings of the message contain; so
    no message can end its event early or start another one. *)
Theorem frame_is_one_event (message : jsval) :
  literals_are_numbers message = true ->
  exists payload,
    frame message = "data: " ++ payload ++ nl ++ nl
    /\ free_of line_breaks payload = true
    /\ (forall text, JSON.stringify message = Some text -> payload = text).
Proof.
  intros Hv. unfold frame.
  destruct (JSON.stringify message) as [text |] eqn:Hs.
  - exists text. split; [reflexivity | split].
    + exact (stringify_is_one_line message text Hv Hs).
    + now intros t [= <-].
  - exists "undefined". split; [reflexivity | split; [reflexivity | discriminate]].
Qed.

End StreamFacts.

(** ** The earlier message handler *)

Section EarlierFacts.
Import Server Earlier.



End EarlierFacts.

(** ** The single-shot route and the stream *)

Section UpgradeFacts.
Import Auth Server Measure.

(** X26. A POST is answered on the spot unless it asks for the upgrade in
    so many words: when the [Upgrade] header is not exactly [sse], the
    answer of the single-shot handler has a status (it is never an event
    stream), whatever the [Accept] header says, and no stream is opened. *)
Theorem post_is_not_upgraded_by_accept (C : Collaborators) (res : Transport.Response)
  (req : Request) (auth : Identity) :
  method req = "POST" ->
  upgrade req <> Some "sse" ->
  (exists status, status_of (result (handleMcpRequest C res req auth)) = Some status)
  /\ forallb (fun e => match e with
                       | OpenStream | ConnectStream => false
                       | _ => true
                       end)
       (trace (handleMcpRequest C res req auth)) = true.
Proof.
  intros Hm Hu.
  assert (Hs : shouldUpgradeToSSE req = false).
  { unfold shouldUpgradeToSSE. rewrite Hm. cbn [String.eqb Ascii.eqb Bool.eqb].
    destruct (upgrade req) as [u |]; [| reflexivity].
    destruct (u =? "sse")%string eqn:He; [| reflexivity].
    apply String.eqb_eq in He. subst u. now destruct Hu. }
  unfold handleMcpRequest. rewrite Hs. traced.
  destruct (new_server C req auth) as [e | server].
  { split; [eexists; reflexivity | reflexivity]. }
  destruct (empty_body (body req)) eqn:He.
  { split; [eexists; reflexivity | reflexivity]. }
  cbn [fst snd app].
  destruct (not_empty_has_properties _ He) as (m & id & Hmm & Hi).
  destruct (delegation_cases server (body req) m id Hmm Hi)
    as [(e & H) | [(e & H) | (t & _ & H)]]; rewrite H; cbn [fst snd].
  - split; [eexists; reflexivity | reflexivity].
  - split; [eexists; reflexivity |]. destruct (sets_onmessage server); reflexivity.
  - split.
    + match goal with
      | |- context [resolution ?a ?b ?c ?d] => destruct (resolution a b c d)
      end; eexists; reflexivity.
    + match goal with
      | |- context [resolution ?a ?b ?c ?d] => destruct (resolution a b c d)
      end; destruct (sets_onmessage server); reflexivity.
Qed.

End UpgradeFacts.

(** ** The further properties at work *)

Section AtWork.
Import Examples Samples.

Lemma oauth_claim_precedes_header_witness :
  Auth.organization Examples.federated = JStr "contoso"
  /\ Auth.x_ado_organization with_token_and_header = Some "fabrikam".
Proof.
  assert (Hn : result (Auth.authenticateWithOAuth world both_schemes
                         with_token_and_header) = Auth.Next federated)
    by reflexivity.
  destruct (oauth_claim_precedes_header world both_schemes with_token_and_header
              federated Hn) as (decoded & claimed & Hv & Hc & _ & Hclaim & _).
  vm_compute in Hv. injection Hv as <-.
  vm_compute in Hc. injection Hc as <-.
  split; [exact (Hclaim eq_refl) | reflexivity].
Defined.

Lemma gateway_rejects_with_400_or_401_witness :
  exists reason,
    Json 400 (error_body "Missing x-ado-organization header")
    = Json 400 (error_body reason)
    \/ Json 400 (error_body "Missing x-ado-organization header")
       = Json 401 (error_body reason).
Proof.
  exact (gateway_rejects_with_400_or_401 world both_schemes with_pat_only _ eq_refl).
Defined.

Lemma validated_credential_is_used_witness :
  exists client token,
    Client.createAzureDevOpsClient (Some contoso) None = inr client
    /\ Client.bearer client = JStr token
    /\ In (DownstreamCall (Client.orgUrl client) token)
         (trace (Auth.authenticate world both_schemes with_pat))
    /\ Measure.count_events is_downstream_call
         (trace (Auth.authenticate world both_schemes with_pat)) = 1%nat
    /\ Auth.getProjects world (Client.orgUrl client) token = true.
Proof.
  exact (validated_credential_is_used world both_schemes with_pat contoso None
           eq_refl eq_refl).
Defined.


Lemma callback_failures_are_uniform_witness :
  Measure.status_of
    (result (Auth.handleOAuthCallback world both_schemes
               (oauth_request None (Some "code-2") None))) = Some 200
  \/ result (Auth.handleOAuthCallback world both_schemes
               (oauth_request None (Some "code-2") None))
     = Json 400 (error_body "Failed to exchange authorization code").
Proof.
  exact (callback_failures_are_uniform world both_schemes
           (oauth_request None (Some "code-2") None)
           eq_refl eq_refl eq_refl eq_refl).
Defined.

Lemma authorization_url_is_unambiguous_witness :
  exists organization r s t,
    Auth.query_organization (oauth_request (Some "a&b=c") None None)
    = Some organization
    /\ Auth.authorization_url "c0ffee" "https://mcp.example/auth/callback" "a&b=c"
       = "https://app.vssps.visualstudio.com/oauth2/authorize"
         ++ "?client_id=" ++ "c0ffee" ++ "&response_type=code"
         ++ "&redirect_uri=" ++ r ++ "&scope=" ++ s ++ "&state=" ++ t
    /\ Measure.free_of "&=#?" t = true.
Proof.
  destruct (authorization_url_is_unambiguous both_schemes
              (oauth_request (Some "a&b=c") None None) _ eq_refl)
    as (o & r & s & t & Ho & Hu & _ & _ & _ & _ & _ & Ht).
  exists o, r, s, t. split; [exact Ho | split; [exact Hu | exact Ht]].
Defined.

Lemma loaded_configuration_is_usable_witness :
  Config.loadConfig oauth_environment = inr (Config.read oauth_environment).
Proof.
  exact (proj1 (loaded_configuration_is_usable oauth_environment) eq_refl).
Defined.

Lemma schemes_are_switched_by_exact_words_witness :
  Config.loadConfig no_environment = inr (Config.read no_environment).
Proof.
  exact (proj2 (proj2 (schemes_are_switched_by_exact_words no_environment))
           eq_refl eq_refl).
Defined.

Lemma command_line_port_wins_witness :
  Config.port
    (Config.read (Cli.with_port http_on_4000 oauth_environment)) = Some 4000.
Proof.
  refine (proj2 (command_line_port_wins http_on_4000 oauth_environment _
                   (Cli.Whole 4000 eq_refl) eq_refl eq_refl eq_refl)
            4000 eq_refl eq_refl).
Defined.

Lemma stdio_needs_an_organization_witness :
  Cli.main unknown_command no_environment = Cli.StdioServer "contoso".
Proof.
  apply (proj2 (stdio_needs_an_organization unknown_command no_environment "contoso")).
  repeat split; discriminate.
Defined.

Lemma deadlines_are_bounded_witness : 1000 <= 2000 <= 5000.
Proof.
  exact (proj1 (proj1 (deadlines_are_bounded (JStr "tools/list")) 2000 eq_refl)).
Defined.

Lemma delegation_outcome_provenance_witness :
  JNull = JNull
  \/ (exists t, In JNull (Server.sent (Server.emits_within slow (Some initialized) t)))
  \/ (exists text data,
        JNull = Server.rpc_error JUndefined text data
        /\ get_prop JNull "id" = Some JUndefined
        /\ get_prop JNull "jsonrpc" = Some (JStr "2.0")
        /\ exists members,
             get_prop JNull "error" = Some (JObj members)
             /\ assoc "code" members = JNum (-32603)
             /\ assoc "message" members = JStr text).
Proof.
  exact (delegation_outcome_provenance slow initialized
           (JStr "notifications/initialized") JUndefined JNull
           eq_refl eq_refl eq_refl).
Defined.

Lemma delegation_delivers_once_witness :
  exists deliver wait,
    trace (Server.delegateToMcpServer list_tools slow)
    = (ConnectDelegate :: deliver ++ wait)%list
    /\ (deliver = []
        \/ (deliver = [Deliver list_tools] /\ Server.sets_onmessage slow = true))
    /\ (wait = []
        \/ exists t, wait = [Wait t]
                     /\ Server.getTimeoutForMethod (JStr "tools/list") = Some t).
Proof.
  exact (delegation_delivers_once slow list_tools (JStr "tools/list") (JNum 3)
           eq_refl eq_refl).
Defined.

Lemma single_shot_answers_with_the_outcome_witness :
  exists outcome,
    result (Server.delegateToMcpServer list_tools slow) = inr outcome
    /\ result (Server.handleMcpRequest (collaborators slow) blank (post list_tools)
                 contoso)
       = match outcome with
         | JNull => NoBody 204
         | _ => Json 200 outcome
         end.
Proof.
  exact (single_shot_answers_with_the_outcome (collaborators slow) blank
           (post list_tools) contoso slow eq_refl eq_refl eq_refl).
Defined.

Lemma one_server_per_request_witness :
  Measure.count_events Measure.is_new_server
    (trace (Server.post_mcp world both_schemes (collaborators slow) blank
              (post list_tools))) = 1%nat.
Proof.
  destruct (proj1 (one_server_per_request world (collaborators slow) blank
                     both_schemes (post list_tools)) contoso eq_refl)
    as (_ & H & _).
  exact H.
Defined.

Lemma protocol_only_behind_authentication_witness :
  (App.McpPost = App.McpGet \/ App.McpPost = App.McpPost)
  /\ exists auth,
       result (Auth.authenticate world
                 (Config.auth (Config.read oauth_environment)) (post list_tools))
       = Auth.Next auth.
Proof.
  exact (protocol_only_behind_authentication world (collaborators slow) "now" blank
           (Config.read oauth_environment) App.McpPost (post list_tools) eq_refl).
Defined.

Lemma oauth_disabled_is_absent_witness :
  App.handle world (Config.read no_environment) (collaborators slow) "now" blank
    App.OAuthCallback (oauth_request None (Some "code-1") None)
  = (Json 404 (error_body "Endpoint not found"), []).
Proof.
  destruct (oauth_disabled_is_absent world (collaborators slow) "now" blank
              (Config.read no_environment) App.OAuthCallback
              (oauth_request None (Some "code-1") None) eq_refl)
    as (_ & Hsame & Hnone).
  rewrite (Hsame (or_intror eq_refl)). exact Hnone.
Defined.

Lemma loaded_server_never_answers_501_witness :
  Measure.status_of
    (result (App.handle world (Config.read oauth_environment) (collaborators slow)
               "now" blank App.OAuthInit (oauth_request None None None)))
  <> Some 501.
Proof.
  exact (loaded_server_never_answers_501 world (collaborators slow) "now" blank
           oauth_environment (Config.read oauth_environment) App.OAuthInit
           (oauth_request None None None) eq_refl).
Defined.

Lemma sends_are_written_in_order_witness :
  Transport.chunks
    (Transport._response
       (Run.run quiet_socket (map Run.OpSend [list_tools; initialized]) open_stream))
  = [Transport.frame list_tools; Transport.frame initialized].
Proof.
  exact (proj1 (sends_are_written_in_order quiet_socket [list_tools; initialized]
                  (fun _ _ => eq_refl) open_stream eq_refl)).
Defined.

Lemma failures_do_not_close_witness :
  Transport.send broken_socket list_tools open_stream
  = (Some (JError "write EPIPE"),
     Transport.report (JError "write EPIPE") open_stream)
  /\ Transport._closed (Transport.report (JError "write EPIPE") open_stream) = false.
Proof.
  destruct (failures_do_not_close broken_socket list_tools (JError "write EPIPE")
              open_stream eq_refl eq_refl) as (H1 & _ & H3 & _).
  split; [exact H1 | exact H3].
Defined.

Lemma frame_is_one_event_witness :
  exists payload,
    Transport.frame two_lines = "data: " ++ payload ++ Transport.nl ++ Transport.nl
    /\ Measure.free_of Measure.line_breaks payload = true.
Proof.
  destruct (frame_is_one_event two_lines eq_refl) as (payload & H1 & H2 & _).
  exists payload. split; [exact H1 | exact H2].
Defined.



Lemma post_is_not_upgraded_by_accept_witness :
  exists status,
    Measure.status_of
      (result (Server.handleMcpRequest (collaborators slow) blank (post list_tools)
                 contoso)) = Some status.
Proof.
  refine (proj1 (post_is_not_upgraded_by_accept (collaborators slow) blank
                   (post list_tools) contoso eq_refl _)).
  discriminate.
Defined.

End AtWork.
